(** * hERG binding-kinetics simulation driver and signal analysis

    A shallow embedding of [modelling/binding_kinetics.py],
    [modelling/lib_binding_kinetics.py], [scripts/SA_drugs.py] and the peak
    sweep of [scripts/simulation_script/binding_kinetics_comparison.py].

    Numbers are the program's own: a Python [float] (and a NumPy [float64])
    is an IEEE 754 binary64 value, which is what Rocq's primitive [float]
    is, so every arithmetic step below rounds exactly as the program does
    and [nan] is the value of [float('nan')].  Python exceptions are the
    [Raise] results of the [res] monad.

    Conventions.  The recorded signals are NumPy [float64] series (the
    driver returns [log.npview()]), whose scalar division follows IEEE 754
    and never raises; the numeric arguments of the methods ([offset],
    [timestep], [protocol_duration], [drug_conc], [conductance]) are floats,
    a Python integer passed there standing for the float it converts to;
    [repeats] and [save_signal] are integers.  A [dict] is a [gmap], a
    Python or NumPy sequence a [list].  What the sources import and do not
    define (the solver of [myokit], [modelling.ModelComparison], NumPy's
    [power], [log10] and [10**x]) enters as the fields of a class. *)

From Stdlib Require Import ZArith List Floats Lia.
From stdpp Require Import base option list gmap strings pretty.

#[local] Set Warnings "-inexact-float".
#[local] Open Scope Z_scope.

(* ===================================================================== *)
(** * Part I. The embedding                                               *)
(* ===================================================================== *)

(** ** Python values, exceptions and sequences *)

Module Py.

Inductive exn :=
  | ValueError | IndexError | KeyError | OverflowError
  | AttributeError | ExternalError.

Inductive res (A : Type) :=
  | Ok (a : A)
  | Raise (e : exn).
Arguments Ok {A} a.
Arguments Raise {A} e.

Definition bind {A B} (m : res A) (k : A → res B) : res B :=
  match m with
  | Ok a => k a
  | Raise e => Raise e
  end.

(** [for x in xs: acc = body(acc, x)], stopping at the first exception. *)
Fixpoint for_each {A S} (body : S → A → res S) (xs : list A) (acc : S) : res S :=
  match xs with
  | [] => Ok acc
  | x :: xs' => bind (body acc x) (for_each body xs')
  end.

(** [range(n)] for a Python integer [n]: empty when [n <= 0]. *)
Definition range (n : Z) : list nat := seq 0 (Z.to_nat n).

(** *** Floats *)

(** [float(z)] of a Python integer: the nearest binary64, ties to even. *)
Definition float_of_Z (z : Z) : float :=
  SF2Prim (binary_normalize prec emax z 0 false).

Definition float_of_nat (n : nat) : float := float_of_Z (Z.of_nat n).

Definition is_nan (x : float) : bool := PrimFloat.is_nan x.

(** A finite number: neither NaN nor an infinity. *)
Definition is_finite (x : float) : bool :=
  match Prim2SF x with
  | S754_zero _ | S754_finite _ _ _ => true
  | S754_infinity _ | S754_nan => false
  end.

Definition no_nan (l : list float) : bool := forallb (λ x, negb (is_nan x)) l.

(** [int(x)]: truncation towards zero; NaN and the infinities raise. *)
Definition int (x : float) : res Z :=
  match Prim2SF x with
  | S754_zero _ => Ok 0
  | S754_finite s m e =>
      let v := if 0 <=? e then Z.pos m * 2 ^ e else Z.pos m / 2 ^ (- e) in
      Ok (if s then - v else v)
  | S754_infinity _ => Raise OverflowError
  | S754_nan => Raise ValueError
  end.

(** [round(x)]: the nearest integer, ties to the even one. *)
Definition round (x : float) : res Z :=
  match Prim2SF x with
  | S754_zero _ => Ok 0
  | S754_finite s m e =>
      let v :=
        if 0 <=? e then Z.pos m * 2 ^ e
        else
          let d := 2 ^ (- e) in
          let q := Z.pos m / d in
          let r := Z.pos m mod d in
          match 2 * r ?= d with
          | Lt => q
          | Gt => q + 1
          | Eq => if Z.even q then q else q + 1
          end in
      Ok (if s then - v else v)
  | S754_infinity _ => Raise OverflowError
  | S754_nan => Raise ValueError
  end.

(** *** Sequences *)

(** A Python index into a sequence of length [n]: negative indices count
    from the end. *)
Definition norm_index (n : nat) (i : Z) : Z :=
  if i <? 0 then i + Z.of_nat n else i.

(** [l[i]] *)
Definition index {A} (l : list A) (i : Z) : res A :=
  let j := norm_index (length l) i in
  if (j <? 0) || (Z.of_nat (length l) <=? j) then Raise IndexError
  else match l !! Z.to_nat j with
       | Some x => Ok x
       | None => Raise IndexError
       end.

(** A slice bound clamped into [0, n]. *)
Definition clamp_bound (n : nat) (i : Z) : nat :=
  Z.to_nat (Z.min (Z.of_nat n) (Z.max 0 (norm_index n i))).

(** [l[a:b]] *)
Definition slice {A} (l : list A) (a b : Z) : list A :=
  let lo := clamp_bound (length l) a in
  let hi := clamp_bound (length l) b in
  take (hi - lo) (drop lo l).

(** [l[a:]] *)
Definition slice_from {A} (l : list A) (a : Z) : list A :=
  drop (clamp_bound (length l) a) l.

(** The builtin [max(l)]: a later item replaces the current one only when
    it compares strictly greater. *)
Definition max (l : list float) : res float :=
  match l with
  | [] => Raise ValueError
  | x :: l' => Ok (fold_left (λ cur item, if (cur <? item)%float then item else cur) l' x)
  end.

(** The builtin [min(l)]. *)
Definition min (l : list float) : res float :=
  match l with
  | [] => Raise ValueError
  | x :: l' => Ok (fold_left (λ cur item, if (item <? cur)%float then item else cur) l' x)
  end.

End Py.

Notation "'let*' x := m 'in' k" := (Py.bind m (λ x, k))
  (at level 10, x pattern, m at level 100, k at level 200).

(** ** NumPy reductions used by the program *)

Module Np.
Import Py.

(** [np.max(a)]: the maximum reduction keeps the accumulator when it is
    greater or equal or is NaN, so a NaN anywhere makes the result NaN. *)
Definition maximum (acc x : float) : float :=
  if (x <=? acc)%float || is_nan acc then acc else x.

Definition max (a : list float) : res float :=
  match a with
  | [] => Raise ValueError
  | x :: a' => Ok (fold_left maximum a' x)
  end.

(** [a.argmin()]: the index of the first minimum; the scan replaces the
    current minimum [mp] by a later item [x] when [mp <= x] is false, and
    stops at the first NaN, which counts as the minimum. *)
Fixpoint argmin_scan (a : list float) (i : nat) (mp : float) (best : nat) : nat :=
  match a with
  | [] => best
  | x :: a' =>
      if (mp <=? x)%float then argmin_scan a' (S i) mp best
      else if is_nan x then i
      else argmin_scan a' (S i) x i
  end.

Definition argmin (a : list float) : res nat :=
  match a with
  | [] => Raise ValueError
  | x :: a' => Ok (if is_nan x then 0%nat else argmin_scan a' 1 x 0)
  end.

End Np.

(** ** The recorded signals ([myokit.DataLog])

    A log maps a variable name to its series.  A log folded into pulses
    also holds, per variable, the series of pulse 0, 1, ... in that order
    (the keys [0.name], [1.name], ... of the library): [log[name, i]] is
    the [i]-th of them and [log.keys_like(name)] lists their keys. *)

Module DataLog.
Import Py.

Record t := mk {
  series : gmap string (list float);
  pulses : gmap string (list (list float));
}.

(** [log[name]] *)
Definition getitem (log : t) (name : string) : res (list float) :=
  match series log !! name with
  | Some s => Ok s
  | None => Raise KeyError
  end.

Definition pulses_of (log : t) (name : string) : list (list float) :=
  default [] (pulses log !! name).

(** [log.keys_like(name)]: one key per pulse index. *)
Definition keys_like (log : t) (name : string) : list (nat * string) :=
  imap (λ i _, (i, name)) (pulses_of log name).

(** [log[name, i]] *)
Definition getitem_pulse (log : t) (name : string) (i : nat) : res (list float) :=
  match pulses_of log name !! i with
  | Some s => Ok s
  | None => Raise KeyError
  end.

End DataLog.

(** ** Signal analysis ([BindingKinetics.extract_peak], [APD90],
       [APD90_update]) *)

Module Signal.
Import Py.

(** [extract_peak(self, signal_log, current_name)] *)
Definition extract_peak (signal_log : DataLog.t) (current_name : string)
  : res (list float * float) :=
  let peaks : list float := [] in
  let pulses := length (DataLog.keys_like signal_log current_name) in
  let* peaks :=
    (if (pulses =? 0)%nat then
       let* s := DataLog.getitem signal_log current_name in
       let* m := Np.max s in
       Ok (peaks ++ [m])
     else Ok peaks) in
  let* peaks :=
    for_each (λ peaks i,
      let* s := DataLog.getitem_pulse signal_log current_name i in
      let* m := Np.max s in
      Ok (peaks ++ [m])) (range (Z.of_nat pulses)) peaks in
  let* first := index peaks 0 in
  if (first =? 0)%float then Ok (peaks, 0%float)
  else
    let* last := index peaks (-1) in
    Ok (peaks, ((first - last) / first)%float).

(** [APD90(self, signal, offset, timestep)] *)
Definition APD90 (signal : list float) (offset timestep : float) : res float :=
  let* mx := Py.max signal in
  let* mn := Py.min signal in
  let APA := (mx - mn)%float in
  let* mn := Py.min signal in
  let APD90_v := (mn + 0.1 * APA)%float in
  let* index := Np.argmin (map (λ s, abs (s - APD90_v)%float) signal) in
  let APD90 := (float_of_nat index * timestep - offset)%float in
  if (APD90 <? 1)%float then Ok (float_of_nat (length signal) * timestep)%float
  else Ok APD90.

(** The inner loop of [APD90_update]:
    [for ind, v in enumerate(window): if v < APD90_v: ...; break]. *)
Fixpoint first_below (APD90_v : float) (window : list float) (ind : nat)
  : option (nat * float) :=
  match window with
  | [] => None
  | v :: rest =>
      if (v <? APD90_v)%float then Some (ind, v)
      else first_below APD90_v rest (S ind)
  end.

(** The body of the [if v < APD90_v] branch. *)
Definition crossing_time (time_window Vm_window : list float) (APD90_v : float)
    (ind : nat) (v : float) : res float :=
  let* t_prev := index time_window (Z.of_nat ind - 1) in
  let* v_prev := index Vm_window (Z.of_nat ind - 1) in
  let* t_current := index time_window (Z.of_nat ind) in
  Ok (t_prev + (APD90_v - v_prev) / (v - v_prev) * (t_current - t_prev))%float.

(** The threshold [min(AP_Vm) + 0.1 * (max(AP_Vm) - min(AP_Vm))]. *)
Definition repolarisation_threshold (AP_Vm : list float) : res float :=
  let* mx := Py.max AP_Vm in
  let* mn := Py.min AP_Vm in
  let APamp := (mx - mn)%float in
  let* mn := Py.min AP_Vm in
  Ok (mn + 0.1 * APamp)%float.

(** [Vm_signal[round(i * protocol_duration / timestep):
               round((i + 1) * (protocol_duration + offset) / timestep)]] *)
Definition pulse_slice (Vm_signal : list float) (offset protocol_duration timestep : float)
    (i : nat) : res (list float) :=
  let* a := round (float_of_nat i * protocol_duration / timestep)%float in
  let* b := round (float_of_nat (i + 1) * (protocol_duration + offset) / timestep)%float in
  Ok (slice Vm_signal a b).

(** One iteration of [for i in range(pulse_num)]: the value appended. *)
Definition pulse_APD90 (time_signal Vm_signal : list float)
    (offset protocol_duration timestep : float) (i : nat) : res float :=
  let* AP_Vm := pulse_slice Vm_signal offset protocol_duration timestep i in
  let* APD90_v := repolarisation_threshold AP_Vm in
  let* min_APD := int (5 / timestep)%float in
  let* offset_index := int (offset / timestep)%float in
  let* start_time := index time_signal offset_index in
  let Vm_window := slice_from AP_Vm (offset_index + min_APD) in
  let time_window := slice_from time_signal (offset_index + min_APD) in
  let* end_time :=
    match first_below APD90_v Vm_window 0 with
    | Some (ind, v) =>
        let* e := crossing_time time_window Vm_window APD90_v ind v in
        Ok (Some e)
    | None => Ok None
    end in
  match end_time with
  | Some end_time => Ok (end_time - start_time)%float
  | None => Ok nan
  end.

(** [timestep = (max(time_signal) - min(time_signal)) / len(time_signal)] *)
Definition sampling_step (time_signal : list float) : res float :=
  let* mx := Py.max time_signal in
  let* mn := Py.min time_signal in
  Ok ((mx - mn) / float_of_nat (length time_signal))%float.

(** [pulse_num = round(len(Vm_signal) / len(time_signal))] *)
Definition pulse_count (time_signal Vm_signal : list float) : res Z :=
  round (float_of_nat (length Vm_signal) / float_of_nat (length time_signal))%float.

(** [APD90_update(self, time_signal, Vm_signal, offset, protocol_duration)] *)
Definition APD90_update (time_signal Vm_signal : list float)
    (offset protocol_duration : float) : res (list float) :=
  let* timestep := sampling_step time_signal in
  let* pulse_num := pulse_count time_signal Vm_signal in
  for_each (λ APD90s i,
    let* APD90_value :=
      pulse_APD90 time_signal Vm_signal offset protocol_duration timestep i in
    Ok (APD90s ++ [APD90_value])) (range pulse_num) [].

End Signal.

(** ** The parameter library ([lib_binding_kinetics.py]) *)

Module Library.
Import Py.
#[local] Open Scope float_scope.

(** One entry of [BindingParameters.binding_parameters]. *)
Record binding := mk_binding {
  bp_Kmax : float; bp_Ku : float; bp_EC50 : float; bp_N : float;
  bp_Vhalf : float; bp_Cmax : float;
}.

(** [BindingParameters().drug_compounds] *)
Definition binding_compounds : list string :=
  ["dofetilide"; "bepridil"; "terfenadine"; "cisapride"; "verapamil";
   "ranolazine"; "quinidine"; "sotalol"; "chlorpromazine"; "ondansetron";
   "diltiazem"; "mexiletine"; "droperidol"].

(** [BindingParameters().binding_parameters]; the fields are given in the
    order [Kmax], [Ku], [EC50], [N], [Vhalf], [Cmax]. *)
Definition binding_parameters : gmap string binding :=
  list_to_map [
    ("dofetilide", mk_binding 1e8 1.79e-5 5.483e8 0.9999 (-1.147) 2);
    ("bepridil", mk_binding 3.735e7 1.765e-4 1e9 0.9365 (-54.93) 33);
    ("terfenadine", mk_binding 9884 8.18e-5 41380 0.65 (-77.49) 4);
    ("cisapride", mk_binding 9.997 4.161e-4 42.06 0.9728 (-199.5) 2.6);
    ("cisapride_kmax_verapamil", mk_binding 4.646e4 4.161e-4 42.06 0.9728 (-199.5) 2.6);
    ("cisapride_kmax_bepridil", mk_binding 3.735e7 4.161e-4 42.06 0.9728 (-199.5) 2.6);
    ("cisapride_EC50_ranolazine", mk_binding 9.997 4.161e-4 1.472e5 0.9728 (-199.5) 2.6);
    ("cisapride_EC50_verapamil", mk_binding 9.997 4.161e-4 9.184e6 0.9728 (-199.5) 2.6);
    ("cisapride_kmax_EC50_verapamil", mk_binding 4.646e4 4.161e-4 9.184e6 0.9728 (-199.5) 2.6);
    ("verapamil", mk_binding 4.646e4 7.927e-4 9.184e6 1.043 (-100) 81);
    ("ranolazine", mk_binding 55.84 1.929e-2 1.472e5 0.95 (-94.87) 1948.2);
    ("mexiletine", mk_binding 9.996 9.967e-2 2.308e6 1.304 (-86.26) 4129);
    ("quinidine", mk_binding 5770 1e-2 1e6 0.8311 (-64.87) 3237);
    ("sotalol", mk_binding 2403 1.985e-2 9.619e6 0.7516 (-55) 14690);
    ("chlorpromazine", mk_binding 206000 3.866e-2 5.677e7 0.8871 (-14.57) 38);
    ("ondansetron", mk_binding 33540 2.325e-2 9.95e6 0.8874 (-82.11) 139);
    ("diltiazem", mk_binding 251 2.816e-1 1e6 0.9485 (-90.89) 122);
    ("droperidol", mk_binding 14.21 1.256e-3 116.5 0.578 (-78.68) 6.33);
    ("pimozide", mk_binding 10.07 4.576e-5 5.601 0.8714 (-78.68) 0.431)
  ].

(** A concentration grid: a literal list, or [10.0**np.linspace(lo, hi, num)]. *)
Inductive grid :=
  | Values (concentrations : list float)
  | Pow10Linspace (lo hi : float) (num : nat).

(** One entry of [DrugConcentrations.drug_concentrations]. *)
Record grids := mk_grids { coarse : grid; fine : grid; lit_default : grid }.

(** [DrugConcentrations().drug_compounds] *)
Definition drug_compounds : list string :=
  ["dofetilide"; "bepridil"; "terfenadine"; "cisapride"; "verapamil";
   "ranolazine"; "quinidine"; "sotalol"; "chlorpromazine"; "ondansetron";
   "diltiazem"; "mexiletine"; "droperidol"].

(** [DrugConcentrations().drug_concentrations] *)
Definition drug_concentrations : gmap string grids :=
  list_to_map [
    ("dofetilide", mk_grids
       (Values [0; 0.1; 1; 10; 30; 100; 300; 500; 1000])
       (Pow10Linspace (-1) 2.5 20%nat)
       (Values [1; 3; 10; 30]));
    ("verapamil", mk_grids
       (Values [0; 0.1; 1; 30; 300; 1000; 10000; 1e5])
       (Pow10Linspace (-1) 5 20%nat)
       (Values [30; 100; 300; 1000]));
    ("bepridil", mk_grids
       (Values [0; 0.1; 1; 30; 100; 300; 1000; 10000])
       (Pow10Linspace (-1) 5 20%nat)
       (Values [10; 30; 100; 300]));
    ("terfenadine", mk_grids
       (Values [0; 0.1; 1; 10; 30; 100; 300; 500; 1000; 10000])
       (Pow10Linspace (-1) 5 20%nat)
       (Values [3; 10; 30; 100]));
    ("cisapride", mk_grids
       (Values [0; 0.1; 1; 10; 30; 100; 300; 500; 1000; 3000])
       (Pow10Linspace (-1) 3 20%nat)
       (Values [1; 10; 100; 300]));
    ("ranolazine", mk_grids
       (Values [0; 1; 30; 300; 500; 1000; 10000; 1e5; 1e6])
       (Pow10Linspace 1 5.5 20%nat)
       (Values [1000; 1e4; 3e4; 1e5]));
    ("quinidine", mk_grids
       (Values [0; 1; 30; 300; 500; 1000; 3000; 10000; 1e5])
       (Pow10Linspace (-1) 5 20%nat)
       (Values [100; 300; 1000; 10000]));
    ("sotalol", mk_grids
       (Values [0; 1; 30; 100; 300; 1000; 10000; 3e4; 1e5; 3e5; 1e6; 1e7])
       (Pow10Linspace (-1) 7 20%nat)
       (Values [1e4; 3e4; 1e5; 3e5]));
    ("chlorpromazine", mk_grids
       (Values [0; 1; 30; 300; 500; 1000; 3000; 10000; 1e5])
       (Pow10Linspace (-1) 4.5 20%nat)
       (Values [100; 300; 1000; 3000]));
    ("ondansetron", mk_grids
       (Values [0; 1; 30; 300; 500; 1000; 3000; 10000; 1e5; 3e5])
       (Pow10Linspace (-1) 5.5 20%nat)
       (Values [300; 1000; 3000; 1e4]));
    ("diltiazem", mk_grids
       (Values [0; 1; 30; 100; 300; 1000; 3000; 10000; 3e4; 1e5; 1e6; 1e7])
       (Pow10Linspace (-1) 6 20%nat)
       (Values [3000; 1e4; 3e4; 1e5]));
    ("mexiletine", mk_grids
       (Values [0; 1; 30; 100; 300; 1000; 10000; 3e4; 1e5; 1e6; 1e7])
       (Pow10Linspace (-1) 7 20%nat)
       (Values [1e4; 3e4; 1e5; 3e5]))
  ].

(** [table[key]] of a Python [dict]. *)
Definition lookup_key {V} (table : gmap string V) (key : string) : res V :=
  match table !! key with
  | Some v => Ok v
  | None => Raise KeyError
  end.

End Library.

(** ** The consumed interface of the simulation library ([myokit])

    A model variable is named by its component and its own name
    ([ikr.D] is [("ikr", "D")]).  A model holds its literal constants and,
    in their order, its state variables with the initial value of each.  A
    [Simulation] is built from a copy of the model and is then configured
    by the driver; what the solver does with it is the library's business
    and enters through [Service]. *)

Module Myokit.
Import Py.

Definition qname : Type := string * string.

Record Model := mk_model {
  constants : gmap qname float;
  states : list (qname * float);
}.

(** The state a simulation starts from: the model's own initial state, or a
    state handed to [sim.set_state]. *)
Inductive start :=
  | ModelState (values : list (qname * float))
  | Supplied (state : gmap string (list float)).

Record Simulation (Protocol : Type) := mk_sim {
  sim_constants : gmap qname float;
  sim_default_state : list (qname * float);
  sim_state : start;
  sim_protocol : option Protocol;
  sim_abs_tol : float;
  sim_rel_tol : float;
}.
Arguments mk_sim {Protocol}.
Arguments sim_constants {Protocol}.
Arguments sim_default_state {Protocol}.
Arguments sim_state {Protocol}.
Arguments sim_protocol {Protocol}.
Arguments sim_abs_tol {Protocol}.
Arguments sim_rel_tol {Protocol}.

(** What one solver run reads: the simulation's constants, the state it
    starts from, its protocol and tolerances, and the arguments of
    [sim.pre(pre)] and [sim.run(duration, log=log, log_interval=interval)]. *)
Record job (Protocol : Type) := mk_job {
  job_constants : gmap qname float;
  job_state : start;
  job_protocol : option Protocol;
  job_abs_tol : float;
  job_rel_tol : float;
  job_pre : float;
  job_duration : float;
  job_log : option (list string);
  job_interval : float;
}.
Arguments mk_job {Protocol}.
Arguments job_constants {Protocol}.
Arguments job_state {Protocol}.
Arguments job_protocol {Protocol}.
Arguments job_abs_tol {Protocol}.
Arguments job_rel_tol {Protocol}.
Arguments job_pre {Protocol}.
Arguments job_duration {Protocol}.
Arguments job_log {Protocol}.
Arguments job_interval {Protocol}.

(** What the driver consumes and does not define: protocols, the solver
    (pre-pacing followed by the recorded run, a function of the job) and
    [DataLog.fold]. *)
Class Service := {
  Protocol : Type;
  characteristic_time : Protocol → float;
  integrate : job Protocol → res DataLog.t;
  fold : DataLog.t → float → res DataLog.t;
}.

Section Interface.
Context `{Service}.

(** [model.get(component).var(name)]: the variable must exist. *)
Definition var (m : Model) (component name : string) : res qname :=
  if bool_decide (is_Some (constants m !! (component, name)))
     || bool_decide ((component, name) ∈ (states m).*1)
  then Ok (component, name) else Raise KeyError.

(** [model.get(v).eval()] of a literal constant. *)
Definition eval (m : Model) (v : qname) : res float :=
  match constants m !! v with
  | Some x => Ok x
  | None => Raise ValueError
  end.

(** [model.get(name)] of a component. *)
Definition component (m : Model) (name : string) : res string :=
  if bool_decide (name ∈ (map_to_list (constants m)).*1.*1)
     || bool_decide (name ∈ (states m).*1.*1)
  then Ok name else Raise KeyError.

(** [next(iter(model.states())).parent()] *)
Definition first_state_parent (m : Model) : res string :=
  match states m with
  | (c, _, _) :: _ => Ok c
  | [] => Raise ExternalError
  end.

(** [model.get(v).set_state_value(x)]: [v] must be a state. *)
Definition set_state_value (m : Model) (v : qname) (x : float) : res Model :=
  if bool_decide (v ∈ (states m).*1)
  then Ok (mk_model (constants m)
             (map (λ s, if bool_decide (s.1 = v) then (v, x) else s) (states m)))
  else Raise KeyError.

(** [myokit.Simulation(model, protocol)] *)
Definition new_simulation (m : Model) (p : option Protocol) : Simulation Protocol :=
  mk_sim (constants m) (states m) (ModelState (states m)) p 1e-6%float 1e-4%float.

(** [sim.reset()] *)
Definition reset (s : Simulation Protocol) : Simulation Protocol :=
  mk_sim (sim_constants s) (sim_default_state s) (ModelState (sim_default_state s))
    (sim_protocol s) (sim_abs_tol s) (sim_rel_tol s).

(** [sim.set_tolerance(abs_tol, rel_tol)] *)
Definition set_tolerance (s : Simulation Protocol) (abs_tol rel_tol : float)
  : Simulation Protocol :=
  mk_sim (sim_constants s) (sim_default_state s) (sim_state s)
    (sim_protocol s) abs_tol rel_tol.

(** [sim.set_state(state)] *)
Definition set_state (s : Simulation Protocol) (state : gmap string (list float))
  : Simulation Protocol :=
  mk_sim (sim_constants s) (sim_default_state s) (Supplied state)
    (sim_protocol s) (sim_abs_tol s) (sim_rel_tol s).

(** [sim.set_constant(v, x)]: [v] must be a literal constant. *)
Definition set_constant (s : Simulation Protocol) (v : qname) (x : float)
  : res (Simulation Protocol) :=
  match sim_constants s !! v with
  | Some _ =>
      Ok (mk_sim (<[v := x]> (sim_constants s)) (sim_default_state s) (sim_state s)
            (sim_protocol s) (sim_abs_tol s) (sim_rel_tol s))
  | None => Raise ValueError
  end.

End Interface.
End Myokit.

(** ** The simulation driver ([BindingKinetics]) *)

Module Driver.
Import Py Myokit.

Section Driver.
Context `{Service}.

Record BindingKinetics := mk_driver {
  model : Model;
  protocol : option Protocol;
  sim : Simulation Protocol;
  initial_state : list (qname * float);
  current_head : string;
  original_constants : gmap string float;
}.

(** The keyword arguments the three simulation methods share, with the
    defaults of their signatures. *)
Record options := mk_options {
  timestep : float;
  save_signal : Z;
  log_var : option (list string);
  abs_tol : float;
  rel_tol : float;
}.

Definition default_options : options :=
  mk_options 0.1%float 1 None 1e-6%float 1e-4%float.

(** [self.model.get(self.current_head.var(name)).eval()] *)
Definition head_constant (m : Model) (head name : string) : res float :=
  let* v := var m head name in
  eval m v.

(** [BindingKinetics.__init__(self, model, protocol=None, current_head=None)] *)
Definition init (model : Model) (protocol : option Protocol)
    (head : option string) : res BindingKinetics :=
  let sim := new_simulation model protocol in
  let initial_state := sim_default_state sim in
  let* current_head :=
    match head with
    | None => first_state_parent model
    | Some name => component model name
    end in
  let* Vhalf := head_constant model current_head "Vhalf" in
  let* Kmax := head_constant model current_head "Kmax" in
  let* Ku := head_constant model current_head "Ku" in
  let* n := head_constant model current_head "n" in
  let* EC50 := head_constant model current_head "halfmax" in
  let* Kt := head_constant model current_head "Kt" in
  let* gKr := head_constant model current_head "gKr" in
  let original_constants : gmap string float :=
    <["gKr" := gKr]> (<["Kt" := Kt]> (<["EC50" := EC50]> (<["n" := n]>
      (<["Ku" := Ku]> (<["Kmax" := Kmax]> (<["Vhalf" := Vhalf]> ∅)))))) in
  Ok (mk_driver model protocol sim initial_state current_head original_constants).

(** [self.sim.set_constant(self.current_head.var(name), value)] *)
Definition set_head_constant (self : BindingKinetics) (s : Simulation Protocol)
    (name : string) (value : float) : res (Simulation Protocol) :=
  let* v := var (model self) (current_head self) name in
  set_constant s v value.

(** [self.protocol.characteristic_time()] *)
Definition protocol_time (self : BindingKinetics) : res float :=
  match protocol self with
  | Some p => Ok (characteristic_time p)
  | None => Raise AttributeError
  end.

(** [set_state['ikr.D'][-1] = drug_conc] *)
Definition store_concentration (set_state : gmap string (list float))
    (drug_conc : float) : res (gmap string (list float)) :=
  let* D := Library.lookup_key set_state "ikr.D" in
  let* _ := index D (-1) in
  Ok (<["ikr.D" := <[Nat.pred (length D) := drug_conc]> D]> set_state).

(** A supplied state counts only when it is truthy: not [None] and not an
    empty mapping. *)
Definition truthy (set_state : option (gmap string (list float)))
  : option (gmap string (list float)) :=
  match set_state with
  | Some st => if bool_decide (st = ∅) then None else Some st
  | None => None
  end.

(** The common tail of the simulation methods:
    [self.sim.pre(t_max * (repeats - save_signal))],
    [log = self.sim.run(t_max * save_signal, log=log_var, log_interval=timestep)],
    [d2 = log.npview()] and [d2.fold(t_max)] when [save_signal > 1]. *)
Definition pace_and_record (s : Simulation Protocol) (t_max : float)
    (repeats : Z) (o : options) : res DataLog.t :=
  let* log :=
    integrate (mk_job (sim_constants s) (sim_state s) (sim_protocol s)
                 (sim_abs_tol s) (sim_rel_tol s)
                 (t_max * float_of_Z (repeats - save_signal o))%float
                 (t_max * float_of_Z (save_signal o))%float
                 (log_var o) (timestep o)) in
  if 1 <? save_signal o then fold log t_max else Ok log.

(** [drug_simulation(self, drug, drug_conc, repeats, ..., set_state=None, ...,
    protocol_period=None)].  The result carries the instance and the caller's
    [set_state] object as the call leaves them, and the log returned. *)
Definition drug_simulation (self : BindingKinetics) (drug : string)
    (drug_conc : float) (repeats : Z) (o : options)
    (set_state : option (gmap string (list float)))
    (protocol_period : option float)
  : res (BindingKinetics * option (gmap string (list float)) * DataLog.t) :=
  let* p := Library.lookup_key Library.binding_parameters drug in
  let Vhalf := Library.bp_Vhalf p in
  let Kmax := Library.bp_Kmax p in
  let Ku := Library.bp_Ku p in
  let N := Library.bp_N p in
  let EC50 := Library.bp_EC50 p in
  let* t_max :=
    match protocol_period with
    | None => protocol_time self
    | Some period => Ok period
    end in
  let* concentration := var (model self) "ikr" "D" in
  let* model' := set_state_value (model self) concentration drug_conc in
  let self := mk_driver model' (protocol self) (sim self) (initial_state self)
                (current_head self) (original_constants self) in
  let s := new_simulation (model self) (protocol self) in
  let s := reset s in
  let s := set_tolerance s (abs_tol o) (rel_tol o) in
  let* (s, set_state) :=
    match truthy set_state with
    | Some st =>
        let* st := store_concentration st drug_conc in
        Ok (Myokit.set_state s st, Some st)
    | None => Ok (s, set_state)
    end in
  let* s := set_head_constant self s "Vhalf" Vhalf in
  let* s := set_head_constant self s "Kmax" Kmax in
  let* s := set_head_constant self s "Ku" Ku in
  let* s := set_head_constant self s "n" N in
  let* s := set_head_constant self s "halfmax" EC50 in
  let* s := set_head_constant self s "Kt" 3.5e-5%float in
  let* gKr := Library.lookup_key (original_constants self) "gKr" in
  let* s := set_head_constant self s "gKr" gKr in
  let self := mk_driver (model self) (protocol self) s (initial_state self)
                (current_head self) (original_constants self) in
  let* d2 := pace_and_record s t_max repeats o in
  Ok (self, set_state, d2).

(** [param_values[column].values[0]] of a one-row table. *)
Definition first_value (param_values : gmap string (list float)) (column : string)
  : res float :=
  let* values := Library.lookup_key param_values column in
  index values 0.

(** [custom_simulation(self, param_values, drug_conc, repeats, ...)] *)
Definition custom_simulation (self : BindingKinetics)
    (param_values : gmap string (list float))
    (drug_conc : float) (repeats : Z) (o : options)
  : res (BindingKinetics * DataLog.t) :=
  let* t_max := protocol_time self in
  let* concentration := var (model self) "ikr" "D" in
  let* model' := set_state_value (model self) concentration drug_conc in
  let self := mk_driver model' (protocol self) (sim self) (initial_state self)
                (current_head self) (original_constants self) in
  let s := new_simulation (model self) (protocol self) in
  let s := reset s in
  let s := set_tolerance s (abs_tol o) (rel_tol o) in
  let* Vhalf := first_value param_values "Vhalf" in
  let* s := set_head_constant self s "Vhalf" Vhalf in
  let* Kmax := first_value param_values "Kmax" in
  let* s := set_head_constant self s "Kmax" Kmax in
  let* Ku := first_value param_values "Ku" in
  let* s := set_head_constant self s "Ku" Ku in
  let* N := first_value param_values "N" in
  let* s := set_head_constant self s "n" N in
  let* EC50 := first_value param_values "EC50" in
  let* s := set_head_constant self s "halfmax" EC50 in
  let* s := set_head_constant self s "Kt" 3.5e-5%float in
  let* gKr := Library.lookup_key (original_constants self) "gKr" in
  let* s := set_head_constant self s "gKr" gKr in
  let self := mk_driver (model self) (protocol self) s (initial_state self)
                (current_head self) (original_constants self) in
  let* d2 := pace_and_record s t_max repeats o in
  Ok (self, d2).

(** [self.sim.set_constant(self.current_head.var(name),
                           self.original_constants[key])] *)
Definition restore_constant (self : BindingKinetics) (s : Simulation Protocol)
    (name key : string) : res (Simulation Protocol) :=
  let* v := var (model self) (current_head self) name in
  let* original := Library.lookup_key (original_constants self) key in
  set_constant s v original.

(** [conductance_simulation(self, conductance, repeats, ..., set_state=None)] *)
Definition conductance_simulation (self : BindingKinetics) (conductance : float)
    (repeats : Z) (o : options) (set_state : option (gmap string (list float)))
  : res (BindingKinetics * DataLog.t) :=
  let s := new_simulation (model self) (protocol self) in
  let s := reset s in
  let s :=
    match truthy set_state with
    | Some st => Myokit.set_state s st
    | None => s
    end in
  let s := set_tolerance s (abs_tol o) (rel_tol o) in
  let* s := restore_constant self s "Vhalf" "Vhalf" in
  let* s := restore_constant self s "Kmax" "Kmax" in
  let* s := restore_constant self s "Ku" "Ku" in
  let* s := restore_constant self s "n" "n" in
  let* s := restore_constant self s "halfmax" "EC50" in
  let* s := restore_constant self s "Kt" "Kt" in
  let* s := set_head_constant self s "gKr" conductance in
  let self := mk_driver (model self) (protocol self) s (initial_state self)
                (current_head self) (original_constants self) in
  let* t_max := protocol_time self in
  let* d2 := pace_and_record s t_max repeats o in
  Ok (self, d2).

End Driver.
End Driver.

(** ** The comparison script ([scripts/SA_drugs.py]) *)

Module Comparison.
Import Py.

(** A cell of the result table: the drug name or a number. *)
Inductive cell :=
  | Text (s : string)
  | Number (x : float).

(** The first value [compute_Hill] returns: the fitted coefficients, or the
    string it returns in their place when the fit fails. *)
Inductive fit :=
  | Failed (marker : string)
  | Coefficients (coefs : list float).

(** A one-row [pandas.DataFrame]: its columns in order, each with the value
    of row 0. *)
Definition row : Type := list (string * float).

(** What the script calls and this repository's sources do not define here:
    the methods of [modelling.ModelComparison], the parameter names of
    [modelling.SensitivityAnalysis], and NumPy's [power], [log10] and
    [10**x]. *)
Class Controller := {
  compute_Hill : row → float → res (fit * list float * list float);
  APD_sim : list float → list float → res (list float * list float * list float);
  compute_RMSE : list float → list float → res float;
  compute_ME : list float → list float → res float;
  param_names : list string;
  power : float → float → float;
  log10 : float → float;
  pow10 : float → float;
}.

Section Script.
Context `{Controller}.

Definition APD_points : nat := 20.

(** [param_values[name][0]] *)
Fixpoint column (param_values : row) (name : string) : res float :=
  match param_values with
  | [] => Raise KeyError
  | (c, x) :: rest => if bool_decide (c = name) then Ok x else column rest name
  end.

(** [param_values[name][0] = x] *)
Fixpoint set_column (param_values : row) (name : string) (x : float) : res row :=
  match param_values with
  | [] => Raise KeyError
  | (c, y) :: rest =>
      if bool_decide (c = name) then Ok ((c, x) :: rest)
      else let* rest' := set_column rest name x in Ok ((c, y) :: rest')
  end.

(** [np.linspace(start, stop, num)] *)
Definition linspace (start stop : float) (num : nat) : list float :=
  match num with
  | O => []
  | 1%nat => [start]
  | _ =>
      let div := float_of_nat (num - 1) in
      let delta := (stop - start)%float in
      let step := (delta / div)%float in
      let y := map (λ i, if (step =? 0)%float
                         then (float_of_nat i / div * delta + start)%float
                         else (float_of_nat i * step + start)%float) (seq 0 num) in
      <[(num - 1)%nat := stop]> y
  end.

(** [['conc_' + str(i) for i, _ in enumerate(l)]] *)
Definition conc_labels {A} (l : list A) : list string :=
  imap (λ i _, "conc_" +:+ pretty i) l.

(** [[(i, j) for j in sub]] for one key [i] of [index_dict]. *)
Definition labelled (label : string) (sub : list string) : list (string * string) :=
  map (pair label) sub.

(** [pd.DataFrame(data, index=index)]: one cell per index entry. *)
Definition DataFrame (data : list cell) (index : list (string * string))
  : res (list (string * string * cell)) :=
  if (length data =? length index)%nat then Ok (zip index data)
  else Raise ValueError.

(** [param_evaluation(param_values, drug)] *)
Definition param_evaluation (param_values : row) (drug : string)
  : res (list (string * string * cell)) :=
  let* orig_half_effect_conc := column param_values "EC50" in
  let* param_values := set_column param_values "EC50" 1%float in
  let drug_param_values := param_values in
  let* Hill_n := column param_values "N" in
  let norm_constant := power orig_half_effect_conc (1 / Hill_n)%float in
  let* (Hill_curve_coefs, drug_conc_Hill, peaks_norm) :=
    compute_Hill drug_param_values norm_constant in
  let* lowest := index drug_conc_Hill 1 in
  let* highest := Py.max drug_conc_Hill in
  let drug_conc_AP :=
    map pow10 (linspace (log10 lowest) (log10 highest) APD_points) in
  let* (Hill_curve_coefs, APD_trapping, APD_conductance, RMSError, MAError,
        drug_conc_AP) :=
    match Hill_curve_coefs with
    | Failed _ =>
        let Hill_curve_coefs := repeat nan 2 in
        let APD_trapping := repeat nan APD_points in
        let APD_conductance := repeat nan APD_points in
        let RMSError := nan in
        let MAError := nan in
        Ok (Hill_curve_coefs, APD_trapping, APD_conductance, RMSError, MAError,
            drug_conc_AP)
    | Coefficients Hill_curve_coefs =>
        let* (APD_trapping, APD_conductance, drug_conc_AP) :=
          APD_sim Hill_curve_coefs drug_conc_AP in
        let* RMSError := compute_RMSE APD_trapping APD_conductance in
        let* MAError := compute_ME APD_trapping APD_conductance in
        Ok (Hill_curve_coefs, APD_trapping, APD_conductance, RMSError, MAError,
            drug_conc_AP)
    end in
  let conc_Hill_ind := conc_labels drug_conc_Hill in
  let conc_AP_ind := conc_labels drug_conc_AP in
  let all_index :=
    labelled "drug" ["drug"]
    ++ labelled "drug_conc_Hill" conc_Hill_ind
    ++ labelled "peak_current" conc_Hill_ind
    ++ labelled "Hill_curve" ["Hill_coef"; "IC50"]
    ++ labelled "param_values" param_names
    ++ labelled "drug_conc_AP" conc_AP_ind
    ++ labelled "APD_trapping" conc_AP_ind
    ++ labelled "APD_conductance" conc_AP_ind
    ++ labelled "RMSE" ["RMSE"]
    ++ labelled "ME" ["ME"] in
  let* param_values := set_column param_values "EC50" orig_half_effect_conc in
  DataFrame
    ([Text drug] ++ map Number drug_conc_Hill ++ map Number peaks_norm
     ++ map Number Hill_curve_coefs ++ map Number param_values.*2
     ++ map Number drug_conc_AP ++ map Number APD_trapping
     ++ map Number APD_conductance ++ [Number RMSError] ++ [Number MAError])
    all_index.

End Script.
End Comparison.

(** ** The multi-channel simulations ([drug_multiion_simulation],
       [drug_multiion_CS_sim]) *)

Module MultiIon.
Import Py Myokit Driver.

Section MultiIon.
Context `{Service}.

(** [base_conductance = self.model.get(self.model.get(component).var(name)).eval()]
    followed by
    [self.sim.set_constant(self.model.get(component).var(name),
                           base_conductance * ion_scale[key])] *)
Definition scale_conductance (self : BindingKinetics) (s : Simulation Protocol)
    (ion_scale : gmap string float) (component name key : string)
  : res (Simulation Protocol) :=
  let* base_conductance := head_constant (model self) component name in
  let* v := var (model self) component name in
  let* scale := Library.lookup_key ion_scale key in
  set_constant s v (base_conductance * scale)%float.

(** The block "Scale conductance of ion channels other than hERG" that the
    two methods share. *)
Definition scale_other_channels (self : BindingKinetics) (s : Simulation Protocol)
    (ion_scale : gmap string float) : res (Simulation Protocol) :=
  let* s := scale_conductance self s ion_scale "inal" "gNaL" "INaL" in
  let* s := scale_conductance self s ion_scale "ical" "base" "ICaL" in
  let* s := scale_conductance self s ion_scale "ina" "gNa" "INa" in
  let* s := scale_conductance self s ion_scale "ito" "gto" "Ito" in
  let* s := scale_conductance self s ion_scale "ik1" "gK1" "IK1" in
  scale_conductance self s ion_scale "iks" "gKs" "IKs".

(** [drug_multiion_simulation(self, drug, drug_conc, ion_scale, repeats, ...,
    set_state=None, ...)] *)
Definition drug_multiion_simulation (self : BindingKinetics) (drug : string)
    (drug_conc : float) (ion_scale : gmap string float) (repeats : Z) (o : options)
    (set_state : option (gmap string (list float)))
  : res (BindingKinetics * option (gmap string (list float)) * DataLog.t) :=
  let* p := Library.lookup_key Library.binding_parameters drug in
  let Vhalf := Library.bp_Vhalf p in
  let Kmax := Library.bp_Kmax p in
  let Ku := Library.bp_Ku p in
  let N := Library.bp_N p in
  let EC50 := Library.bp_EC50 p in
  let* t_max := protocol_time self in
  let* concentration := var (model self) "ikr" "D" in
  let* model' := set_state_value (model self) concentration drug_conc in
  let self := mk_driver model' (protocol self) (sim self) (initial_state self)
                (current_head self) (original_constants self) in
  let s := new_simulation (model self) (protocol self) in
  let s := reset s in
  let s := set_tolerance s (abs_tol o) (rel_tol o) in
  let* (s, set_state) :=
    match truthy set_state with
    | Some st =>
        let* st := store_concentration st drug_conc in
        Ok (Myokit.set_state s st, Some st)
    | None => Ok (s, set_state)
    end in
  let* s := set_head_constant self s "Vhalf" Vhalf in
  let* s := set_head_constant self s "Kmax" Kmax in
  let* s := set_head_constant self s "Ku" Ku in
  let* s := set_head_constant self s "n" N in
  let* s := set_head_constant self s "halfmax" EC50 in
  let* s := set_head_constant self s "Kt" 3.5e-5%float in
  let* gKr := Library.lookup_key (original_constants self) "gKr" in
  let* s := set_head_constant self s "gKr" gKr in
  let* s := scale_other_channels self s ion_scale in
  let self := mk_driver (model self) (protocol self) s (initial_state self)
                (current_head self) (original_constants self) in
  let* d2 := pace_and_record s t_max repeats o in
  Ok (self, set_state, d2).

(** [drug_multiion_CS_sim(self, ion_scale, repeats, ...)] *)
Definition drug_multiion_CS_sim (self : BindingKinetics)
    (ion_scale : gmap string float) (repeats : Z) (o : options)
  : res (BindingKinetics * DataLog.t) :=
  let* t_max := protocol_time self in
  let s := new_simulation (model self) (protocol self) in
  let s := reset s in
  let s := set_tolerance s (abs_tol o) (rel_tol o) in
  let* v := var (model self) "ikr" "gKr" in
  let* gKr := Library.lookup_key (original_constants self) "gKr" in
  let* scale := Library.lookup_key ion_scale "IKr" in
  let* s := set_constant s v (gKr * scale)%float in
  let* s := scale_other_channels self s ion_scale in
  let self := mk_driver (model self) (protocol self) s (initial_state self)
                (current_head self) (original_constants self) in
  let* d2 := pace_and_record s t_max repeats o in
  Ok (self, d2).

End MultiIon.
End MultiIon.

(** ** The peak sweep of [scripts/simulation_script/binding_kinetics_comparison.py]

    The script simulates the current at each concentration of a list, keeps
    the peak of the last pulse, saves each log and normalises the peaks.
    Saving a log ([log.save_csv]) and printing a concentration ([str]) are
    the library's and Python's, and enter as the variables of the section. *)

Module PeakSweep.
Import Py Myokit Driver.

Section Script.
Context `{Service}.
Variable save_csv : DataLog.t → string → res ().
Variable str : float → string.
Variable data_dir : string.

(** The keyword arguments of the script's calls:
    [log_var=['engine.time', 'membrane.V', 'ikr.IKr'], abs_tol=1e-7,
    rel_tol=1e-8]. *)
Definition sweep_options : options :=
  mk_options 0.1%float 1 (Some ["engine.time"; "membrane.V"; "ikr.IKr"])
    1e-7%float 1e-8%float.

(** The body of [for i in range(len(drug_conc))]. *)
Definition sweep_step (drug : string) (drug_conc : list float) (repeats : Z)
    (acc : BindingKinetics * list float) (i : nat)
  : res (BindingKinetics * list float) :=
  let (current_model, peaks) := acc in
  let* conc := index drug_conc (Z.of_nat i) in
  let* (current_model, _, log) :=
    drug_simulation current_model drug conc repeats sweep_options None None in
  let* (peak, _) := Signal.extract_peak log "ikr.IKr" in
  let* last_peak := index peak (-1) in
  let peaks := peaks ++ [last_peak] in
  let* conc := index drug_conc (Z.of_nat i) in
  let* _ := save_csv log (data_dir +:+ "SD_current_" +:+ str conc +:+ ".csv") in
  Ok (current_model, peaks).

(** The loop: the instance as the sweep leaves it, and the peaks. *)
Definition peak_sweep (current_model : BindingKinetics) (drug : string)
    (drug_conc : list float) (repeats : Z) : res (BindingKinetics * list float) :=
  for_each (sweep_step drug drug_conc repeats)
    (range (Z.of_nat (length drug_conc))) (current_model, []).

End Script.

(** [peaks = (peaks - min(peaks)) / (max(peaks) - min(peaks))] *)
Definition normalise (peaks : list float) : res (list float) :=
  let* lowest := Py.min peaks in
  let shifted := map (λ p, (p - lowest)%float) peaks in
  let* highest := Py.max peaks in
  let* lowest := Py.min peaks in
  let span := (highest - lowest)%float in
  Ok (map (λ p, (p / span)%float) shifted).

End PeakSweep.

(* ===================================================================== *)
(** * Part II. The notions of the statements, and concrete inputs         *)
(* ===================================================================== *)

(** ** The order of binary64 values *)

Module Order.
Import Py.

(** A rank for every value that is not NaN, increasing with the value: the
    sign class first, then exponent and mantissa, negated below zero. *)
Definition rank (f : spec_float) : Z * Z * Z :=
  match f with
  | S754_nan => (0, 0, 0)
  | S754_zero _ => (0, 0, 0)
  | S754_infinity s => (if s then -2 else 2, 0, 0)
  | S754_finite s m e => if s then (-1, - e, - Z.pos m) else (1, e, Z.pos m)
  end.

(** The lexicographic orders of ranks. *)
Definition rank_lt (a b : Z * Z * Z) : Prop :=
  let '(a1, a2, a3) := a in
  let '(b1, b2, b3) := b in
  a1 < b1 ∨ (a1 = b1 ∧ (a2 < b2 ∨ (a2 = b2 ∧ a3 < b3))).

Definition rank_le (a b : Z * Z * Z) : Prop :=
  let '(a1, a2, a3) := a in
  let '(b1, b2, b3) := b in
  a1 < b1 ∨ (a1 = b1 ∧ (a2 < b2 ∨ (a2 = b2 ∧ a3 <= b3))).

Definition sf_is_nan (f : spec_float) : bool :=
  match f with S754_nan => true | _ => false end.

(** [x <= y] and [x < y] hold, as the program evaluates them. *)
Definition le (x y : float) : Prop := (x <=? y)%float = true.

Definition lt (x y : float) : Prop := (x <? y)%float = true.

End Order.

(** ** Greatest, least and first least elements *)

Module Extrema.
Import Py Order.

(** [x] is a number. *)
Definition not_nan (x : float) : Prop := is_nan x = false.

(** [m] is an element of [l] that no element of [l] exceeds. *)
Definition is_maximum (m : float) (l : list float) : Prop :=
  m ∈ l ∧ ∀ x, x ∈ l → le x m.

(** [m] is an element of [l] that exceeds no element of [l]. *)
Definition is_minimum (m : float) (l : list float) : Prop :=
  m ∈ l ∧ ∀ x, x ∈ l → le m x.

(** [d !! i] is a least element of [d] and every earlier element is
    strictly greater: [i] is the first position of the minimum. *)
Definition is_first_minimum (d : list float) (i : nat) : Prop :=
  ∃ m, d !! i = Some m
       ∧ (∀ j x, d !! j = Some x → le m x)
       ∧ (∀ j x, (j < i)%nat → d !! j = Some x → lt m x).

End Extrema.

(** ** Signal analysis: notions and sample signals *)

Module SignalSpec.
Import Py Order Extrema.

(** The pulses [extract_peak] reads: the per-pulse series of a folded log,
    or the whole series as a single pulse when the log holds none. *)
Definition recorded_pulses (log : DataLog.t) (name : string)
  : option (list (list float)) :=
  match DataLog.pulses_of log name with
  | [] => (λ s, [s]) <$> DataLog.series log !! name
  | ps => Some ps
  end.

(** [m] is what [np.max] returns on [p], the greatest sample when no sample
    is NaN. *)
Definition pulse_maximum (p : list float) (m : float) : Prop :=
  Np.max p = Ok m ∧ (Forall not_nan p → is_maximum m p).

(** The body of the loop of [extract_peak]:
    [peaks.append(np.max(signal_log[current_name, i]))]. *)
Definition append_peak (log : DataLog.t) (name : string)
    (peaks : list float) (i : nat) : res (list float) :=
  let* s := DataLog.getitem_pulse log name i in
  let* m := Np.max s in
  Ok (peaks ++ [m]).

(** A log folded into two pulses of three samples. *)
Definition two_pulse_log : DataLog.t :=
  DataLog.mk ∅ {[ "ikr.IKr" := [[0.5; 2; 1]; [0.25; 1; 0.5]]%float ]}.

(** The log of a single, unfolded run in which one sample is NaN. *)
Definition nan_sample_log : DataLog.t :=
  DataLog.mk {[ "ikr.IKr" := [0.5; nan; 0.25]%float ]} ∅.

(** The log of a single, unfolded run whose maximum is finite. *)
Definition single_run_log : DataLog.t :=
  DataLog.mk {[ "ikr.IKr" := [0.5; -2; -3]%float ]} ∅.

(** Sample [i] is the first of the samples nearest to [v]. *)
Definition first_closest (signal : list float) (v : float) (i : nat) : Prop :=
  is_first_minimum (map (λ s, abs (s - v)%float) signal) i.

(** Eight samples of one action potential. *)
Definition short_trace : list float := [-80; 40; 40; 40; 40; 40; -80; -70]%float.

(** The threshold of pulse [i] and the samples its loop scans: the pulse
    without its first [offset_index + min_APD] samples. *)
Definition scan_window (Vm_signal : list float)
    (offset protocol_duration timestep : float) (i : nat) : res (float * list float) :=
  let* AP_Vm := Signal.pulse_slice Vm_signal offset protocol_duration timestep i in
  let* APD90_v := Signal.repolarisation_threshold AP_Vm in
  let* min_APD := int (5 / timestep)%float in
  let* offset_index := int (offset / timestep)%float in
  Ok (APD90_v, slice_from AP_Vm (offset_index + min_APD)).

(** Some scanned sample lies strictly below the threshold. *)
Definition crosses (APD90_v : float) (window : list float) : bool :=
  existsb (λ v, (v <? APD90_v)%float) window.

(** The point where the segment from [(t_prev, v_prev)] to [(t, v)] meets
    the level [APD90_v]. *)
Definition interpolate (t_prev v_prev t v APD90_v : float) : float :=
  (t_prev + (APD90_v - v_prev) / (v - v_prev) * (t - t_prev))%float.

(** The times of eight samples, one time unit apart. *)
Definition unit_times : list float := [0; 1; 2; 3; 4; 5; 6; 7]%float.

(** Two pulses of eight samples: the first repolarises, the second stays
    depolarised to its end. *)
Definition two_pulse_trace : list float :=
  [-80; 40; 40; 40; 40; 40; -80; -70; -80; 40; 40; 40; 40; 40; 40; 40]%float.

(** A single pulse that is already repolarised at the first scanned sample. *)
Definition early_trace : list float := [-80; 40; 40; 40; 40; -80; -80; -70]%float.


(** Two pulses of eight samples that both repolarise; the first is the
    first pulse of [two_pulse_trace]. *)
Definition two_crossings_trace : list float :=
  [-80; 40; 40; 40; 40; 40; -80; -70; -80; 40; 40; 40; 40; 40; -80; -70]%float.




End SignalSpec.

(** ** The parameter library *)

Module LibrarySpec.
Import Py.

(** The compounds of [drug_compounds] that have a default concentration grid. *)
Definition has_grid (drug : string) : Prop :=
  ∃ g, Library.lookup_key Library.drug_concentrations drug = Ok g.

End LibrarySpec.

(** ** The comparison script: the result table and a failing controller *)

Module ComparisonSpec.
Import Py Comparison.

(** The cells of [table] filed under the first-level label [label]. *)
Definition block (table : list (string * string * cell)) (label : string) : list cell :=
  (filter (λ r, r.1.1 = label) table).*2.

(** A controller whose fit fails on a sweep of three concentrations with a
    constant response. *)
Definition failing_controller : Controller := {|
  compute_Hill := λ _ _,
    Ok (Failed "Hill curve did not form.", [0; 1; 10]%float, [1; 1; 1]%float);
  APD_sim := λ _ _, Raise ExternalError;
  compute_RMSE := λ _ _, Raise ExternalError;
  compute_ME := λ _ _, Raise ExternalError;
  param_names := ["Vhalf"; "Kmax"; "Ku"; "N"; "EC50"];
  power := λ x _, x;
  log10 := λ x, x;
  pow10 := λ x, x;
|}.

(** The row the script builds for dofetilide. *)
Definition dofetilide_row : row :=
  [("Vhalf", -1.147); ("Kmax", 1e8); ("Ku", 1.79e-5); ("N", 0.9999);
   ("EC50", 5.483e8)]%float.

End ComparisonSpec.

(** ** The simulation driver: setups, jobs, calls and a concrete service *)

Module DriverSpec.
Import Py Myokit Driver.

(** The state variable that holds the drug concentration. *)
Definition D : qname := ("ikr", "D").

(** The model's states with the stored drug concentration blanked. *)
Definition without_concentration (m : Model) : list (qname * float) :=
  map (λ s, if bool_decide (s.1 = D) then (D, 0%float) else s) (states m).

(** Two results agree: both raise the same exception, or both return and
    the values returned are related. *)
Definition agree {A B} (R : A → B → Prop) (r1 : res A) (r2 : res B) : Prop :=
  match r1, r2 with
  | Ok a, Ok b => R a b
  | Raise e1, Raise e2 => e1 = e2
  | _, _ => False
  end.

(** The log a method returns, or the exception it raises. *)
Definition output {A} (r : res (A * DataLog.t)) : res DataLog.t :=
  match r with
  | Ok (_, log) => Ok log
  | Raise e => Raise e
  end.

Section Setup.
Context `{Service}.

(** The two instances differ at most in the concentration stored in the
    model and in the simulation they last built. *)
Definition same_setup (a b : BindingKinetics) : Prop :=
  constants (model a) = constants (model b)
  ∧ without_concentration (model a) = without_concentration (model b)
  ∧ protocol a = protocol b
  ∧ initial_state a = initial_state b
  ∧ current_head a = current_head b
  ∧ original_constants a = original_constants b.

(** The two simulations hand the solver the same job. *)
Definition same_job (s1 s2 : Simulation Protocol) : Prop :=
  sim_constants s1 = sim_constants s2
  ∧ sim_state s1 = sim_state s2
  ∧ sim_protocol s1 = sim_protocol s2
  ∧ sim_abs_tol s1 = sim_abs_tol s2
  ∧ sim_rel_tol s1 = sim_rel_tol s2.

(** [s'] is [s] with the constant [v] set to [x] and nothing else changed. *)
Definition configured (s s' : Simulation Protocol) (v : qname) (x : float) : Prop :=
  sim_constants s' = <[v := x]> (sim_constants s)
  ∧ sim_default_state s' = sim_default_state s
  ∧ sim_state s' = sim_state s
  ∧ sim_protocol s' = sim_protocol s
  ∧ sim_abs_tol s' = sim_abs_tol s
  ∧ sim_rel_tol s' = sim_rel_tol s.

(** The binding-kinetics constants, each with its key in
    [original_constants]. *)
Definition kinetics : list (string * string) :=
  [("Vhalf", "Vhalf"); ("Kmax", "Kmax"); ("Ku", "Ku"); ("n", "n");
   ("halfmax", "EC50"); ("Kt", "Kt")].

(** The instances reached from [self0] by simulation calls that returned. *)
Inductive reached (self0 : BindingKinetics) : BindingKinetics → Prop :=
  | reached_start : reached self0 self0
  | reached_drug self drug drug_conc repeats o set_state protocol_period
      self' set_state' log :
      reached self0 self →
      drug_simulation self drug drug_conc repeats o set_state protocol_period
        = Ok (self', set_state', log) →
      reached self0 self'
  | reached_custom self param_values drug_conc repeats o self' log :
      reached self0 self →
      custom_simulation self param_values drug_conc repeats o = Ok (self', log) →
      reached self0 self'
  | reached_conductance self conductance repeats o set_state self' log :
      reached self0 self →
      conductance_simulation self conductance repeats o set_state = Ok (self', log) →
      reached self0 self'.

End Setup.

(** The series a log holds for the state a run starts from: one sample per
    state variable, its value at the start of the run. *)
Definition recorded_start (st : start) : gmap string (list float) :=
  match st with
  | ModelState values =>
      list_to_map (map (λ s, (s.1.1 +:+ "." +:+ s.1.2, [s.2])) values)
  | Supplied state => state
  end.

(** A service whose protocols are their period and whose solver logs, for
    every state variable, the value the run starts from, as any solver's log
    does in its first sample. *)
Definition probe : Service := {|
  Protocol := float;
  characteristic_time := λ period, period;
  integrate := λ j, Ok (DataLog.mk (recorded_start (job_state j)) ∅);
  fold := λ log _, Ok log;
|}.

(** A channel model with the seven constants of the driver and two states,
    the second being the drug concentration. *)
Definition channel_model : Model :=
  mk_model
    (list_to_map
       [(("ikr", "Vhalf"), 1); (("ikr", "Kmax"), 0); (("ikr", "Ku"), 0);
        (("ikr", "n"), 1); (("ikr", "halfmax"), 1); (("ikr", "Kt"), 0);
        (("ikr", "gKr"), 0.04658545454545456)]%float)
    [(("ikr", "O"), 0%float); (("ikr", "D"), 0%float)].

(** A parameter table of one row. *)
Definition one_row (Vhalf Kmax Ku N EC50 : float) : gmap string (list float) :=
  list_to_map [("Vhalf", [Vhalf]); ("Kmax", [Kmax]); ("Ku", [Ku]); ("N", [N]);
               ("EC50", [EC50])].

(** The value a call returned, or [d] when it raised. *)
Definition returned {A} (d : A) (r : res A) : A :=
  match r with
  | Ok a => a
  | Raise _ => d
  end.

(** An empty log and an instance on an empty model, the defaults of
    [returned] below. *)
Definition no_log : DataLog.t := DataLog.mk ∅ ∅.

Definition no_driver : @BindingKinetics probe :=
  mk_driver (mk_model ∅ []) None (@new_simulation probe (mk_model ∅ []) None) [] "" ∅.

(** The instance built on [channel_model] with a 25 s protocol. *)
Definition channel_driver : @BindingKinetics probe :=
  returned no_driver (@init probe channel_model (Some 25e3%float) None).

(** ... after a simulation of 30 nM verapamil, *)
Definition after_verapamil
  : @BindingKinetics probe * option (gmap string (list float)) * DataLog.t :=
  returned (no_driver, None, no_log)
    (@drug_simulation probe channel_driver "verapamil" 30 1000 default_options
       None None).

(** ... after a simulation with verapamil's parameters given as a table, *)
Definition after_custom : @BindingKinetics probe * DataLog.t :=
  returned (no_driver, no_log)
    (@custom_simulation probe channel_driver
       (one_row (-100) 4.646e4 7.927e-4 1.043 9.184e6) 30 1000 default_options).

(** ... and a conductance simulation run after the verapamil one. *)
Definition conductance_after_verapamil : @BindingKinetics probe * DataLog.t :=
  returned (no_driver, no_log)
    (@conductance_simulation probe after_verapamil.1.1 0.02 1000 default_options None).

(** The channel instance after its model was edited: the model now holds
    [Kmax = 5], the value saved at construction is still 0. *)
Definition retuned_driver : @BindingKinetics probe :=
  mk_driver
    (mk_model (<[("ikr", "Kmax") := 5%float]> (constants channel_model))
       (states channel_model))
    (protocol channel_driver) (sim channel_driver) (initial_state channel_driver)
    (current_head channel_driver) (original_constants channel_driver).

(** ... and a conductance simulation run on it. *)
Definition conductance_on_retuned : @BindingKinetics probe * DataLog.t :=
  returned (no_driver, no_log)
    (@conductance_simulation probe retuned_driver 0.02 1000 default_options None).

(** The call returned. *)
Definition succeeded {A} (r : res A) : bool :=
  match r with
  | Ok _ => true
  | Raise _ => false
  end.

(** The state from which the simulation a call configured starts. *)
Definition started (r : res (@BindingKinetics probe * DataLog.t)) : option start :=
  match r with
  | Ok (self, _) => Some (sim_state (sim self))
  | Raise _ => None
  end.

(** The series a call's log holds for a variable. *)
Definition recorded (r : res DataLog.t) (name : string) : option (list float) :=
  match r with
  | Ok log => DataLog.series log !! name
  | Raise _ => None
  end.

End DriverSpec.

(** ** Signal analysis: further sample signals *)

Module SignalInputs.
Import Py.

(** A log folded into two pulses, the second of which is empty. *)
Definition empty_pulse_log : DataLog.t :=
  DataLog.mk ∅ {[ "ikr.IKr" := [[0.5; 2; 1]; []]%float ]}.

(** A log folded into two pulses with a NaN sample in the second. *)
Definition nan_pulse_log : DataLog.t :=
  DataLog.mk ∅ {[ "ikr.IKr" := [[0.5; 2; 1]; [0.25; nan; 0.5]]%float ]}.

End SignalInputs.

(** ** The comparison script: further controllers *)

Module ComparisonInputs.
Import Py Comparison.

(** A controller whose fit succeeds on a sweep of three concentrations, and
    whose action-potential simulation returns a constant APD90 for each
    model at every concentration it is given. *)
Definition fitting_controller : Controller := {|
  compute_Hill := λ _ _,
    Ok (Coefficients [1; 10]%float, [0; 1; 10]%float, [1; 0.5; 0]%float);
  APD_sim := λ _ drug_conc,
    Ok (map (λ _, 300%float) drug_conc, map (λ _, 280%float) drug_conc, drug_conc);
  compute_RMSE := λ _ _, Ok 20%float;
  compute_ME := λ _ _, Ok 20%float;
  param_names := ["Vhalf"; "Kmax"; "Ku"; "N"; "EC50"];
  power := λ x _, x;
  log10 := λ x, x;
  pow10 := λ x, x;
|}.

(** A controller whose sweep holds a single concentration. *)
Definition single_point_controller : Controller := {|
  compute_Hill := λ _ _, Ok (Failed "Hill curve did not form.", [0%float], [1%float]);
  APD_sim := λ _ _, Raise ExternalError;
  compute_RMSE := λ _ _, Raise ExternalError;
  compute_ME := λ _ _, Raise ExternalError;
  param_names := ["Vhalf"; "Kmax"; "Ku"; "N"; "EC50"];
  power := λ x _, x;
  log10 := λ x, x;
  pow10 := λ x, x;
|}.

(** A controller that returns one peak fewer than concentrations. *)
Definition misaligned_controller : Controller := {|
  compute_Hill := λ _ _,
    Ok (Failed "Hill curve did not form.", [0; 1; 10]%float, [1; 1]%float);
  APD_sim := λ _ _, Raise ExternalError;
  compute_RMSE := λ _ _, Raise ExternalError;
  compute_ME := λ _ _, Raise ExternalError;
  param_names := ["Vhalf"; "Kmax"; "Ku"; "N"; "EC50"];
  power := λ x _, x;
  log10 := λ x, x;
  pow10 := λ x, x;
|}.

End ComparisonInputs.

(** ** The multi-channel simulations: notions and a concrete cell model *)

Module MultiIonSpec.
Import Py Myokit Driver MultiIon DriverSpec.

(** The conductances the multi-channel methods scale: component, constant
    and key of [ion_scale]. *)
Definition scaled_channels : list (string * string * string) :=
  [("inal", "gNaL", "INaL"); ("ical", "base", "ICaL"); ("ina", "gNa", "INa");
   ("ito", "gto", "Ito"); ("ik1", "gK1", "IK1"); ("iks", "gKs", "IKs")].

(** In [configured_constants] the conductance of [channel] is the value the
    model [m] holds for it times its entry of [ion_scale]. *)
Definition scaled (m : Model) (ion_scale : gmap string float)
    (configured_constants : gmap qname float) (channel : string * string * string)
  : Prop :=
  ∃ base scale,
    constants m !! (channel.1.1, channel.1.2) = Some base
    ∧ ion_scale !! channel.2 = Some scale
    ∧ configured_constants !! (channel.1.1, channel.1.2) = Some (base * scale)%float.

Section Calls.
Context `{Service}.

(** The instances reached from [self0] by calls of the five simulation
    methods that returned. *)
Inductive reached_any (self0 : BindingKinetics) : BindingKinetics → Prop :=
  | any_start : reached_any self0 self0
  | any_single self self' :
      reached_any self0 self → reached self self' → reached_any self0 self'
  | any_multiion self drug drug_conc ion_scale repeats o set_state
      self' set_state' log :
      reached_any self0 self →
      drug_multiion_simulation self drug drug_conc ion_scale repeats o set_state
        = Ok (self', set_state', log) →
      reached_any self0 self'
  | any_multiion_CS self ion_scale repeats o self' log :
      reached_any self0 self →
      drug_multiion_CS_sim self ion_scale repeats o = Ok (self', log) →
      reached_any self0 self'.

End Calls.

(** A cell model: the channel model's constants and states, and the six
    conductances of the other channels. *)
Definition cell_model : Model :=
  mk_model
    (list_to_map
       [(("ikr", "Vhalf"), 1); (("ikr", "Kmax"), 0); (("ikr", "Ku"), 0);
        (("ikr", "n"), 1); (("ikr", "halfmax"), 1); (("ikr", "Kt"), 0);
        (("ikr", "gKr"), 0.04658545454545456);
        (("inal", "gNaL"), 0.0075); (("ical", "base"), 0.0001007);
        (("ina", "gNa"), 75); (("ito", "gto"), 0.02); (("ik1", "gK1"), 0.1908);
        (("iks", "gKs"), 0.0034)]%float)
    [(("membrane", "V"), (-88)%float); (("ikr", "D"), 0%float)].

(** Scaling factors that halve the late sodium current and leave the other
    channels as they are. *)
Definition half_late_sodium : gmap string float :=
  list_to_map [("IKr", 1); ("INaL", 0.5); ("ICaL", 1); ("INa", 1); ("Ito", 1);
               ("IK1", 1); ("IKs", 1)]%float.

(** The instance built on [cell_model] with a 1 s protocol, *)
Definition cell_driver : @BindingKinetics probe :=
  returned no_driver (@init probe cell_model (Some 1000%float) (Some "ikr")).

(** ... after a multi-channel simulation of 30 nM verapamil, *)
Definition after_multiion
  : @BindingKinetics probe * option (gmap string (list float)) * DataLog.t :=
  returned (no_driver, None, no_log)
    (@drug_multiion_simulation probe cell_driver "verapamil" 30 half_late_sodium
       1000 default_options None).

(** ... and after a multi-channel conductance simulation run after it. *)
Definition after_multiion_CS : @BindingKinetics probe * DataLog.t :=
  returned (no_driver, no_log)
    (@drug_multiion_CS_sim probe after_multiion.1.1 half_late_sodium 1000
       default_options).

(** A supplied state of two samples per variable. *)
Definition two_sample_state : gmap string (list float) :=
  list_to_map [("ikr.O", [0; 0.5]); ("ikr.D", [0; 10])]%float.

(** The channel instance after a simulation that starts from it. *)
Definition after_supplied
  : @BindingKinetics probe * option (gmap string (list float)) * DataLog.t :=
  returned (no_driver, None, no_log)
    (@drug_simulation probe channel_driver "verapamil" 30 1000 default_options
       (Some two_sample_state) None).

End MultiIonSpec.

(** ** The peak sweep: the peak a concentration gives, and a service that
       records a current *)

Module PeakSweepSpec.
Import Py Myokit Driver PeakSweep DriverSpec.

Section Sweep.
Context `{Service}.

(** [peak] is the peak of the last pulse of the current that
    [drug_simulation], called on [self] with the sweep's arguments, records
    at concentration [conc]. *)
Definition peak_at (self : BindingKinetics) (drug : string) (repeats : Z)
    (conc peak : float) : Prop :=
  ∃ self' set_state' log peaks reduction,
    drug_simulation self drug conc repeats sweep_options None None
      = Ok (self', set_state', log)
    ∧ Signal.extract_peak log "ikr.IKr" = Ok (peaks, reduction)
    ∧ last peaks = Some peak.

End Sweep.

(** A service whose solver records, as the current [ikr.IKr], the values of
    the state variables the run starts from. *)
Definition current_probe : Service := {|
  Protocol := float;
  characteristic_time := λ period, period;
  integrate := λ j,
    Ok (DataLog.mk
          {[ "ikr.IKr" := match job_state j with
                          | ModelState values => values.*2
                          | Supplied _ => []
                          end ]} ∅);
  fold := λ log _, Ok log;
|}.

Definition no_current_driver : @BindingKinetics current_probe :=
  mk_driver (mk_model ∅ []) None (@new_simulation current_probe (mk_model ∅ []) None)
    [] "" ∅.

(** The instance built on [channel_model] for that service, *)
Definition current_driver : @BindingKinetics current_probe :=
  returned no_current_driver (@init current_probe channel_model (Some 25e3%float) None).

(** ... and what a sweep of three concentrations of verapamil returns, no
    log being written. *)
Definition verapamil_sweep : @BindingKinetics current_probe * list float :=
  returned (no_current_driver, [])
    (@peak_sweep current_probe (λ _ _, Ok ()) (λ _, "") "" current_driver
       "verapamil" [0; 1; 30]%float 1000).

End PeakSweepSpec.

(* ===================================================================== *)
(** * Part III. Properties                                                *)
(* ===================================================================== *)

(** ** The exception monad and sequence indexing *)

Module PyFacts.
Import Py.

Lemma bind_Ok {A B} (a : A) (k : A → res B) : bind (Ok a) k = k a.
Proof. reflexivity. Qed.

Lemma bind_inv {A B} (m : res A) (k : A → res B) b :
  bind m k = Ok b → ∃ a, m = Ok a ∧ k a = Ok b.
Proof. destruct m; [eauto | discriminate]. Qed.

Ltac bind_step H :=
  let E := fresh "E" in
  apply bind_inv in H as (? & E & H); rewrite ?E, ?bind_Ok; cbv beta.

Lemma index_nat {A} (l : list A) j x : l !! j = Some x → index l (Z.of_nat j) = Ok x.
Proof.
  intros Hj. pose proof (lookup_lt_Some _ _ _ Hj).
  unfold index, norm_index.
  destruct (Z.of_nat j <? 0) eqn:E1; [apply Z.ltb_lt in E1; lia|].
  rewrite E1. cbn [orb].
  destruct (Z.of_nat (length l) <=? Z.of_nat j) eqn:E2; [apply Z.leb_le in E2; lia|].
  by rewrite Nat2Z.id, Hj.
Qed.

Lemma index_head {A} (l : list A) x : head l = Some x → index l 0 = Ok x.
Proof. destruct l; [discriminate|]. intros [= ->]. reflexivity. Qed.

Lemma index_last {A} (l : list A) x : last l = Some x → index l (-1) = Ok x.
Proof.
  rewrite last_lookup. intros H.
  pose proof (lookup_lt_Some _ _ _ H) as Hlt.
  unfold index, norm_index. simpl.
  replace (-1 + Z.of_nat (length l)) with (Z.of_nat (Init.Nat.pred (length l))) by lia.
  rewrite Nat2Z.id, H.
  destruct (_ || _) eqn:E; [|done].
  apply orb_true_iff in E as [E%Z.ltb_lt | E%Z.leb_le]; lia.
Qed.


End PyFacts.

(** ** The order of binary64 values

    Comparisons of floats that are not NaN form a total preorder; the
    proofs go through the specification of the primitive comparisons,
    ranking every value by a triple of integers ordered lexicographically. *)

Module FloatOrder.
Import Py Order.

Ltac cmp_cases :=
  repeat match goal with
  | |- context [Z.compare ?a ?b] => destruct (Z.compare_spec a b)
  | |- context [Pos.compare_cont Eq ?a ?b] =>
      change (Pos.compare_cont Eq a b) with (Pos.compare a b);
      destruct (Pos.compare_spec a b)
  end.

Lemma SFleb_rank f1 f2 :
  sf_is_nan f1 = false → sf_is_nan f2 = false →
  SFleb f1 f2 = true ↔ rank_le (rank f1) (rank f2).
Proof.
  unfold SFleb, rank_le.
  destruct f1 as [s1|s1| |s1 m1 e1], f2 as [s2|s2| |s2 m2 e2];
    try discriminate; intros _ _;
    try destruct s1; try destruct s2; simpl; cmp_cases; simpl;
    split; intros; try discriminate; try reflexivity; lia.
Qed.

Lemma SFltb_rank f1 f2 :
  sf_is_nan f1 = false → sf_is_nan f2 = false →
  SFltb f1 f2 = true ↔ rank_lt (rank f1) (rank f2).
Proof.
  unfold SFltb, rank_lt.
  destruct f1 as [s1|s1| |s1 m1 e1], f2 as [s2|s2| |s2 m2 e2];
    try discriminate; intros _ _;
    try destruct s1; try destruct s2; simpl; cmp_cases; simpl;
    split; intros; try discriminate; try reflexivity; lia.
Qed.

Lemma SFcompare_refl f : sf_is_nan f = false → SFcompare f f = Some Eq.
Proof.
  destruct f as [s|s| |s m e]; try discriminate; intros _;
    try destruct s; simpl; try reflexivity;
    rewrite Z.compare_refl;
    change (Pos.compare_cont Eq m m) with (Pos.compare m m);
    rewrite Pos.compare_refl; reflexivity.
Qed.

Lemma is_nan_spec x : is_nan x = sf_is_nan (Prim2SF x).
Proof.
  unfold is_nan, PrimFloat.is_nan. rewrite FloatAxioms.eqb_spec. unfold SFeqb.
  destruct (sf_is_nan (Prim2SF x)) eqn:E.
  - destruct (Prim2SF x); try discriminate. reflexivity.
  - rewrite SFcompare_refl by assumption. reflexivity.
Qed.

Lemma le_rank x y :
  is_nan x = false → is_nan y = false →
  le x y ↔ rank_le (rank (Prim2SF x)) (rank (Prim2SF y)).
Proof.
  rewrite !is_nan_spec. unfold le. rewrite leb_spec. apply SFleb_rank.
Qed.

Lemma lt_rank x y :
  is_nan x = false → is_nan y = false →
  lt x y ↔ rank_lt (rank (Prim2SF x)) (rank (Prim2SF y)).
Proof.
  rewrite !is_nan_spec. unfold lt. rewrite ltb_spec. apply SFltb_rank.
Qed.

Ltac by_rank :=
  repeat match goal with
  | H : le _ _ |- _ => apply le_rank in H; [|assumption..]
  | H : lt _ _ |- _ => apply lt_rank in H; [|assumption..]
  | H : ¬ le _ _ |- _ => rewrite le_rank in H by assumption
  | H : ¬ lt _ _ |- _ => rewrite lt_rank in H by assumption
  end;
  try (apply le_rank; [assumption..|]);
  try (apply lt_rank; [assumption..|]);
  unfold rank_le, rank_lt in *;
  repeat match goal with
  | |- context [rank ?f] => destruct (rank f) as [[? ?] ?]
  | H : context [rank ?f] |- _ => destruct (rank f) as [[? ?] ?]
  end; lia.

Lemma le_refl x : is_nan x = false → le x x.
Proof. intros. by_rank. Qed.

Lemma le_trans x y z :
  is_nan x = false → is_nan y = false → is_nan z = false →
  le x y → le y z → le x z.
Proof. intros. by_rank. Qed.

Lemma lt_le x y : is_nan x = false → is_nan y = false → lt x y → le x y.
Proof. intros. by_rank. Qed.

Lemma lt_le_trans x y z :
  is_nan x = false → is_nan y = false → is_nan z = false →
  lt x y → le y z → lt x z.
Proof. intros. by_rank. Qed.

Lemma lt_trans x y z :
  is_nan x = false → is_nan y = false → is_nan z = false →
  lt x y → lt y z → lt x z.
Proof. intros. by_rank. Qed.

Lemma not_le_lt x y :
  is_nan x = false → is_nan y = false → (x <=? y)%float = false → lt y x.
Proof.
  intros Hx Hy H. assert (¬ le x y) by (unfold le; congruence). by_rank.
Qed.

Lemma not_lt_le x y :
  is_nan x = false → is_nan y = false → (x <? y)%float = false → le y x.
Proof.
  intros Hx Hy H. assert (¬ lt x y) by (unfold lt; congruence). by_rank.
Qed.

End FloatOrder.

(** ** The reductions: [max], [min], [np.max], [argmin] *)

Module Reductions.
Import Py Order Extrema FloatOrder.

Lemma no_nan_Forall l : no_nan l = true ↔ Forall not_nan l.
Proof.
  unfold no_nan, not_nan. induction l as [|x l IH]; simpl.
  - split; [constructor | reflexivity].
  - rewrite andb_true_iff, IH, Forall_cons, negb_true_iff. reflexivity.
Qed.

Section Folds.
Variable step : float → float → float.
Variable better : float → float → Prop.
Hypothesis step_pick : ∀ cur item, step cur item = cur ∨ step cur item = item.
Hypothesis step_bound : ∀ cur item,
  not_nan cur → not_nan item →
  better cur (step cur item) ∧ better item (step cur item).
Hypothesis better_refl : ∀ x, not_nan x → better x x.
Hypothesis better_trans : ∀ x y z,
  not_nan x → not_nan y → not_nan z → better x y → better y z → better x z.

Lemma fold_pick l x :
  Forall not_nan (x :: l) →
  let r := fold_left step l x in
  not_nan r ∧ r ∈ x :: l ∧ ∀ y, y ∈ x :: l → better y r.
Proof.
  revert x. induction l as [|a l IH]; intros x Hn; simpl.
  - apply Forall_cons in Hn as [Hx _]. split; [done|]. split; [left|].
    intros y Hy. apply list_elem_of_singleton in Hy as ->. auto.
  - apply Forall_cons in Hn as [Hx Hl]. apply Forall_cons in Hl as [Ha Hl].
    destruct (step_bound x a Hx Ha) as [Bx Ba].
    assert (Hs : not_nan (step x a)) by (destruct (step_pick x a) as [-> | ->]; done).
    destruct (IH (step x a)) as (Hr & Hin & Hall); [by constructor|].
    split; [done|]. split.
    + apply elem_of_cons in Hin as [-> | Hin].
      * destruct (step_pick x a) as [-> | ->]; [left | right; left].
      * right; right; done.
    + assert (Hnan : ∀ y, y ∈ l → not_nan y)
        by (intros y Hy; eapply Forall_forall in Hl; eauto).
      intros y Hy. apply elem_of_cons in Hy as [-> | Hy];
        [|apply elem_of_cons in Hy as [-> | Hy]].
      * apply (better_trans _ (step x a)); auto. apply Hall. left.
      * apply (better_trans _ (step x a)); auto. apply Hall. left.
      * apply Hall. right. done.
Qed.
End Folds.

Lemma py_max_spec l m :
  Py.max l = Ok m → Forall not_nan l → is_maximum m l.
Proof.
  destruct l as [|x l]; [discriminate|]. intros [= <-] Hn.
  destruct (fold_pick
    (λ cur item, if (cur <? item)%float then item else cur)
    (λ a b, le a b)) with (l := l) (x := x) as (_ & Hin & Hall).
  - intros c i. destruct (c <? i)%float; auto.
  - intros c i Hc Hi. destruct (c <? i)%float eqn:E.
    + split; [apply lt_le; auto | apply le_refl; auto].
    + split; [apply le_refl; auto | apply not_lt_le; auto].
  - apply le_refl.
  - apply le_trans.
  - done.
  - split; auto.
Qed.

Lemma py_min_spec l m :
  Py.min l = Ok m → Forall not_nan l → is_minimum m l.
Proof.
  destruct l as [|x l]; [discriminate|]. intros [= <-] Hn.
  destruct (fold_pick
    (λ cur item, if (item <? cur)%float then item else cur)
    (λ a b, le b a)) with (l := l) (x := x) as (_ & Hin & Hall).
  - intros c i. destruct (i <? c)%float; auto.
  - intros c i Hc Hi. destruct (i <? c)%float eqn:E.
    + split; [apply lt_le; auto | apply le_refl; auto].
    + split; [apply le_refl; auto | apply not_lt_le; auto].
  - apply le_refl.
  - intros a b c Ha Hb Hc Hab Hbc. apply (le_trans c b a); auto.
  - done.
  - split; auto.
Qed.

Lemma np_max_spec a m :
  Np.max a = Ok m → Forall not_nan a → is_maximum m a.
Proof.
  destruct a as [|x a]; [discriminate|]. intros [= <-] Hn.
  destruct (fold_pick Np.maximum (λ a b, le a b)) with (l := a) (x := x)
    as (_ & Hin & Hall).
  - intros c i. unfold Np.maximum. destruct (_ || _); auto.
  - intros c i Hc Hi. unfold Np.maximum. rewrite Hc, orb_false_r.
    destruct (i <=? c)%float eqn:E.
    + split; [apply le_refl; auto | exact E].
    + split; [apply lt_le; auto; apply not_le_lt; auto | apply le_refl; auto].
  - apply le_refl.
  - apply le_trans.
  - done.
  - split; auto.
Qed.

Lemma np_max_nonempty a : a ≠ [] → ∃ m, Np.max a = Ok m.
Proof. destruct a; [done|]. eauto. Qed.

Lemma argmin_scan_spec a : ∀ i mp best,
  Forall not_nan a → not_nan mp →
  let r := Np.argmin_scan a i mp best in
  (r = best ∧ ∀ x, x ∈ a → le mp x)
  ∨ (∃ k m, r = (i + k)%nat ∧ a !! k = Some m ∧ lt m mp
            ∧ (∀ x, x ∈ a → le m x)
            ∧ (∀ j x, (j < k)%nat → a !! j = Some x → lt m x)).
Proof.
  induction a as [|x a IH]; intros i mp best Hn Hmp; simpl.
  - left. split; [done|]. intros x Hx. inversion Hx.
  - apply Forall_cons in Hn as [Hx Ha].
    assert (Hnan : ∀ y, y ∈ a → not_nan y)
      by (intros y Hy; eapply Forall_forall in Ha; eauto).
    destruct (mp <=? x)%float eqn:E.
    + destruct (IH (S i) mp best Ha Hmp) as [[-> Hall] | (k & m & -> & Hk & Hlt & Hall & Hbefore)].
      * left. split; [done|]. intros y Hy.
        apply elem_of_cons in Hy as [-> | Hy]; auto.
      * assert (Hm : not_nan m) by (apply Hnan; eapply list_elem_of_lookup_2; eauto).
        right. exists (S k), m. repeat split; auto; try lia.
        -- intros y Hy. apply elem_of_cons in Hy as [-> | Hy]; auto.
           apply lt_le; auto. eapply lt_le_trans with mp; auto.
        -- intros [|j] y Hj Hy; simpl in Hy.
           ++ injection Hy as <-. eapply lt_le_trans with mp; auto.
           ++ eapply Hbefore; eauto. lia.
    + rewrite Hx.
      assert (Hlt : lt x mp) by (apply not_le_lt; auto).
      destruct (IH (S i) x i Ha Hx) as [[-> Hall] | (k & m & -> & Hk & Hlt' & Hall & Hbefore)].
      * right. exists 0%nat, x. repeat split; auto; try lia.
        intros y Hy. apply elem_of_cons in Hy as [-> | Hy]; auto using le_refl.
      * assert (Hm : not_nan m) by (apply Hnan; eapply list_elem_of_lookup_2; eauto).
        right. exists (S k), m. repeat split; auto; try lia.
        -- eapply lt_trans with x; auto.
        -- intros y Hy. apply elem_of_cons in Hy as [-> | Hy]; auto.
           apply lt_le; auto.
        -- intros [|j] y Hj Hy; simpl in Hy.
           ++ injection Hy as <-. done.
           ++ eapply Hbefore; eauto. lia.
Qed.

Lemma argmin_spec d :
  d ≠ [] → Forall not_nan d →
  ∃ i, Np.argmin d = Ok i ∧ is_first_minimum d i.
Proof.
  destruct d as [|x d]; [done|]. intros _ Hn.
  pose proof Hn as Hn'. apply Forall_cons in Hn' as [Hx Hd].
  assert (Hnan : ∀ y, y ∈ d → not_nan y)
    by (intros y Hy; eapply Forall_forall in Hd; eauto).
  simpl. rewrite Hx.
  destruct (argmin_scan_spec d 1 x 0 Hd Hx)
    as [[-> Hall] | (k & m & -> & Hk & Hlt & Hall & Hbefore)].
  - exists 0%nat. split; [done|]. exists x. split; [done|]. split.
    + intros j y Hy. apply list_elem_of_lookup_2 in Hy.
      apply elem_of_cons in Hy as [-> | Hy]; auto using le_refl.
    + intros j y Hj. lia.
  - assert (Hm : not_nan m) by (apply Hnan; eapply list_elem_of_lookup_2; eauto).
    exists (S k). split; [done|]. exists m. split; [done|]. split.
    + intros j y Hy. apply list_elem_of_lookup_2 in Hy.
      apply elem_of_cons in Hy as [-> | Hy]; auto. apply lt_le; auto.
    + intros [|j] y Hj Hy; simpl in Hy.
      * injection Hy as <-. done.
      * eapply Hbefore; eauto. lia.
Qed.

End Reductions.

(** ** Facts of binary64 arithmetic used below *)

Module FloatArith.
Import Py Order FloatOrder.

Lemma is_finite_not_nan x : is_finite x = true → is_nan x = false.
Proof.
  rewrite is_nan_spec. unfold is_finite. destruct (Prim2SF x); auto; discriminate.
Qed.

(** A NaN operand makes [abs (s - v)] NaN. *)
Lemma abs_sub_nan s v : is_nan s = true → is_nan (abs (s - v)) = true.
Proof.
  rewrite !is_nan_spec, abs_spec, sub_spec.
  destruct (Prim2SF s); try discriminate. reflexivity.
Qed.

Lemma eqb_zero_spec x :
  (x =? 0)%float = match Prim2SF x with S754_zero _ => true | _ => false end.
Proof.
  rewrite FloatAxioms.eqb_spec. change (Prim2SF 0) with (S754_zero false).
  destruct (Prim2SF x) as [s|s| |s m e]; try destruct s; reflexivity.
Qed.

(** For a finite non-zero [x], [x - x] is [+0] and [(x - x) / x] is a zero. *)
Lemma self_difference_ratio x :
  is_finite x = true → (x =? 0)%float = false → ((x - x) / x =? 0)%float = true.
Proof.
  unfold is_finite. rewrite !eqb_zero_spec, div_spec, sub_spec.
  destruct (Prim2SF x) as [s|s| |s m e]; try discriminate. intros _ _.
  unfold SF64sub, SFsub. rewrite Z.sub_diag. reflexivity.
Qed.

End FloatArith.

(** ** Signal analysis *)

Module SignalFacts.
Import Py PyFacts Order Extrema SignalSpec FloatOrder Reductions.

(** *** [extract_peak] *)

Lemma peaks_loop log name ms : ∀ k acc,
  Forall2 pulse_maximum (drop k (DataLog.pulses_of log name)) ms →
  for_each (append_peak log name)
    (seq k (length (DataLog.pulses_of log name) - k)) acc = Ok (acc ++ ms).
Proof.
  set (ps := DataLog.pulses_of log name).
  induction ms as [|m ms IH]; intros k acc H.
  - apply Forall2_nil_inv_r in H.
    assert (length (drop k ps) = 0)%nat as Hl by (rewrite H; done).
    rewrite length_drop in Hl. rewrite Hl. simpl. by rewrite app_nil_r.
  - apply Forall2_cons_inv_r in H as (p & rest & [Hp _] & Hrest & Hd).
    assert (Hk : ps !! k = Some p).
    { rewrite <- (Nat.add_0_r k), <- lookup_drop, Hd. done. }
    rewrite (drop_S _ _ _ Hk) in Hd. injection Hd as <-.
    pose proof (lookup_lt_Some _ _ _ Hk) as Hlt.
    replace (length ps - k)%nat with (S (length ps - S k)) by lia.
    simpl. unfold append_peak at 1, DataLog.getitem_pulse. fold ps.
    rewrite Hk. simpl. rewrite Hp. simpl.
    rewrite IH by done. by rewrite <- app_assoc.
Qed.

(** C4.  On a log that records the variable with no empty series,
    [extract_peak] returns the per-pulse maxima and the reduction
    [(peaks[0] - peaks[-1]) / peaks[0]]; when [peaks[0] == 0] the reduction
    is 0, which is not NaN, and nothing is raised. *)
Theorem extract_peak_spec log name ps :
  recorded_pulses log name = Some ps →
  Forall (λ p, p ≠ []) ps →
  ∃ peaks first lst reduction,
    Signal.extract_peak log name = Ok (peaks, reduction)
    ∧ Forall2 pulse_maximum ps peaks
    ∧ head peaks = Some first ∧ last peaks = Some lst
    ∧ reduction = (if (first =? 0)%float then 0 else (first - lst) / first)%float
    ∧ ((first =? 0)%float = true → reduction = 0%float ∧ is_nan reduction = false).
Proof.
  intros Hrec Hne.
  assert (Hmax : ∃ peaks, Forall2 pulse_maximum ps peaks).
  { clear Hrec. induction Hne as [|p ps Hp _ [peaks IH]]; [by exists []|].
    destruct (np_max_nonempty p Hp) as [m Hm].
    exists (m :: peaks). constructor; [|done]. split; [done|].
    intros. by apply np_max_spec. }
  destruct Hmax as [peaks Hpeaks].
  assert (Hps : ps ≠ []).
  { unfold recorded_pulses in Hrec. destruct (DataLog.pulses_of log name);
      [destruct (DataLog.series log !! name); [|done]|]; by injection Hrec as <-. }
  assert (Hlen : length peaks = length ps) by (symmetry; eapply Forall2_length; eauto).
  assert (∃ first, head peaks = Some first) as [first Hfirst].
  { destruct peaks; [destruct ps; done|]. eauto. }
  assert (∃ lst, last peaks = Some lst) as [lst Hlst].
  { destruct (last peaks) eqn:E; [eauto|]. apply last_None in E. subst. discriminate. }
  exists peaks, first, lst.
  exists (if (first =? 0)%float then 0 else (first - lst) / first)%float.
  split; [|repeat split; auto; destruct (first =? 0)%float; done].
  unfold Signal.extract_peak, DataLog.keys_like. rewrite length_imap.
  unfold range. rewrite Nat2Z.id. fold (append_peak log name).
  unfold recorded_pulses in Hrec.
  destruct (DataLog.pulses_of log name) as [|p0 ps0] eqn:Eps.
  - destruct (DataLog.series log !! name) as [s|] eqn:Es; [|done].
    injection Hrec as <-.
    apply Forall2_cons_inv_l in Hpeaks as (m & peaks' & [Hm _] & Hnil & ->).
    apply Forall2_nil_inv_l in Hnil as ->.
    injection Hfirst as <-. injection Hlst as <-.
    unfold DataLog.getitem. rewrite Es. simpl. rewrite Hm. simpl.
    destruct (m =? 0)%float; reflexivity.
  - injection Hrec as <-.
    pose proof (peaks_loop log name peaks 0 []) as Hloop.
    rewrite Eps, Nat.sub_0_r in Hloop.
    change (length (p0 :: ps0) =? 0)%nat with false. cbv iota.
    rewrite bind_Ok. cbv beta. rewrite Hloop by done.
    rewrite bind_Ok. cbv beta. simpl app.
    rewrite (index_head _ _ Hfirst), bind_Ok. cbv beta.
    destruct (first =? 0)%float; [done|].
    rewrite (index_last _ _ Hlst). reflexivity.
Qed.

Lemma extract_peak_spec_witness :
  ∃ peaks first lst reduction,
    Signal.extract_peak two_pulse_log "ikr.IKr" = Ok (peaks, reduction)
    ∧ Forall2 pulse_maximum [[0.5; 2; 1]; [0.25; 1; 0.5]]%float peaks
    ∧ head peaks = Some first ∧ last peaks = Some lst
    ∧ reduction = (if (first =? 0)%float then 0 else (first - lst) / first)%float
    ∧ ((first =? 0)%float = true → reduction = 0%float ∧ is_nan reduction = false).
Proof.
  apply (extract_peak_spec two_pulse_log "ikr.IKr").
  - reflexivity.
  - repeat constructor; discriminate.
Defined.

Example extract_peak_two_pulses :
  Signal.extract_peak two_pulse_log "ikr.IKr" = Ok ([2; 1]%float, 0.5%float).
Proof. vm_compute. reflexivity. Qed.

(** C9, as stated, fails: on an unfolded log whose series holds a NaN the
    one peak is NaN and so is the reduction. *)
Lemma extract_peak_unfolded_nan :
  DataLog.keys_like nan_sample_log "ikr.IKr" = []
  ∧ Signal.extract_peak nan_sample_log "ikr.IKr" = Ok ([nan], nan)
  ∧ (nan =? 0)%float = false.
Proof. vm_compute. auto. Qed.

(** The same happens when the maximum is infinite. *)
Example extract_peak_unfolded_infinite :
  Signal.extract_peak (DataLog.mk {[ "ikr.IKr" := [0.5; infinity]%float ]} ∅) "ikr.IKr"
  = Ok ([infinity], nan).
Proof. vm_compute. reflexivity. Qed.

(** For a maximum that is NaN or infinite, [x == 0] is false and
    [(x - x) / x] is NaN. *)
Lemma self_difference_ratio_nan x :
  is_finite x = false → (x =? 0)%float = false ∧ is_nan ((x - x) / x) = true.
Proof.
  unfold is_finite. rewrite FloatArith.eqb_zero_spec, is_nan_spec, div_spec, sub_spec.
  destruct (Prim2SF x) as [s|s| |s m e]; try discriminate; intros _.
  - destruct s; split; reflexivity.
  - split; reflexivity.
Qed.

(** C9, amended.  On a log with no per-pulse entries for the variable,
    [extract_peak] returns the one-element list holding the global maximum;
    the reduction is zero whenever that maximum is finite, and NaN whenever
    it is NaN or an infinity. *)
Theorem extract_peak_unfolded log name s :
  DataLog.keys_like log name = [] →
  DataLog.series log !! name = Some s →
  s ≠ [] →
  ∃ m reduction,
    pulse_maximum s m
    ∧ Signal.extract_peak log name = Ok ([m], reduction)
    ∧ (is_finite m = true → (reduction =? 0)%float = true)
    ∧ (is_finite m = false → is_nan reduction = true).
Proof.
  intros Hkeys Hs Hne.
  destruct (np_max_nonempty s Hne) as [m Hm].
  exists m, (if (m =? 0)%float then 0 else (m - m) / m)%float.
  split; [split; [done | intros; by apply np_max_spec]|]. split; [|split].
  - unfold Signal.extract_peak, DataLog.getitem. rewrite Hkeys, Hs. simpl.
    rewrite Hm. simpl. destruct (m =? 0)%float; reflexivity.
  - intros Hfin. destruct (m =? 0)%float eqn:E; [reflexivity|].
    by apply FloatArith.self_difference_ratio.
  - intros Hinf. destruct (self_difference_ratio_nan m Hinf) as [-> Hnan]. exact Hnan.
Qed.

Lemma extract_peak_unfolded_witness :
  ∃ m reduction,
    pulse_maximum [0.5; -2; -3]%float m
    ∧ Signal.extract_peak single_run_log "ikr.IKr" = Ok ([m], reduction)
    ∧ (is_finite m = true → (reduction =? 0)%float = true)
    ∧ (is_finite m = false → is_nan reduction = true).
Proof.
  apply (extract_peak_unfolded single_run_log "ikr.IKr").
  - reflexivity.
  - reflexivity.
  - discriminate.
Defined.

Example extract_peak_unfolded_negative_infinity :
  Signal.extract_peak (DataLog.mk {[ "ikr.IKr" := [neg_infinity] ]} ∅) "ikr.IKr"
  = Ok ([neg_infinity], nan).
Proof. vm_compute. reflexivity. Qed.

(** *** [APD90] *)

Lemma distances_no_nan signal v :
  Forall not_nan (map (λ s, abs (s - v)%float) signal) → Forall not_nan signal.
Proof.
  rewrite Forall_map. intros Hd. eapply Forall_impl; [exact Hd|].
  intros s H. unfold not_nan in *. simpl in H.
  destruct (is_nan s) eqn:E; [|done].
  by rewrite (FloatArith.abs_sub_nan s v E) in H.
Qed.

(** C5.  [APD90] takes [V* = min + 0.1 * (max - min)], the index of the
    first sample nearest to [V*], the duration [index * timestep - offset],
    and returns [len(signal) * timestep] instead when the duration is below
    1.  (Stated for a series with a minimum and a maximum, that is, not
    empty, and whose distances to [V*] are numbers.) *)
Theorem APD90_spec signal offset timestep mn mx :
  Py.min signal = Ok mn →
  Py.max signal = Ok mx →
  no_nan (map (λ s, abs (s - (mn + 0.1 * (mx - mn)))%float) signal) = true →
  is_minimum mn signal ∧ is_maximum mx signal
  ∧ ∃ idx,
      first_closest signal (mn + 0.1 * (mx - mn))%float idx
      ∧ Signal.APD90 signal offset timestep =
        Ok (if (float_of_nat idx * timestep - offset <? 1)%float
            then (float_of_nat (length signal) * timestep)%float
            else (float_of_nat idx * timestep - offset)%float).
Proof.
  intros Hmn Hmx Hd. apply no_nan_Forall in Hd.
  pose proof (distances_no_nan _ _ Hd) as Hs.
  split; [by apply py_min_spec|]. split; [by apply py_max_spec|].
  destruct (argmin_spec (map (λ s, abs (s - (mn + 0.1 * (mx - mn)))%float) signal))
    as (idx & Hidx & Hfirst); [|done|].
  { destruct signal; [discriminate|]. discriminate. }
  exists idx. split; [exact Hfirst|].
  unfold Signal.APD90. rewrite Hmx, Hmn. simpl. rewrite Hidx. simpl.
  destruct (_ <? 1)%float; reflexivity.
Qed.

Lemma APD90_spec_witness :
  is_minimum (-80)%float short_trace ∧ is_maximum 40%float short_trace
  ∧ ∃ idx,
      first_closest short_trace (-80 + 0.1 * (40 - -80))%float idx
      ∧ Signal.APD90 short_trace 1 0.1 =
        Ok (if (float_of_nat idx * 0.1 - 1 <? 1)%float
            then (float_of_nat (length short_trace) * 0.1)%float
            else (float_of_nat idx * 0.1 - 1)%float).
Proof.
  apply (APD90_spec short_trace 1 0.1 (-80) 40); reflexivity.
Defined.

Example APD90_short_trace :
  Signal.APD90 short_trace 0 1 = Ok 7%float
  ∧ Signal.APD90 short_trace 1 0.1 = Ok 0.8%float.
Proof. vm_compute. auto. Qed.

(** *** [APD90_update] *)


Lemma first_below_Some APD90_v window : ∀ ind k v,
  Signal.first_below APD90_v window ind = Some (k, v) →
  ∃ j, k = (ind + j)%nat ∧ window !! j = Some v ∧ (v <? APD90_v)%float = true
       ∧ ∀ j' x, (j' < j)%nat → window !! j' = Some x → (x <? APD90_v)%float = false.
Proof.
  induction window as [|a w IH]; intros ind k v; simpl; [done|].
  destruct (a <? APD90_v)%float eqn:E.
  - intros [= <- <-]. exists 0%nat. repeat split; auto; lia.
  - intros (j & -> & Hj & Hv & Hbefore)%IH. exists (S j).
    repeat split; auto; try lia.
    intros [|j'] x Hlt Hx; simpl in Hx; [by injection Hx as <-|].
    eapply Hbefore; eauto. lia.
Qed.







Example APD90_update_second_pulse_flat :
  scan_window two_pulse_trace 0 7 0.875 1 = Ok ((-68)%float, [40; 40; 40]%float)
  ∧ crosses (-68) [40; 40; 40]%float = false
  ∧ Signal.APD90_update unit_times two_pulse_trace 0 7 = Ok [5.9; nan]%float.
Proof. vm_compute. auto. Qed.

(** The first pulse has the same value whether or not the second one
    repolarises. *)
Example APD90_update_pulse_alone :
  Signal.APD90_update unit_times two_pulse_trace 0 7 = Ok [5.9; nan]%float
  ∧ Signal.APD90_update unit_times two_crossings_trace 0 7 = Ok [5.9; 5.9]%float
  ∧ Signal.pulse_slice two_pulse_trace 0 7 0.875 0
    = Signal.pulse_slice two_crossings_trace 0 7 0.875 0.
Proof. vm_compute. auto. Qed.


(** X1.  When the crossing sample is not the first one scanned, the crossing
    time is interpolated between it and the sample just before it. *)
Lemma crossing_time_interior time_window Vm_window APD90_v k v t_prev v_prev t :
  time_window !! k = Some t_prev →
  Vm_window !! k = Some v_prev →
  time_window !! S k = Some t →
  Signal.crossing_time time_window Vm_window APD90_v (S k) v
  = Ok (interpolate t_prev v_prev t v APD90_v).
Proof.
  intros Ht Hv Ht'.
  pose proof (lookup_lt_Some _ _ _ Ht). pose proof (lookup_lt_Some _ _ _ Hv).
  pose proof (lookup_lt_Some _ _ _ Ht').
  unfold Signal.crossing_time.
  replace (Z.of_nat (S k) - 1) with (Z.of_nat k) by lia.
  rewrite (index_nat _ _ _ Ht), (index_nat _ _ _ Hv), (index_nat _ _ _ Ht').
  reflexivity.
Qed.

Lemma crossing_time_interior_witness :
  Signal.crossing_time [5; 6; 7]%float [40; -80; -70]%float (-68) 1 (-80)
  = Ok (interpolate 5 40 6 (-80) (-68)).
Proof. apply crossing_time_interior; reflexivity. Defined.

(** When it is the first one scanned, [ind - 1] is [-1] and the "previous"
    sample is the last sample of the window. *)
Lemma crossing_time_wraps time_window Vm_window APD90_v v t_last v_last t :
  last time_window = Some t_last →
  last Vm_window = Some v_last →
  head time_window = Some t →
  Signal.crossing_time time_window Vm_window APD90_v 0 v
  = Ok (interpolate t_last v_last t v APD90_v).
Proof.
  intros Ht Hv Ht'. unfold Signal.crossing_time.
  change (Z.of_nat 0 - 1) with (-1). change (Z.of_nat 0) with 0.
  rewrite (index_last _ _ Ht), (index_last _ _ Hv), (index_head _ _ Ht').
  reflexivity.
Qed.

(** C6.  On [early_trace] the scan starts at sample 5, which is already
    below the threshold -68; the sample before it is sample 4 (t = 4,
    v = 40), and interpolating between the two gives 4.9.  The program
    interpolates between the crossing sample and the last sample of the
    pulse instead and returns 7.4, later than the crossing sample itself. *)
Theorem APD90_update_first_scanned_sample :
  scan_window early_trace 0 7 0.875 0 = Ok ((-68)%float, [-80; -80; -70]%float)
  ∧ Signal.first_below (-68) [-80; -80; -70]%float 0 = Some (0%nat, (-80)%float)
  ∧ Signal.APD90_update unit_times early_trace 0 7 = Ok [interpolate 7 (-70) 5 (-80) (-68)]
  ∧ interpolate 7 (-70) 5 (-80) (-68) = 7.4%float
  ∧ interpolate 4 40 5 (-80) (-68) = 4.9%float.
Proof. vm_compute. auto 6. Qed.

End SignalFacts.

(** ** The parameter library *)

Module LibraryFacts.
Import Py LibrarySpec.

(** C10.  [droperidol] is listed in [DrugConcentrations.drug_compounds],
    looking up its concentration grids raises [KeyError], and every other
    listed compound has an entry. *)
Theorem droperidol_has_no_grid :
  "droperidol" ∈ Library.drug_compounds
  ∧ Library.lookup_key Library.drug_concentrations "droperidol" = Raise KeyError
  ∧ Forall (λ drug, drug = "droperidol" ∨ has_grid drug) Library.drug_compounds.
Proof.
  split; [|split].
  - unfold Library.drug_compounds. repeat constructor.
  - vm_compute. reflexivity.
  - unfold Library.drug_compounds, has_grid.
    repeat (constructor;
      [first [by left | right; eexists; vm_compute; reflexivity]|]).
    constructor.
Qed.

(** Every listed compound, [droperidol] included, has binding parameters. *)
Lemma compounds_have_binding_parameters :
  Forall (λ drug, is_Some (Library.binding_parameters !! drug)) Library.binding_compounds.
Proof.
  unfold Library.binding_compounds.
  repeat (constructor; [eexists; vm_compute; reflexivity|]). constructor.
Qed.

End LibraryFacts.

(** ** The comparison script *)

Module ComparisonFacts.
Import Py PyFacts Comparison ComparisonSpec.

Lemma block_app t1 t2 label : block (t1 ++ t2) label = block t1 label ++ block t2 label.
Proof. unfold block. by rewrite filter_app, fmap_app. Qed.

Lemma block_labelled label' sub cells label :
  length sub = length cells →
  block (zip (labelled label' sub) cells) label
  = if bool_decide (label' = label) then cells else [].
Proof.
  unfold block, labelled. revert cells.
  induction sub as [|s sub IH]; intros [|c cells] Hlen; try discriminate; simpl.
  - by destruct (bool_decide _).
  - injection Hlen as Hlen. specialize (IH cells Hlen).
    rewrite filter_cons. simpl. destruct (decide (label' = label)) as [->|Hne].
    + rewrite bool_decide_eq_true_2 in * by done. rewrite fmap_cons. by rewrite IH.
    + rewrite bool_decide_eq_false_2 in * by done. done.
Qed.

Lemma length_linspace start stop num : length (linspace start stop num) = num.
Proof.
  unfold linspace. destruct num as [|[|n]]; [done..|].
  by rewrite length_insert, length_map, length_seq.
Qed.

Lemma length_conc_labels {A} (l : list A) : length (conc_labels l) = length l.
Proof. unfold conc_labels. by rewrite length_imap. Qed.

Lemma set_column_length pv : ∀ name x pv', set_column pv name x = Ok pv' → length pv' = length pv.
Proof.
  induction pv as [|[c y] pv IH]; intros name x pv'; simpl; [done|].
  destruct (bool_decide (c = name)).
  - by intros [= <-].
  - destruct (set_column pv name x) as [r|] eqn:E; [|done].
    intros [= <-]. simpl. f_equal. eauto.
Qed.

Lemma set_column_again pv : ∀ name x y pv',
  set_column pv name x = Ok pv' → ∃ pv'', set_column pv' name y = Ok pv''.
Proof.
  induction pv as [|[c z] pv IH]; intros name x y pv'; simpl; [done|].
  destruct (bool_decide (c = name)) eqn:E.
  - intros [= <-]. simpl. rewrite E. eauto.
  - destruct (set_column pv name x) as [r|] eqn:E'; [|done].
    intros [= <-]. simpl. rewrite E.
    destruct (IH _ _ y _ E') as [r' ->]. simpl. eauto.
Qed.

Section FailedFit.
Context `{Controller}.

(** C1.  When [compute_Hill] returns a string in place of the coefficients
    (with its concentration and peak lists as it returns them for a sweep of
    at least two concentrations), [param_evaluation] raises nothing and files
    NaN under the Hill coefficients, every APD90 of both models, the RMSE
    and the ME. *)
Theorem param_evaluation_failed_fit param_values drug orig param_values1 Hill_n
    marker drug_conc_Hill peaks_norm :
  column param_values "EC50" = Ok orig →
  set_column param_values "EC50" 1%float = Ok param_values1 →
  column param_values1 "N" = Ok Hill_n →
  compute_Hill param_values1 (power orig (1 / Hill_n)%float)
    = Ok (Failed marker, drug_conc_Hill, peaks_norm) →
  (2 ≤ length drug_conc_Hill)%nat →
  length peaks_norm = length drug_conc_Hill →
  length param_values = length param_names →
  ∃ table,
    param_evaluation param_values drug = Ok table
    ∧ block table "Hill_curve" = repeat (Number nan) 2
    ∧ block table "APD_trapping" = repeat (Number nan) APD_points
    ∧ block table "APD_conductance" = repeat (Number nan) APD_points
    ∧ block table "RMSE" = [Number nan]
    ∧ block table "ME" = [Number nan].
Proof.
  intros Horig Hset HN Hhill Hlen Hpeaks Hnames.
  destruct (set_column_again _ _ _ orig _ Hset) as [pv2 Hset2].
  pose proof (set_column_length _ _ _ _ Hset) as Hl1.
  pose proof (set_column_length _ _ _ _ Hset2) as Hl2.
  assert (∃ lowest, index drug_conc_Hill 1 = Ok lowest) as [lowest Hlow].
  { destruct drug_conc_Hill as [|a [|b l]]; simpl in Hlen; try lia.
    exists b. by apply (index_nat _ 1%nat). }
  assert (∃ highest, Py.max drug_conc_Hill = Ok highest) as [highest Hhigh].
  { destruct drug_conc_Hill; simpl in Hlen; [lia|]. eauto. }
  set (AP := map pow10 (linspace (log10 lowest) (log10 highest) APD_points)).
  assert (HAP : length AP = APD_points)
    by (unfold AP; by rewrite length_map, length_linspace).
  eexists. split.
  - unfold param_evaluation.
    rewrite Horig, bind_Ok. cbv beta. rewrite Hset, bind_Ok. cbv beta.
    rewrite HN, bind_Ok. cbv beta zeta. rewrite Hhill, bind_Ok. cbv beta iota.
    rewrite Hlow, bind_Ok. cbv beta. rewrite Hhigh, bind_Ok. cbv beta zeta.
    rewrite bind_Ok. cbv beta iota. rewrite Hset2, bind_Ok. cbv beta.
    fold AP. unfold DataFrame.
    match goal with
    | |- (if (?a =? ?b)%nat then _ else _) = _ => assert (Hsame : a = b)
    end.
    { unfold labelled.
      repeat rewrite ?length_app, ?length_map, ?length_fmap, ?length_conc_labels,
        ?repeat_length.
      rewrite HAP, Hpeaks, Hl2, Hl1, Hnames. reflexivity. }
    rewrite Hsame, Nat.eqb_refl. reflexivity.
  - fold AP.
    assert (Hz : ∀ label sub (cells : list cell) ti tc,
      length sub = length cells →
      zip (labelled label sub ++ ti) (cells ++ tc)
      = zip (labelled label sub) cells ++ zip ti tc).
    { intros. apply zip_with_app. unfold labelled. by rewrite length_map. }
    rewrite (Hz "drug" ["drug"] [Text drug]) by done.
    rewrite (Hz "drug_conc_Hill") by (by rewrite length_map, length_conc_labels).
    rewrite (Hz "peak_current") by (by rewrite length_map, length_conc_labels).
    rewrite (Hz "Hill_curve" ["Hill_coef"; "IC50"]) by done.
    rewrite (Hz "param_values") by (rewrite length_map, length_fmap; congruence).
    rewrite (Hz "drug_conc_AP") by (by rewrite length_map, length_conc_labels).
    rewrite (Hz "APD_trapping")
      by (by rewrite length_map, length_conc_labels, repeat_length, HAP).
    rewrite (Hz "APD_conductance")
      by (by rewrite length_map, length_conc_labels, repeat_length, HAP).
    rewrite (Hz "RMSE" ["RMSE"] [Number nan]) by done.
    rewrite !block_app.
    rewrite !block_labelled;
      rewrite ?length_map, ?length_fmap, ?length_conc_labels, ?repeat_length, ?HAP;
      try done; congruence.
Qed.

End FailedFit.

Lemma param_evaluation_failed_fit_witness :
  ∃ table,
    @param_evaluation failing_controller dofetilide_row "dofetilide" = Ok table
    ∧ block table "Hill_curve" = repeat (Number nan) 2
    ∧ block table "APD_trapping" = repeat (Number nan) APD_points
    ∧ block table "APD_conductance" = repeat (Number nan) APD_points
    ∧ block table "RMSE" = [Number nan]
    ∧ block table "ME" = [Number nan].
Proof.
  apply (@param_evaluation_failed_fit failing_controller dofetilide_row "dofetilide"
           5.483e8%float
           [("Vhalf", -1.147); ("Kmax", 1e8); ("Ku", 1.79e-5); ("N", 0.9999);
            ("EC50", 1)]%float
           0.9999%float "Hill curve did not form."
           [0; 1; 10]%float [1; 1; 1]%float).
  - reflexivity.
  - reflexivity.
  - reflexivity.
  - reflexivity.
  - simpl. lia.
  - reflexivity.
  - reflexivity.
Defined.

Example failed_fit_table_size :
  length <$> (match @param_evaluation failing_controller dofetilide_row "dofetilide" with
              | Ok table => Some table | Raise _ => None end) = Some 76%nat.
Proof. vm_compute. reflexivity. Qed.

End ComparisonFacts.

(** ** The simulation driver *)

Module DriverFacts.
Import Py PyFacts Myokit Driver DriverSpec.

Lemma agree_bind {A1 A2 B1 B2} (R : A1 → A2 → Prop) (Q : B1 → B2 → Prop)
    (m1 : res A1) (m2 : res A2) (k1 : A1 → res B1) (k2 : A2 → res B2) :
  agree R m1 m2 →
  (∀ a1 a2, R a1 a2 → agree Q (k1 a1) (k2 a2)) →
  agree Q (bind m1 k1) (bind m2 k2).
Proof. destruct m1, m2; simpl; intros; try done. auto. Qed.

Lemma agree_refl {A} (r : res A) : agree eq r r.
Proof. by destruct r. Qed.

Lemma agree_eq {A} (r1 r2 : res A) : agree eq r1 r2 → r1 = r2.
Proof. destruct r1, r2; simpl; intros; by subst. Qed.

Lemma agree_output {A} (r1 r2 : res (A * DataLog.t)) :
  agree (λ a b, a.2 = b.2) r1 r2 → output r1 = output r2.
Proof.
  destruct r1 as [[? ?]|], r2 as [[? ?]|]; simpl; intros; try done; by subst.
Qed.

Section Facts.
Context `{Service}.

Lemma same_setup_refl a : same_setup a a.
Proof. by repeat split. Qed.

Lemma same_setup_sym a b : same_setup a b → same_setup b a.
Proof. intros (?&?&?&?&?&?). by repeat split. Qed.

Lemma same_setup_trans a b c : same_setup a b → same_setup b c → same_setup a c.
Proof.
  intros (?&?&?&?&?&?) (?&?&?&?&?&?). repeat split; congruence.
Qed.

Lemma state_names m : (without_concentration m).*1 = (states m).*1.
Proof.
  unfold without_concentration. induction (states m) as [|[q x] l IH]; [done|].
  cbn [map]. rewrite !fmap_cons, IH. f_equal. cbn [fst]. by case_bool_decide.
Qed.

Lemma var_Ok m c n v : var m c n = Ok v → v = (c, n).
Proof. unfold var. destruct (_ || _); [|done]. by intros [= <-]. Qed.

Lemma var_same m1 m2 c n :
  constants m1 = constants m2 →
  without_concentration m1 = without_concentration m2 →
  var m1 c n = var m2 c n.
Proof.
  intros Hc Hw. unfold var.
  by rewrite Hc, <- (state_names m1), <- (state_names m2), Hw.
Qed.

(** A constant can be looked up through [var]: its key is in the map. *)
Lemma var_constant m c n x : constants m !! (c, n) = Some x → var m c n = Ok (c, n).
Proof.
  intros Hx. unfold var. rewrite bool_decide_eq_true_2; [done|]. by exists x.
Qed.

Lemma store_twice (x y : float) (s : qname * float) :
  (if bool_decide ((if bool_decide (s.1 = D) then (D, x) else s).1 = D)
   then (D, y) else (if bool_decide (s.1 = D) then (D, x) else s))
  = (if bool_decide (s.1 = D) then (D, y) else s).
Proof.
  destruct (decide (s.1 = D)) as [Heq|Hne].
  - rewrite !(bool_decide_eq_true_2 (s.1 = D)) by done. reflexivity.
  - rewrite !(bool_decide_eq_false_2 (s.1 = D)) by done. reflexivity.
Qed.

Lemma store_blanked (x : float) (l : list (qname * float)) :
  map (λ s, if bool_decide (s.1 = D) then (D, x) else s)
    (map (λ s, if bool_decide (s.1 = D) then (D, 0%float) else s) l)
  = map (λ s, if bool_decide (s.1 = D) then (D, x) else s) l.
Proof.
  rewrite map_map. apply map_ext. intros [q y]. by apply store_twice.
Qed.

Lemma set_state_value_same m1 m2 x :
  constants m1 = constants m2 →
  without_concentration m1 = without_concentration m2 →
  set_state_value m1 D x = set_state_value m2 D x.
Proof.
  intros Hc Hw. unfold set_state_value.
  rewrite Hc, <- (state_names m1), <- (state_names m2), Hw.
  rewrite <- (store_blanked x (states m1)), <- (store_blanked x (states m2)).
  fold (without_concentration m1). fold (without_concentration m2).
  by rewrite Hw.
Qed.

Lemma set_state_value_Ok m x m' :
  set_state_value m D x = Ok m' →
  constants m' = constants m
  ∧ without_concentration m' = without_concentration m
  ∧ states m' = map (λ s, if bool_decide (s.1 = D) then (D, x) else s) (states m).
Proof.
  unfold set_state_value. destruct (bool_decide _); [|done]. intros [= <-].
  split; [done|]. split; [|done].
  unfold without_concentration. simpl. rewrite map_map. apply map_ext.
  intros [q y]. by apply store_twice.
Qed.

Lemma set_constant_Ok (s s' : Simulation Protocol) v x :
  set_constant s v x = Ok s' → configured s s' v x.
Proof.
  unfold set_constant. destruct (_ !! _); [|done]. intros [= <-].
  by repeat split.
Qed.

Lemma set_head_constant_Ok self (s s' : Simulation Protocol) name x :
  set_head_constant self s name x = Ok s' →
  configured s s' (current_head self, name) x.
Proof.
  unfold set_head_constant. intros Hs. bind_step Hs.
  match goal with E : var _ _ _ = Ok _ |- _ => apply var_Ok in E as -> end.
  by apply set_constant_Ok.
Qed.

Lemma restore_constant_Ok self (s s' : Simulation Protocol) name key :
  restore_constant self s name key = Ok s' →
  ∃ x, original_constants self !! key = Some x
       ∧ configured s s' (current_head self, name) x.
Proof.
  unfold restore_constant, Library.lookup_key. intros Hs. do 2 bind_step Hs.
  match goal with E : var _ _ _ = Ok _ |- _ => apply var_Ok in E as -> end.
  destruct (original_constants self !! key) as [x|] eqn:E; [|done].
  match goal with E : Ok _ = Ok _ |- _ => injection E as <- end.
  exists x. split; [done|]. by apply set_constant_Ok.
Qed.

(** Unfolds a successful run of a method into its successful steps. *)
Ltac unfold_run Hrun :=
  repeat first
    [ match type of Hrun with
      | bind _ _ = Ok _ => apply bind_inv in Hrun as (? & ? & Hrun)
      | (let (_, _) := ?x in _) = _ => destruct x
      end
    | progress cbv beta zeta in Hrun ];
  repeat match goal with
  | Hs : set_head_constant _ _ _ _ = Ok _ |- _ =>
      apply set_head_constant_Ok in Hs; cbn [current_head model] in Hs
  | Hs : restore_constant _ _ _ _ = Ok _ |- _ =>
      apply restore_constant_Ok in Hs as (? & ? & Hs);
      cbn [current_head model original_constants] in *
  end.

(** The constant set last but one is still there after the last one. *)
Lemma configured_twice (s0 s1 s2 : Simulation Protocol) v1 x1 v2 x2 :
  configured s0 s1 v1 x1 → configured s1 s2 v2 x2 → v1 ≠ v2 →
  sim_constants s2 !! v1 = Some x1.
Proof.
  intros (H1 & _) (H2 & _) Hne. rewrite H2, H1.
  rewrite lookup_insert_ne by done. apply lookup_insert_eq.
Qed.

(** C3.  Whenever [drug_simulation] or [custom_simulation] returns, the
    simulation it has configured and run has [Kt] equal to the literal
    [3.5e-5], whatever the drug, its parameters or the parameter table. *)
Theorem trafficking_rate_fixed self drug param_values drug_conc repeats o
    set_state protocol_period self1 set_state1 log1 self2 log2 :
  (drug_simulation self drug drug_conc repeats o set_state protocol_period
     = Ok (self1, set_state1, log1) →
   sim_constants (sim self1) !! (current_head self, "Kt") = Some 3.5e-5%float
   ∧ ∃ t_max, pace_and_record (sim self1) t_max repeats o = Ok log1)
  ∧ (custom_simulation self param_values drug_conc repeats o = Ok (self2, log2) →
     sim_constants (sim self2) !! (current_head self, "Kt") = Some 3.5e-5%float
     ∧ ∃ t_max, pace_and_record (sim self2) t_max repeats o = Ok log2).
Proof.
  split; intros Hrun.
  - unfold drug_simulation in Hrun. unfold_run Hrun.
    injection Hrun as <- <- <-. cbn [sim]. split; [|eauto].
    match goal with
    | H1 : configured _ ?s (_, "Kt") _, H2 : configured ?s _ (_, "gKr") _ |- _ =>
        apply (configured_twice _ _ _ _ _ _ _ H1 H2)
    end.
    congruence.
  - unfold custom_simulation in Hrun. unfold_run Hrun.
    injection Hrun as <- <-. cbn [sim]. split; [|eauto].
    match goal with
    | H1 : configured _ ?s (_, "Kt") _, H2 : configured ?s _ (_, "gKr") _ |- _ =>
        apply (configured_twice _ _ _ _ _ _ _ H1 H2)
    end.
    congruence.
Qed.

Lemma head_constant_Ok m head name x :
  head_constant m head name = Ok x → constants m !! (head, name) = Some x.
Proof.
  unfold head_constant, eval. intros Hx. bind_step Hx.
  match goal with E : var _ _ _ = Ok _ |- _ => apply var_Ok in E as -> end.
  match type of Hx with
  | match ?t with _ => _ end = _ => destruct t as [y|] eqn:E; [|done]
  end.
  injection Hx as <-. exact E.
Qed.

(** What [__init__] leaves: the model and protocol it was given, and in
    [original_constants] the model's own values of the seven constants. *)
Lemma init_Ok m p h self0 :
  init m p h = Ok self0 →
  model self0 = m ∧ protocol self0 = p
  ∧ Forall (λ nk, original_constants self0 !! nk.2
                  = constants m !! (current_head self0, nk.1)
                  ∧ is_Some (original_constants self0 !! nk.2))
      [("Vhalf", "Vhalf"); ("Kmax", "Kmax"); ("Ku", "Ku"); ("n", "n");
       ("halfmax", "EC50"); ("Kt", "Kt"); ("gKr", "gKr")].
Proof.
  unfold init. intros Hi. unfold_run Hi.
  repeat match goal with
  | Hc : head_constant _ _ _ = Ok _ |- _ => apply head_constant_Ok in Hc
  end.
  injection Hi as <-. cbn [model protocol original_constants current_head].
  split; [done|]. split; [done|].
  repeat (constructor; [cbn [fst snd]; simplify_map_eq; eauto|]). constructor.
Qed.

(** C2.  Whatever the instance, a [conductance_simulation] that returns has
    run a simulation in which each binding-kinetics constant has the value
    saved in [original_constants], [gKr] is the argument and every other
    constant is the model's, and it leaves the model as it was.  On an
    instance built by [__init__] and used since only through its simulation
    methods the saved values are those the model held at construction, so
    that the constants of the run are the model's own with [gKr] replaced. *)
Theorem conductance_simulation_constants self conductance repeats o set_state
    self' log :
  conductance_simulation self conductance repeats o set_state = Ok (self', log) →
  Forall (λ nk, sim_constants (sim self') !! (current_head self, nk.1)
                = original_constants self !! nk.2
                ∧ is_Some (original_constants self !! nk.2)) kinetics
  ∧ sim_constants (sim self') !! (current_head self, "gKr") = Some conductance
  ∧ (∀ q, q ∉ (current_head self, "gKr")
              :: ((λ nk, (current_head self, nk.1)) <$> kinetics) →
          sim_constants (sim self') !! q = constants (model self) !! q)
  ∧ model self' = model self
  ∧ (∀ m p h self0,
       init m p h = Ok self0 → same_setup self0 self →
       sim_constants (sim self')
       = <[(current_head self, "gKr") := conductance]> (constants m)
       ∧ Forall (λ nk, original_constants self !! nk.2
                       = constants m !! (current_head self, nk.1)) kinetics)
  ∧ ∃ t_max, pace_and_record (sim self') t_max repeats o = Ok log.
Proof.
  intros Hrun. unfold conductance_simulation in Hrun. unfold_run Hrun.
  injection Hrun as <- <-. cbn [sim model].
  assert (Hs0 : ∀ s0 : Simulation Protocol,
    s0 = set_tolerance
           match truthy set_state with
           | Some st => Myokit.set_state (reset (new_simulation (model self) (protocol self))) st
           | None => reset (new_simulation (model self) (protocol self))
           end (abs_tol o) (rel_tol o) →
    sim_constants s0 = constants (model self)).
  { intros s0 ->. destruct (truthy set_state); reflexivity. }
  match goal with
  | Hc : configured ?s0 _ (_, "Vhalf") _ |- _ => specialize (Hs0 s0 eq_refl)
  end.
  repeat match goal with
  | Hs : configured _ _ _ _ |- _ => destruct Hs as (Hs & _)
  end.
  match goal with
  | |- Forall _ _ ∧ sim_constants ?s !! _ = _ ∧ _ =>
      match goal with
      | H1 : original_constants self !! "Vhalf" = Some ?x1,
        H2 : original_constants self !! "Kmax" = Some ?x2,
        H3 : original_constants self !! "Ku" = Some ?x3,
        H4 : original_constants self !! "n" = Some ?x4,
        H5 : original_constants self !! "EC50" = Some ?x5,
        H6 : original_constants self !! "Kt" = Some ?x6 |- _ =>
          assert (Hall : sim_constants s
            = <[(current_head self, "gKr") := conductance]>
                (<[(current_head self, "Kt") := x6]>
                   (<[(current_head self, "halfmax") := x5]>
                      (<[(current_head self, "n") := x4]>
                         (<[(current_head self, "Ku") := x3]>
                            (<[(current_head self, "Kmax") := x2]>
                               (<[(current_head self, "Vhalf") := x1]>
                                  (constants (model self)))))))))
      end
  end.
  { repeat match goal with
    | Hs : sim_constants _ = <[_ := _]> _ |- _ => rewrite Hs; clear Hs
    end.
    by rewrite Hs0. }
  split; [|split; [|split; [|split; [done|split; [|eauto]]]]].
  - rewrite Hall. unfold kinetics.
    repeat (constructor; [cbn [fst snd]; split; [|eauto];
      repeat (rewrite lookup_insert_ne by congruence);
      rewrite lookup_insert_eq; congruence|]).
    constructor.
  - rewrite Hall. apply lookup_insert_eq.
  - intros q Hq. unfold kinetics in Hq. rewrite !fmap_cons in Hq. cbn [fst] in Hq.
    rewrite !not_elem_of_cons in Hq. destruct Hq as (? & ? & ? & ? & ? & ? & ? & _).
    rewrite Hall. by rewrite !lookup_insert_ne by done.
  - intros m p h self0 Hinit (Hc & _ & _ & _ & Hhead & Horig).
    apply init_Ok in Hinit as (Hm & _ & Hsaved). rewrite Hm in Hc.
    rewrite Horig, Hhead in Hsaved.
    repeat match goal with
    | Hf : Forall _ (_ :: _) |- _ => apply Forall_cons in Hf as ((? & _) & Hf)
    end; cbn [fst snd] in *.
    split.
    + rewrite Hall, <- Hc. f_equal.
      repeat match goal with
      | |- context [<[?k := ?x]> (constants m)] =>
          rewrite (insert_id (constants m) k x) by congruence
      end.
      reflexivity.
    + unfold kinetics. rewrite Hc.
      repeat (constructor; [cbn [fst snd]; congruence|]). constructor.
Qed.

(** *** Calls and what they leave behind *)

Lemma drug_simulation_setup self drug drug_conc repeats o set_state protocol_period
    self' set_state' log :
  drug_simulation self drug drug_conc repeats o set_state protocol_period
    = Ok (self', set_state', log) →
  same_setup self self'.
Proof.
  intros Hrun. unfold drug_simulation in Hrun. unfold_run Hrun.
  injection Hrun as <- <- <-.
  match goal with E : var _ "ikr" "D" = Ok _ |- _ => apply var_Ok in E as -> end.
  match goal with
  | E : set_state_value _ _ _ = Ok _ |- _ => apply set_state_value_Ok in E as (? & ? & _)
  end.
  by repeat split.
Qed.

Lemma custom_simulation_setup self param_values drug_conc repeats o self' log :
  custom_simulation self param_values drug_conc repeats o = Ok (self', log) →
  same_setup self self'.
Proof.
  intros Hrun. unfold custom_simulation in Hrun. unfold_run Hrun.
  injection Hrun as <- <-.
  match goal with E : var _ "ikr" "D" = Ok _ |- _ => apply var_Ok in E as -> end.
  match goal with
  | E : set_state_value _ _ _ = Ok _ |- _ => apply set_state_value_Ok in E as (? & ? & _)
  end.
  by repeat split.
Qed.

Lemma conductance_simulation_setup self conductance repeats o set_state self' log :
  conductance_simulation self conductance repeats o set_state = Ok (self', log) →
  same_setup self self' ∧ model self' = model self.
Proof.
  intros Hrun. unfold conductance_simulation in Hrun. unfold_run Hrun.
  injection Hrun as <- <-. by repeat split.
Qed.

Lemma reached_same_setup self0 self : reached self0 self → same_setup self0 self.
Proof.
  induction 1 as [|? ? ? ? ? ? ? ? ? ? _ IH Hrun|? ? ? ? ? ? ? _ IH Hrun
                  |? ? ? ? ? ? ? _ IH Hrun].
  - apply same_setup_refl.
  - eapply same_setup_trans; [exact IH|]. eapply drug_simulation_setup; eauto.
  - eapply same_setup_trans; [exact IH|]. eapply custom_simulation_setup; eauto.
  - eapply same_setup_trans; [exact IH|].
    eapply conductance_simulation_setup; eauto.
Qed.

(** *** Two instances with the same setup *)

Lemma store_same m1 m2 x {B} (k : Model → res B) :
  constants m1 = constants m2 →
  without_concentration m1 = without_concentration m2 →
  (let* concentration := var m1 "ikr" "D" in
   let* model' := set_state_value m1 concentration x in k model')
  = (let* concentration := var m2 "ikr" "D" in
     let* model' := set_state_value m2 concentration x in k model').
Proof.
  intros Hc Hw. rewrite (var_same m1 m2) by done.
  destruct (var m2 "ikr" "D") as [v|] eqn:E; [|done].
  apply var_Ok in E as ->. rewrite !bind_Ok.
  fold D. by rewrite (set_state_value_same m1 m2).
Qed.

Lemma drug_simulation_same a b drug drug_conc repeats o set_state protocol_period :
  same_setup a b →
  drug_simulation a drug drug_conc repeats o set_state protocol_period
  = drug_simulation b drug drug_conc repeats o set_state protocol_period.
Proof.
  destruct a as [m1 p1 s1 i1 h1 o1], b as [m2 p2 s2 i2 h2 o2].
  intros (Hc & Hw & Hp & Hi & Hh & Ho). cbn in Hc, Hw, Hp, Hi, Hh, Ho. subst.
  unfold drug_simulation, protocol_time, set_head_constant.
  cbn [model protocol sim initial_state current_head original_constants].
  destruct (Library.lookup_key Library.binding_parameters drug) as [bp|]; [|done].
  rewrite !bind_Ok. cbv beta.
  destruct (match protocol_period with Some _ => _ | None => _ end) as [t_max|];
    [|done].
  rewrite !bind_Ok. cbv beta.
  by apply store_same.
Qed.

Lemma custom_simulation_same a b param_values drug_conc repeats o :
  same_setup a b →
  custom_simulation a param_values drug_conc repeats o
  = custom_simulation b param_values drug_conc repeats o.
Proof.
  destruct a as [m1 p1 s1 i1 h1 o1], b as [m2 p2 s2 i2 h2 o2].
  intros (Hc & Hw & Hp & Hi & Hh & Ho). cbn in Hc, Hw, Hp, Hi, Hh, Ho. subst.
  unfold custom_simulation, protocol_time, set_head_constant.
  cbn [model protocol sim initial_state current_head original_constants].
  destruct (match p2 with Some _ => _ | None => _ end) as [t_max|]; [|done].
  rewrite !bind_Ok. cbv beta.
  by apply store_same.
Qed.

Lemma set_constant_job (s1 s2 : Simulation Protocol) v x :
  same_job s1 s2 → agree same_job (set_constant s1 v x) (set_constant s2 v x).
Proof.
  intros (Hc & Hs & Hp & Ha & Hr). unfold set_constant. rewrite Hc.
  destruct (sim_constants s2 !! v); [|done]. simpl.
  repeat split; cbn; congruence.
Qed.

Lemma restore_constant_job a b (s1 s2 : Simulation Protocol) name key :
  same_setup a b → same_job s1 s2 →
  agree same_job (restore_constant a s1 name key) (restore_constant b s2 name key).
Proof.
  intros (Hc & Hw & _ & _ & Hh & Ho) Hjob. unfold restore_constant.
  rewrite Hh, Ho, (var_same _ _ _ _ Hc Hw).
  destruct (var (model b) (current_head b) name); [|done]. rewrite !bind_Ok.
  destruct (Library.lookup_key (original_constants b) key); [|done]. rewrite !bind_Ok.
  by apply set_constant_job.
Qed.

Lemma set_head_constant_job a b (s1 s2 : Simulation Protocol) name x :
  same_setup a b → same_job s1 s2 →
  agree same_job (set_head_constant a s1 name x) (set_head_constant b s2 name x).
Proof.
  intros (Hc & Hw & _ & _ & Hh & _) Hjob. unfold set_head_constant.
  rewrite Hh, (var_same _ _ _ _ Hc Hw).
  destruct (var (model b) (current_head b) name); [|done]. rewrite !bind_Ok.
  by apply set_constant_job.
Qed.

Lemma pace_and_record_job (s1 s2 : Simulation Protocol) t_max repeats o :
  same_job s1 s2 →
  pace_and_record s1 t_max repeats o = pace_and_record s2 t_max repeats o.
Proof.
  intros (Hc & Hs & Hp & Ha & Hr). unfold pace_and_record.
  by rewrite Hc, Hs, Hp, Ha, Hr.
Qed.

Lemma conductance_simulation_same a b conductance repeats o set_state :
  same_setup a b →
  truthy set_state ≠ None ∨ states (model a) = states (model b) →
  output (conductance_simulation a conductance repeats o set_state)
  = output (conductance_simulation b conductance repeats o set_state).
Proof.
  intros Hsetup Hstart. apply agree_output. unfold conductance_simulation.
  pose proof Hsetup as (Hc & Hw & Hp & Hi & Hh & Ho).
  assert (Hjob : same_job
    (set_tolerance
       match truthy set_state with
       | Some st => Myokit.set_state (reset (new_simulation (model a) (protocol a))) st
       | None => reset (new_simulation (model a) (protocol a))
       end (abs_tol o) (rel_tol o))
    (set_tolerance
       match truthy set_state with
       | Some st => Myokit.set_state (reset (new_simulation (model b) (protocol b))) st
       | None => reset (new_simulation (model b) (protocol b))
       end (abs_tol o) (rel_tol o))).
  { destruct (truthy set_state); repeat split; cbn; try congruence.
    destruct Hstart as [? | ->]; done. }
  cbv zeta.
  eapply agree_bind; [by apply restore_constant_job|]. clear Hjob. intros ? ? Hjob.
  eapply agree_bind; [by apply restore_constant_job|]. clear Hjob. intros ? ? Hjob.
  eapply agree_bind; [by apply restore_constant_job|]. clear Hjob. intros ? ? Hjob.
  eapply agree_bind; [by apply restore_constant_job|]. clear Hjob. intros ? ? Hjob.
  eapply agree_bind; [by apply restore_constant_job|]. clear Hjob. intros ? ? Hjob.
  eapply agree_bind; [by apply restore_constant_job|]. clear Hjob. intros ? ? Hjob.
  eapply agree_bind; [by apply set_head_constant_job|]. clear Hjob. intros ? ? Hjob.
  unfold protocol_time. cbn [protocol]. rewrite Hp.
  eapply agree_bind; [apply agree_refl|]. intros t_max ? <-.
  rewrite (pace_and_record_job _ _ _ _ _ Hjob).
  eapply agree_bind; [apply agree_refl|]. intros log ? <-. done.
Qed.

(** C8, amended.  Between two instances reached from the same one by
    simulation calls, [drug_simulation] and [custom_simulation] do the same
    on the same arguments, and so does [conductance_simulation], in the log
    it returns or the exception it raises, when it is given a starting state
    or when the two models hold the same stored state. *)
Theorem simulation_calls_independent self0 a b :
  reached self0 a → reached self0 b →
  (∀ drug drug_conc repeats o set_state protocol_period,
     drug_simulation a drug drug_conc repeats o set_state protocol_period
     = drug_simulation b drug drug_conc repeats o set_state protocol_period)
  ∧ (∀ param_values drug_conc repeats o,
       custom_simulation a param_values drug_conc repeats o
       = custom_simulation b param_values drug_conc repeats o)
  ∧ (∀ conductance repeats o set_state,
       truthy set_state ≠ None ∨ states (model a) = states (model b) →
       output (conductance_simulation a conductance repeats o set_state)
       = output (conductance_simulation b conductance repeats o set_state)).
Proof.
  intros Ha%reached_same_setup Hb%reached_same_setup.
  assert (Hab : same_setup a b)
    by (eapply same_setup_trans; [apply same_setup_sym|]; eauto).
  split; [|split].
  - intros. by apply drug_simulation_same.
  - intros. by apply custom_simulation_same.
  - intros. by apply conductance_simulation_same.
Qed.

(** X2.  Calling [drug_simulation] again with the same arguments returns
    the same log and leaves the instance as the first call left it. *)
Lemma drug_simulation_twice self drug drug_conc repeats o set_state protocol_period
    self' set_state' log :
  drug_simulation self drug drug_conc repeats o set_state protocol_period
    = Ok (self', set_state', log) →
  drug_simulation self' drug drug_conc repeats o set_state protocol_period
    = Ok (self', set_state', log).
Proof.
  intros Hrun. pose proof (drug_simulation_setup _ _ _ _ _ _ _ _ _ _ Hrun) as Hs.
  rewrite <- (drug_simulation_same self self') by done.
  exact Hrun.
Qed.

End Facts.

(** *** A concrete service and model *)

Lemma trafficking_rate_fixed_witness :
  (sim_constants (sim after_verapamil.1.1) !! (current_head channel_driver, "Kt")
   = Some 3.5e-5%float
   ∧ ∃ t_max, pace_and_record (sim after_verapamil.1.1) t_max 1000 default_options
              = Ok after_verapamil.2)
  ∧ (sim_constants (sim after_custom.1) !! (current_head channel_driver, "Kt")
     = Some 3.5e-5%float
     ∧ ∃ t_max, pace_and_record (sim after_custom.1) t_max 1000 default_options
                = Ok after_custom.2).
Proof.
  pose proof (@trafficking_rate_fixed probe channel_driver "verapamil"
                (one_row (-100) 4.646e4 7.927e-4 1.043 9.184e6) 30%float 1000
                default_options None None
                after_verapamil.1.1 after_verapamil.1.2 after_verapamil.2
                after_custom.1 after_custom.2) as [Hdrug Hcustom].
  split; [apply Hdrug | apply Hcustom]; vm_compute; reflexivity.
Defined.

Lemma conductance_simulation_constants_witness :
  (Forall (λ nk, sim_constants (sim conductance_on_retuned.1)
                   !! (current_head retuned_driver, nk.1)
                 = original_constants retuned_driver !! nk.2
                 ∧ is_Some (original_constants retuned_driver !! nk.2)) kinetics
   ∧ sim_constants (sim conductance_on_retuned.1)
       !! (current_head retuned_driver, "gKr") = Some 0.02%float
   ∧ (∀ q, q ∉ (current_head retuned_driver, "gKr")
               :: ((λ nk, (current_head retuned_driver, nk.1)) <$> kinetics) →
           sim_constants (sim conductance_on_retuned.1) !! q
           = constants (model retuned_driver) !! q)
   ∧ model conductance_on_retuned.1 = model retuned_driver
   ∧ (∀ m p h self0,
        init m p h = Ok self0 → same_setup self0 retuned_driver →
        sim_constants (sim conductance_on_retuned.1)
        = <[(current_head retuned_driver, "gKr") := 0.02%float]> (constants m)
        ∧ Forall (λ nk, original_constants retuned_driver !! nk.2
                        = constants m !! (current_head retuned_driver, nk.1)) kinetics)
   ∧ ∃ t_max, pace_and_record (sim conductance_on_retuned.1) t_max 1000
                default_options = Ok conductance_on_retuned.2)
  ∧ sim_constants (sim conductance_after_verapamil.1)
    = <[(current_head after_verapamil.1.1, "gKr") := 0.02%float]>
        (constants channel_model).
Proof.
  split.
  - apply (@conductance_simulation_constants probe retuned_driver 0.02%float 1000
             default_options None).
    vm_compute. reflexivity.
  - assert (Hrun : @conductance_simulation probe after_verapamil.1.1 0.02 1000
                     default_options None
                   = Ok (conductance_after_verapamil.1, conductance_after_verapamil.2))
      by (vm_compute; reflexivity).
    destruct (@conductance_simulation_constants probe _ _ _ _ _ _ _ Hrun)
      as (_ & _ & _ & _ & Hbuilt & _).
    apply (Hbuilt channel_model (Some 25e3%float) None channel_driver).
    + vm_compute. reflexivity.
    + repeat split; vm_compute; reflexivity.
Defined.

(** On the edited instance the run has the saved [Kmax], not the model's. *)
Example conductance_simulation_restores_edited :
  constants (model retuned_driver) !! ("ikr", "Kmax") = Some 5%float
  ∧ original_constants retuned_driver !! "Kmax" = Some 0%float
  ∧ sim_constants (sim conductance_on_retuned.1) !! ("ikr", "Kmax") = Some 0%float.
Proof. vm_compute. auto. Qed.

Lemma simulation_calls_independent_witness :
  (∀ drug drug_conc repeats o set_state protocol_period,
     drug_simulation channel_driver drug drug_conc repeats o set_state protocol_period
     = drug_simulation after_verapamil.1.1 drug drug_conc repeats o set_state
         protocol_period)
  ∧ (∀ param_values drug_conc repeats o,
       custom_simulation channel_driver param_values drug_conc repeats o
       = custom_simulation after_verapamil.1.1 param_values drug_conc repeats o)
  ∧ (∀ conductance repeats o set_state,
       truthy set_state ≠ None
       ∨ states (model channel_driver) = states (model after_verapamil.1.1) →
       output (conductance_simulation channel_driver conductance repeats o set_state)
       = output (conductance_simulation after_verapamil.1.1 conductance repeats o
                   set_state)).
Proof.
  apply (@simulation_calls_independent probe channel_driver).
  - apply reached_start.
  - apply (reached_drug channel_driver channel_driver "verapamil" 30%float 1000
             default_options None None after_verapamil.1.1 after_verapamil.1.2
             after_verapamil.2).
    + apply reached_start.
    + vm_compute. reflexivity.
Defined.

Lemma drug_simulation_twice_witness :
  @drug_simulation probe after_verapamil.1.1 "verapamil" 30 1000 default_options
    None None
  = Ok (after_verapamil.1.1, after_verapamil.1.2, after_verapamil.2).
Proof.
  apply (@drug_simulation_twice probe channel_driver).
  vm_compute. reflexivity.
Defined.

(** C8, as stated, fails: the same [conductance_simulation] call starts the
    solver from a different state on the fresh instance and after a
    [drug_simulation], which stored its concentration in the model; a solver
    that logs the state it starts from returns two different logs. *)
Lemma conductance_simulation_history :
  succeeded (@init probe channel_model (Some 25e3%float) None) = true
  ∧ succeeded (@drug_simulation probe channel_driver "verapamil" 30 1000
                 default_options None None) = true
  ∧ started (@conductance_simulation probe channel_driver 0.02 1000
               default_options None)
    = Some (ModelState [(("ikr", "O"), 0%float); (("ikr", "D"), 0%float)])
  ∧ started (@conductance_simulation probe after_verapamil.1.1 0.02 1000
               default_options None)
    = Some (ModelState [(("ikr", "O"), 0%float); (("ikr", "D"), 30%float)])
  ∧ recorded (output (@conductance_simulation probe channel_driver 0.02 1000
                        default_options None)) "ikr.D" = Some [0%float]
  ∧ recorded (output (@conductance_simulation probe after_verapamil.1.1 0.02 1000
                        default_options None)) "ikr.D" = Some [30%float].
Proof. vm_compute. auto 10. Qed.

End DriverFacts.

(** ** Signal analysis: errors, NaN samples, flat traces and crossings *)

Module SignalEdges.
Import Py PyFacts Order Extrema SignalSpec SignalInputs FloatOrder Reductions.

(** *** [extract_peak] *)

(** The loop stops with [ValueError] at the first empty pulse. *)
Lemma peaks_loop_empty log name : ∀ n k acc j,
  (k ≤ j < k + n)%nat →
  (k + n ≤ length (DataLog.pulses_of log name))%nat →
  DataLog.pulses_of log name !! j = Some [] →
  for_each (append_peak log name) (seq k n) acc = Raise ValueError.
Proof.
  induction n as [|n IH]; intros k acc j Hj Hlen Hempty; [lia|].
  destruct (lookup_lt_is_Some_2 (DataLog.pulses_of log name) k ltac:(lia)) as [p Hp].
  cbn [seq for_each]. unfold append_peak at 1, DataLog.getitem_pulse.
  rewrite Hp. rewrite bind_Ok.
  destruct p as [|x p].
  - reflexivity.
  - cbn [Np.max]. rewrite !bind_Ok.
    assert (j ≠ k) by (intros ->; congruence).
    apply (IH (S k) _ j); [lia | lia | done].
Qed.

(** What the loop appends when it completes: the [np.max] of each pulse. *)
Lemma peaks_loop_inv log name : ∀ n k acc out,
  for_each (append_peak log name) (seq k n) acc = Ok out →
  ∃ ms, out = acc ++ ms
        ∧ Forall2 (λ p m, Np.max p = Ok m)
            (take n (drop k (DataLog.pulses_of log name))) ms
        ∧ length ms = n.
Proof.
  induction n as [|n IH]; intros k acc out; cbn [seq for_each].
  - intros [= <-]. exists []. rewrite app_nil_r, take_0. by repeat constructor.
  - unfold append_peak at 1, DataLog.getitem_pulse.
    destruct (DataLog.pulses_of log name !! k) as [p|] eqn:Hp; [|done].
    rewrite bind_Ok. destruct (Np.max p) as [m|] eqn:Hm; [|done].
    rewrite !bind_Ok. intros (ms & -> & Hms & Hlen)%IH.
    exists (m :: ms). rewrite <- app_assoc. split; [done|].
    rewrite (drop_S _ _ _ Hp). cbn [take]. split; [by constructor | by rewrite <- Hlen].
Qed.

(** [np.max] does not skip a NaN: a NaN sample makes the maximum NaN. *)
Lemma maximum_nan_acc a : ∀ acc, is_nan acc = true → is_nan (fold_left Np.maximum a acc) = true.
Proof.
  induction a as [|x a IH]; intros acc Hacc; [done|]. cbn [fold_left].
  apply IH. unfold Np.maximum. by rewrite Hacc, orb_true_r.
Qed.

Lemma leb_nan_l x y : is_nan x = true → (x <=? y)%float = false.
Proof.
  rewrite is_nan_spec, leb_spec. unfold SFleb.
  destruct (Prim2SF x); try discriminate. reflexivity.
Qed.

Lemma np_max_nan a x m :
  Np.max a = Ok m → x ∈ a → is_nan x = true → is_nan m = true.
Proof.
  destruct a as [|y a]; [done|]. intros [= <-]. revert y.
  induction a as [|z a IH]; intros y Hx Hnan.
  - apply list_elem_of_singleton in Hx as ->. done.
  - cbn [fold_left]. apply elem_of_cons in Hx as [-> | Hx].
    + apply maximum_nan_acc. unfold Np.maximum. by rewrite Hnan, orb_true_r.
    + destruct (is_nan (Np.maximum y z)) eqn:E; [by apply maximum_nan_acc|].
      apply elem_of_cons in Hx as [-> | Hx].
      * unfold Np.maximum in E |- *. rewrite (leb_nan_l _ _ Hnan) in *.
        cbn [orb] in *. destruct (is_nan y) eqn:Ey; [congruence|].
        apply maximum_nan_acc. done.
      * apply IH; [|done]. right. done.
Qed.

(** X3.  [extract_peak] raises [KeyError] when the log holds nothing for the
    variable, and [ValueError] when one of the pulses it reads is empty. *)
Theorem extract_peak_raises log name :
  (recorded_pulses log name = None →
   Signal.extract_peak log name = Raise KeyError)
  ∧ (∀ ps, recorded_pulses log name = Some ps → [] ∈ ps →
       Signal.extract_peak log name = Raise ValueError).
Proof.
  unfold recorded_pulses, Signal.extract_peak, DataLog.keys_like.
  rewrite length_imap. unfold range. rewrite Nat2Z.id.
  fold (append_peak log name).
  destruct (DataLog.pulses_of log name) as [|p0 ps0] eqn:Eps.
  - unfold DataLog.getitem.
    destruct (DataLog.series log !! name) as [s|]; cbn [fmap option_fmap option_map].
    + split; [done|]. intros ps [= <-] Hin.
      apply list_elem_of_singleton in Hin as <-. reflexivity.
    + split; [reflexivity | done].
  - split; [done|]. intros ps [= <-] Hin.
    apply list_elem_of_lookup_1 in Hin as [j Hj].
    pose proof (lookup_lt_Some _ _ _ Hj) as Hlt.
    change (length (p0 :: ps0) =? 0)%nat with false. cbv iota.
    rewrite bind_Ok. cbv beta.
    rewrite (peaks_loop_empty log name _ 0 _ j); rewrite ?Eps; try done; lia.
Qed.

Lemma extract_peak_raises_witness :
  Signal.extract_peak single_run_log "membrane.V" = Raise KeyError
  ∧ Signal.extract_peak empty_pulse_log "ikr.IKr" = Raise ValueError.
Proof.
  split.
  - apply (extract_peak_raises single_run_log "membrane.V"). reflexivity.
  - apply (extract_peak_raises empty_pulse_log "ikr.IKr") with (ps := [[0.5; 2; 1]; []]%float).
    + reflexivity.
    + right. left.
Defined.

(** X4.  Whenever [extract_peak] returns, the log records the variable, the
    peaks are the [np.max] of the pulses, one per pulse and in order, and the
    peak of a pulse that holds a NaN sample is NaN. *)
Theorem extract_peak_returns log name peaks reduction :
  Signal.extract_peak log name = Ok (peaks, reduction) →
  ∃ ps, recorded_pulses log name = Some ps
        ∧ Forall2 (λ p m, Np.max p = Ok m) ps peaks
        ∧ ∀ i p m x, ps !! i = Some p → peaks !! i = Some m →
            x ∈ p → is_nan x = true → is_nan m = true.
Proof.
  intros Hrun.
  assert (∃ ps, recorded_pulses log name = Some ps
                ∧ Forall2 (λ p m, Np.max p = Ok m) ps peaks) as (ps & Hps & Hmax).
  { unfold recorded_pulses. revert Hrun.
    unfold Signal.extract_peak, DataLog.keys_like.
    rewrite length_imap. unfold range. rewrite Nat2Z.id.
    fold (append_peak log name).
    destruct (DataLog.pulses_of log name) as [|p0 ps0] eqn:Eps.
    - unfold DataLog.getitem.
      destruct (DataLog.series log !! name) as [s|]; [|done].
      cbn [length Nat.eqb seq for_each]. rewrite !bind_Ok.
      destruct (Np.max s) as [m|] eqn:Hm; [|done]. rewrite !bind_Ok.
      cbn [app index]. intros Hrun. exists [s]. split; [done|].
      assert (peaks = [m]) as ->.
      { revert Hrun. vm_compute (index [m] 0). rewrite bind_Ok.
        destruct (m =? 0)%float; [by intros [= <- _]|].
        vm_compute (index [m] (-1)). rewrite bind_Ok. by intros [= <- _]. }
      by repeat constructor.
    - change (length (p0 :: ps0) =? 0)%nat with false. cbv iota.
      rewrite bind_Ok. cbv beta. intros Hrun.
      apply bind_inv in Hrun as (out & Hloop & Hrun).
      apply peaks_loop_inv in Hloop as (ms & -> & Hms & _).
      rewrite Eps, drop_0, firstn_all in Hms. cbn [app] in Hrun.
      exists (p0 :: ps0). split; [done|].
      apply bind_inv in Hrun as (first & _ & Hrun).
      destruct (first =? 0)%float; [by injection Hrun as <- _|].
      apply bind_inv in Hrun as (lst & _ & Hrun). by injection Hrun as <- _. }
  exists ps. split; [done|]. split; [done|].
  intros i p m x Hp Hm Hx Hnan.
  pose proof (Forall2_lookup_lr _ _ _ _ _ _ Hmax Hp Hm) as Hpm.
  by apply (np_max_nan p x m).
Qed.

Lemma extract_peak_returns_witness :
  ∃ ps, recorded_pulses nan_pulse_log "ikr.IKr" = Some ps
        ∧ Forall2 (λ p m, Np.max p = Ok m) ps [2; nan]%float
        ∧ ∀ i p m x, ps !! i = Some p → [2; nan]%float !! i = Some m →
            x ∈ p → is_nan x = true → is_nan m = true.
Proof.
  apply (extract_peak_returns nan_pulse_log "ikr.IKr" [2; nan]%float nan).
  vm_compute. reflexivity.
Defined.

(** *** [APD90] on a flat trace *)

Lemma sub_self c : is_finite c = true → (c - c)%float = 0%float.
Proof.
  intros Hc. apply Prim2SF_inj. rewrite sub_spec.
  change (Prim2SF 0) with (S754_zero false).
  unfold is_finite in Hc. destruct (Prim2SF c) as [s|s| |s m e]; try discriminate.
  - destruct s; reflexivity.
  - unfold SF64sub, SFsub. rewrite Z.sub_diag. reflexivity.
Qed.

(** Every sample of a flat trace is at distance [+0] from the threshold. *)
Lemma flat_distance c :
  is_finite c = true → abs (c - (c + 0.1 * (c - c)))%float = 0%float.
Proof.
  intros Hc. rewrite (sub_self c Hc).
  change (0.1 * 0)%float with 0%float.
  apply Prim2SF_inj. rewrite abs_spec, sub_spec, add_spec.
  change (Prim2SF 0) with (S754_zero false).
  unfold is_finite in Hc. destruct (Prim2SF c) as [s|s| |s m e]; try discriminate.
  - destruct s; reflexivity.
  - unfold SF64add, SFadd, SF64sub, SFsub. rewrite Z.sub_diag. reflexivity.
Qed.

Lemma ltb_irrefl c : is_nan c = false → (c <? c)%float = false.
Proof.
  intros Hc. rewrite ltb_spec. unfold SFltb.
  rewrite SFcompare_refl; [done|]. by rewrite <- is_nan_spec.
Qed.

Lemma py_max_repeat c n : is_nan c = false → Py.max (repeat c (S n)) = Ok c.
Proof.
  intros Hc. cbn [repeat Py.max]. f_equal.
  induction n as [|n IH]; [done|]. cbn [repeat fold_left]. by rewrite ltb_irrefl.
Qed.

Lemma py_min_repeat c n : is_nan c = false → Py.min (repeat c (S n)) = Ok c.
Proof.
  intros Hc. cbn [repeat Py.min]. f_equal.
  induction n as [|n IH]; [done|]. cbn [repeat fold_left]. by rewrite ltb_irrefl.
Qed.

Lemma argmin_zeros n : Np.argmin (repeat 0%float (S n)) = Ok 0%nat.
Proof.
  cbn [repeat Np.argmin]. change (is_nan 0) with false. cbv iota. f_equal.
  generalize 1%nat as i. induction n as [|n IH]; intros i; [done|].
  cbn [repeat Np.argmin_scan]. change (0 <=? 0)%float with true. cbv iota. apply IH.
Qed.

(** X5.  On a flat trace (every sample the same finite value) the sample
    nearest to the threshold is sample 0, so the duration is
    [0 * timestep - offset], replaced by [len(signal) * timestep] when that is
    below 1. *)
Theorem APD90_flat c n offset timestep :
  is_finite c = true →
  Signal.APD90 (repeat c (S n)) offset timestep
  = Ok (if (0 * timestep - offset <? 1)%float
        then (float_of_nat (S n) * timestep)%float
        else (0 * timestep - offset)%float).
Proof.
  intros Hc. pose proof (FloatArith.is_finite_not_nan c Hc) as Hn.
  unfold Signal.APD90.
  rewrite (py_max_repeat c n Hn), (py_min_repeat c n Hn), !bind_Ok.
  rewrite map_repeat, (flat_distance c Hc), argmin_zeros, bind_Ok.
  rewrite repeat_length. change (float_of_nat 0) with 0%float.
  destruct (_ <? 1)%float; reflexivity.
Qed.

Lemma APD90_flat_witness :
  Signal.APD90 (repeat (-80)%float 8) 50 0.1
  = Ok (if (0 * 0.1 - 50 <? 1)%float
        then (float_of_nat 8 * 0.1)%float
        else (0 * 0.1 - 50)%float).
Proof. apply (APD90_flat (-80) 7 50 0.1). reflexivity. Defined.

(** *** The crossing found by [APD90_update] *)

Lemma scan_window_steps Vm_signal offset pd timestep i thr w min_APD offset_index :
  scan_window Vm_signal offset pd timestep i = Ok (thr, w) →
  int (5 / timestep)%float = Ok min_APD →
  int (offset / timestep)%float = Ok offset_index →
  ∃ AP_Vm,
    Signal.pulse_slice Vm_signal offset pd timestep i = Ok AP_Vm
    ∧ Signal.repolarisation_threshold AP_Vm = Ok thr
    ∧ w = slice_from AP_Vm (offset_index + min_APD).
Proof.
  unfold scan_window. intros Hw Hmin Hoff.
  apply bind_inv in Hw as (AP_Vm & Hslice & Hw).
  apply bind_inv in Hw as (thr' & Hthr & Hw).
  rewrite Hmin, bind_Ok, Hoff, bind_Ok in Hw. injection Hw as -> <-.
  by exists AP_Vm.
Qed.

(** X6.  When the first scanned sample below the threshold is not the first
    sample scanned, the value of the pulse is the time at which the segment
    from the sample before it to that sample meets the threshold, less the
    time of sample [offset_index]. *)
Theorem pulse_APD90_interior time_signal Vm_signal offset pd timestep i thr w
    min_APD offset_index start k v :
  scan_window Vm_signal offset pd timestep i = Ok (thr, w) →
  int (5 / timestep)%float = Ok min_APD →
  int (offset / timestep)%float = Ok offset_index →
  index time_signal offset_index = Ok start →
  Signal.first_below thr w 0 = Some (S k, v) →
  (S k < length (slice_from time_signal (offset_index + min_APD)))%nat →
  ∃ t_prev v_prev t,
    slice_from time_signal (offset_index + min_APD) !! k = Some t_prev
    ∧ slice_from time_signal (offset_index + min_APD) !! S k = Some t
    ∧ w !! k = Some v_prev ∧ w !! S k = Some v
    ∧ (v_prev <? thr)%float = false ∧ (v <? thr)%float = true
    ∧ Signal.pulse_APD90 time_signal Vm_signal offset pd timestep i
      = Ok (interpolate t_prev v_prev t v thr - start)%float.
Proof.
  intros Hw Hmin Hoff Hstart Hfirst Hlen.
  destruct (scan_window_steps _ _ _ _ _ _ _ _ _ Hw Hmin Hoff) as (AP_Vm & Hslice & Hthr & ->).
  destruct (SignalFacts.first_below_Some _ _ _ _ _ Hfirst) as (j & Hj & Hv & Hbelow & Hbefore).
  cbn in Hj. subst j.
  pose proof (lookup_lt_Some _ _ _ Hv) as Hlt.
  destruct (lookup_lt_is_Some_2 (slice_from AP_Vm (offset_index + min_APD)) k ltac:(lia))
    as [v_prev Hprev].
  destruct (lookup_lt_is_Some_2 (slice_from time_signal (offset_index + min_APD)) k ltac:(lia))
    as [t_prev Htprev].
  destruct (lookup_lt_is_Some_2 (slice_from time_signal (offset_index + min_APD)) (S k) Hlen)
    as [t Ht].
  exists t_prev, v_prev, t. repeat split; auto.
  - eapply Hbefore; [|exact Hprev]. lia.
  - unfold Signal.pulse_APD90.
    rewrite Hslice, bind_Ok, Hthr, bind_Ok, Hmin, bind_Ok, Hoff, bind_Ok, Hstart, bind_Ok.
    cbv zeta. rewrite Hfirst. unfold Signal.crossing_time.
    replace (Z.of_nat (S k) - 1) with (Z.of_nat k) by lia.
    rewrite (index_nat _ _ _ Htprev), (index_nat _ _ _ Hprev), (index_nat _ _ _ Ht).
    reflexivity.
Qed.

Lemma pulse_APD90_interior_witness :
  ∃ t_prev v_prev t,
    slice_from unit_times (0 + 5) !! 0%nat = Some t_prev
    ∧ slice_from unit_times (0 + 5) !! 1%nat = Some t
    ∧ [40; -80; -70]%float !! 0%nat = Some v_prev
    ∧ [40; -80; -70]%float !! 1%nat = Some (-80)%float
    ∧ (v_prev <? -68)%float = false ∧ (-80 <? -68)%float = true
    ∧ Signal.pulse_APD90 unit_times two_pulse_trace 0 7 0.875 0
      = Ok (interpolate t_prev v_prev t (-80) (-68) - 0)%float.
Proof.
  apply (pulse_APD90_interior unit_times two_pulse_trace 0 7 0.875 0 (-68)
           [40; -80; -70]%float 5 0 0%float 0%nat (-80)%float).
  - vm_compute. reflexivity.
  - vm_compute. reflexivity.
  - vm_compute. reflexivity.
  - reflexivity.
  - vm_compute. reflexivity.
  - vm_compute. lia.
Defined.

(** X7.  When the first sample scanned is already below the threshold, the
    sample taken as the previous one is the last sample of the scanned
    window: the value of the pulse is interpolated between the last and the
    first scanned sample. *)
Theorem pulse_APD90_first_scanned time_signal Vm_signal offset pd timestep i thr w
    min_APD offset_index start v :
  scan_window Vm_signal offset pd timestep i = Ok (thr, w) →
  int (5 / timestep)%float = Ok min_APD →
  int (offset / timestep)%float = Ok offset_index →
  index time_signal offset_index = Ok start →
  Signal.first_below thr w 0 = Some (0%nat, v) →
  slice_from time_signal (offset_index + min_APD) ≠ [] →
  ∃ t_last v_last t,
    last (slice_from time_signal (offset_index + min_APD)) = Some t_last
    ∧ head (slice_from time_signal (offset_index + min_APD)) = Some t
    ∧ last w = Some v_last ∧ head w = Some v
    ∧ (v <? thr)%float = true
    ∧ Signal.pulse_APD90 time_signal Vm_signal offset pd timestep i
      = Ok (interpolate t_last v_last t v thr - start)%float.
Proof.
  intros Hw Hmin Hoff Hstart Hfirst Hne.
  destruct (scan_window_steps _ _ _ _ _ _ _ _ _ Hw Hmin Hoff) as (AP_Vm & Hslice & Hthr & ->).
  destruct (SignalFacts.first_below_Some _ _ _ _ _ Hfirst) as (j & Hj & Hv & Hbelow & _).
  cbn in Hj. subst j.
  set (tw := slice_from time_signal (offset_index + min_APD)) in *.
  set (vw := slice_from AP_Vm (offset_index + min_APD)) in *.
  assert (∃ t, head tw = Some t) as [t Ht] by (destruct tw; [done | eauto]).
  assert (∃ t_last, last tw = Some t_last) as [t_last Htl].
  { destruct (last tw) eqn:E; [eauto|]. by apply last_None in E. }
  assert (∃ v_last, last vw = Some v_last) as [v_last Hvl].
  { destruct (last vw) eqn:E; [eauto|]. apply last_None in E. by rewrite E in Hv. }
  exists t_last, v_last, t. repeat split; auto.
  - by rewrite head_lookup.
  - unfold Signal.pulse_APD90.
    rewrite Hslice, bind_Ok, Hthr, bind_Ok, Hmin, bind_Ok, Hoff, bind_Ok, Hstart, bind_Ok.
    cbv zeta. fold tw vw. rewrite Hfirst.
    rewrite (SignalFacts.crossing_time_wraps _ _ _ _ _ _ _ Htl Hvl Ht). reflexivity.
Qed.

Lemma pulse_APD90_first_scanned_witness :
  ∃ t_last v_last t,
    last (slice_from unit_times (0 + 5)) = Some t_last
    ∧ head (slice_from unit_times (0 + 5)) = Some t
    ∧ last [-80; -80; -70]%float = Some v_last
    ∧ head [-80; -80; -70]%float = Some (-80)%float
    ∧ (-80 <? -68)%float = true
    ∧ Signal.pulse_APD90 unit_times early_trace 0 7 0.875 0
      = Ok (interpolate t_last v_last t (-80) (-68) - 0)%float.
Proof.
  apply (pulse_APD90_first_scanned unit_times early_trace 0 7 0.875 0 (-68)
           [-80; -80; -70]%float 5 0 0%float (-80)%float).
  - vm_compute. reflexivity.
  - vm_compute. reflexivity.
  - vm_compute. reflexivity.
  - reflexivity.
  - vm_compute. reflexivity.
  - vm_compute. discriminate.
Defined.

End SignalEdges.

(** ** The comparison script: the table, and the sweeps it rejects *)

Module ComparisonTable.
Import Py PyFacts Comparison ComparisonSpec ComparisonInputs ComparisonFacts.

(** Writing a column and then writing its old value back restores the row. *)
Lemma set_column_restore pv : ∀ name x y pv1,
  column pv name = Ok x →
  set_column pv name y = Ok pv1 →
  set_column pv1 name x = Ok pv.
Proof.
  induction pv as [|[c z] pv IH]; intros name x y pv1; cbn [column set_column]; [done|].
  destruct (bool_decide (c = name)) eqn:E.
  - intros [= <-] [= <-]. cbn [set_column]. by rewrite E.
  - intros Hx Hset. apply bind_inv in Hset as (rest & Hrest & [= <-]).
    cbn [set_column]. rewrite E, (IH _ _ _ _ Hx Hrest). reflexivity.
Qed.

Lemma zip_labelled label sub (cells : list cell) ti tc :
  length sub = length cells →
  zip (labelled label sub ++ ti) (cells ++ tc)
  = zip (labelled label sub) cells ++ zip ti tc.
Proof. intros. apply zip_with_app. unfold labelled. by rewrite length_map. Qed.

(** The table [pd.DataFrame] builds from the ten blocks of data under the
    ten first-level labels, when each block has one cell per label. *)
Lemma frame_blocks drug (concs peaks coefs : list float) (pv : row) names
    (AP trap cond : list float) (r e : float) :
  length peaks = length concs → length coefs = 2%nat →
  length pv = length names →
  length trap = length AP → length cond = length AP →
  ∃ table,
    DataFrame
      ([Text drug] ++ map Number concs ++ map Number peaks
       ++ map Number coefs ++ map Number pv.*2
       ++ map Number AP ++ map Number trap
       ++ map Number cond ++ [Number r] ++ [Number e])
      (labelled "drug" ["drug"]
       ++ labelled "drug_conc_Hill" (conc_labels concs)
       ++ labelled "peak_current" (conc_labels concs)
       ++ labelled "Hill_curve" ["Hill_coef"; "IC50"]
       ++ labelled "param_values" names
       ++ labelled "drug_conc_AP" (conc_labels AP)
       ++ labelled "APD_trapping" (conc_labels AP)
       ++ labelled "APD_conductance" (conc_labels AP)
       ++ labelled "RMSE" ["RMSE"]
       ++ labelled "ME" ["ME"]) = Ok table
    ∧ block table "drug" = [Text drug]
    ∧ block table "drug_conc_Hill" = map Number concs
    ∧ block table "peak_current" = map Number peaks
    ∧ block table "Hill_curve" = map Number coefs
    ∧ block table "param_values" = map Number pv.*2
    ∧ block table "drug_conc_AP" = map Number AP
    ∧ block table "APD_trapping" = map Number trap
    ∧ block table "APD_conductance" = map Number cond
    ∧ block table "RMSE" = [Number r]
    ∧ block table "ME" = [Number e].
Proof.
  intros Hpeaks Hcoefs Hnames Htrap Hcond.
  eexists. split.
  - unfold DataFrame.
    match goal with
    | |- (if (?a =? ?b)%nat then _ else _) = _ => assert (Hsame : a = b)
    end.
    { unfold labelled.
      repeat rewrite ?length_app, ?length_map, ?length_fmap, ?length_conc_labels.
      rewrite Hpeaks, Hcoefs, Hnames, Htrap, Hcond. reflexivity. }
    rewrite Hsame, Nat.eqb_refl. reflexivity.
  - rewrite (zip_labelled "drug" ["drug"] [Text drug]) by done.
    rewrite (zip_labelled "drug_conc_Hill") by (by rewrite length_map, length_conc_labels).
    rewrite (zip_labelled "peak_current")
      by (by rewrite length_map, length_conc_labels).
    rewrite (zip_labelled "Hill_curve" ["Hill_coef"; "IC50"])
      by (by rewrite length_map).
    rewrite (zip_labelled "param_values") by (rewrite length_map, length_fmap; congruence).
    rewrite (zip_labelled "drug_conc_AP") by (by rewrite length_map, length_conc_labels).
    rewrite (zip_labelled "APD_trapping")
      by (by rewrite length_map, length_conc_labels).
    rewrite (zip_labelled "APD_conductance")
      by (by rewrite length_map, length_conc_labels).
    rewrite (zip_labelled "RMSE" ["RMSE"] [Number r]) by done.
    rewrite !block_app.
    rewrite !block_labelled;
      rewrite ?length_map, ?length_fmap, ?length_conc_labels, ?Hcoefs;
      try done; try congruence.
    repeat match goal with
    | |- context [bool_decide (?a = ?b)] =>
        let v := eval vm_compute in (bool_decide (a = b)) in
        change (bool_decide (a = b)) with v
    end.
    cbv iota. cbn [app]. rewrite !app_nil_r. by repeat split.
Qed.

Section Table.
Context `{Controller}.

(** X17.  When the fit succeeds, [param_evaluation] files, under the ten
    labels of the table, the drug name, the concentrations and peaks of the
    sweep, the fitted coefficients, the parameter row with its original
    [EC50] written back, the concentrations and the APD90s of the two models
    that [APD_sim] returned, and the two error measures. *)
Theorem param_evaluation_fitted param_values drug orig param_values1 Hill_n
    coefs drug_conc_Hill peaks_norm lowest highest
    APD_trapping APD_conductance drug_conc_AP RMSError MAError :
  column param_values "EC50" = Ok orig →
  set_column param_values "EC50" 1%float = Ok param_values1 →
  column param_values1 "N" = Ok Hill_n →
  compute_Hill param_values1 (power orig (1 / Hill_n)%float)
    = Ok (Coefficients coefs, drug_conc_Hill, peaks_norm) →
  index drug_conc_Hill 1 = Ok lowest →
  Py.max drug_conc_Hill = Ok highest →
  APD_sim coefs (map pow10 (linspace (log10 lowest) (log10 highest) APD_points))
    = Ok (APD_trapping, APD_conductance, drug_conc_AP) →
  compute_RMSE APD_trapping APD_conductance = Ok RMSError →
  compute_ME APD_trapping APD_conductance = Ok MAError →
  length peaks_norm = length drug_conc_Hill →
  length coefs = 2%nat →
  length param_values = length param_names →
  length APD_trapping = length drug_conc_AP →
  length APD_conductance = length drug_conc_AP →
  ∃ table,
    param_evaluation param_values drug = Ok table
    ∧ block table "drug" = [Text drug]
    ∧ block table "drug_conc_Hill" = map Number drug_conc_Hill
    ∧ block table "peak_current" = map Number peaks_norm
    ∧ block table "Hill_curve" = map Number coefs
    ∧ block table "param_values" = map Number param_values.*2
    ∧ block table "drug_conc_AP" = map Number drug_conc_AP
    ∧ block table "APD_trapping" = map Number APD_trapping
    ∧ block table "APD_conductance" = map Number APD_conductance
    ∧ block table "RMSE" = [Number RMSError]
    ∧ block table "ME" = [Number MAError].
Proof.
  intros Horig Hset HN Hhill Hlow Hhigh Hsim Hrmse Hme Hpeaks Hcoefs Hnames Htrap Hcond.
  pose proof (set_column_restore _ _ _ _ _ Horig Hset) as Hback.
  destruct (frame_blocks drug drug_conc_Hill peaks_norm coefs param_values param_names
              drug_conc_AP APD_trapping APD_conductance RMSError MAError)
    as (table & Htable & Hblocks); try done.
  exists table. split; [|exact Hblocks].
  unfold param_evaluation.
  rewrite Horig, bind_Ok. cbv beta. rewrite Hset, bind_Ok. cbv beta.
  rewrite HN, bind_Ok. cbv beta zeta. rewrite Hhill, bind_Ok. cbv beta iota.
  rewrite Hlow, bind_Ok. cbv beta. rewrite Hhigh, bind_Ok. cbv beta zeta.
  rewrite Hsim, bind_Ok. cbv beta iota. rewrite Hrmse, bind_Ok. cbv beta.
  rewrite Hme, bind_Ok. cbv beta. rewrite bind_Ok. cbv beta iota.
  rewrite Hback, bind_Ok. cbv beta. exact Htable.
Qed.

(** X18.  When the fit fails, the table still holds the drug name, the
    concentrations and peaks of the sweep, the parameter row with its
    original [EC50] written back, and the grid of [APD_points]
    concentrations from the second concentration of the sweep to its
    greatest. *)
Theorem param_evaluation_failed_layout param_values drug orig param_values1 Hill_n
    marker drug_conc_Hill peaks_norm lowest highest :
  column param_values "EC50" = Ok orig →
  set_column param_values "EC50" 1%float = Ok param_values1 →
  column param_values1 "N" = Ok Hill_n →
  compute_Hill param_values1 (power orig (1 / Hill_n)%float)
    = Ok (Failed marker, drug_conc_Hill, peaks_norm) →
  index drug_conc_Hill 1 = Ok lowest →
  Py.max drug_conc_Hill = Ok highest →
  length peaks_norm = length drug_conc_Hill →
  length param_values = length param_names →
  ∃ table,
    param_evaluation param_values drug = Ok table
    ∧ block table "drug" = [Text drug]
    ∧ block table "drug_conc_Hill" = map Number drug_conc_Hill
    ∧ block table "peak_current" = map Number peaks_norm
    ∧ block table "param_values" = map Number param_values.*2
    ∧ block table "drug_conc_AP"
      = map Number (map pow10 (linspace (log10 lowest) (log10 highest) APD_points))
    ∧ length (block table "drug_conc_AP") = APD_points.
Proof.
  intros Horig Hset HN Hhill Hlow Hhigh Hpeaks Hnames.
  pose proof (set_column_restore _ _ _ _ _ Horig Hset) as Hback.
  set (AP := map pow10 (linspace (log10 lowest) (log10 highest) APD_points)).
  assert (HAP : length AP = APD_points)
    by (unfold AP; by rewrite length_map, length_linspace).
  destruct (frame_blocks drug drug_conc_Hill peaks_norm (repeat nan 2) param_values
              param_names AP (repeat nan APD_points) (repeat nan APD_points) nan nan)
    as (table & Htable & Hdrug & Hconc & Hpeak & _ & Hpv & HAPb & _);
    rewrite ?repeat_length; try done.
  exists table. split; [|repeat split; try done; by rewrite HAPb, length_map].
  unfold param_evaluation.
  rewrite Horig, bind_Ok. cbv beta. rewrite Hset, bind_Ok. cbv beta.
  rewrite HN, bind_Ok. cbv beta zeta. rewrite Hhill, bind_Ok. cbv beta iota.
  rewrite Hlow, bind_Ok. cbv beta. rewrite Hhigh, bind_Ok. cbv beta zeta.
  rewrite bind_Ok. cbv beta iota. rewrite Hback, bind_Ok. cbv beta.
  exact Htable.
Qed.

(** X19.  A sweep of fewer than two concentrations makes [param_evaluation]
    raise [IndexError], whether or not the fit failed. *)
Theorem param_evaluation_short_sweep param_values drug orig param_values1 Hill_n
    fitted drug_conc_Hill peaks_norm :
  column param_values "EC50" = Ok orig →
  set_column param_values "EC50" 1%float = Ok param_values1 →
  column param_values1 "N" = Ok Hill_n →
  compute_Hill param_values1 (power orig (1 / Hill_n)%float)
    = Ok (fitted, drug_conc_Hill, peaks_norm) →
  (length drug_conc_Hill < 2)%nat →
  param_evaluation param_values drug = Raise IndexError.
Proof.
  intros Horig Hset HN Hhill Hlen.
  unfold param_evaluation.
  rewrite Horig, bind_Ok. cbv beta. rewrite Hset, bind_Ok. cbv beta.
  rewrite HN, bind_Ok. cbv beta zeta. rewrite Hhill, bind_Ok. cbv beta iota.
  assert (Hidx : index drug_conc_Hill 1 = Raise IndexError).
  { unfold index, norm_index. cbn [Z.ltb Z.compare orb].
    destruct (Z.of_nat (length drug_conc_Hill) <=? 1) eqn:E; [done|].
    apply Z.leb_gt in E. lia. }
  by rewrite Hidx.
Qed.

(** X20.  When the fit fails on a sweep whose peaks and parameter row do not
    add up to the number of labels made for them, [pd.DataFrame] rejects the
    data and [param_evaluation] raises [ValueError]. *)
Theorem param_evaluation_misaligned param_values drug orig param_values1 Hill_n
    marker drug_conc_Hill peaks_norm :
  column param_values "EC50" = Ok orig →
  set_column param_values "EC50" 1%float = Ok param_values1 →
  column param_values1 "N" = Ok Hill_n →
  compute_Hill param_values1 (power orig (1 / Hill_n)%float)
    = Ok (Failed marker, drug_conc_Hill, peaks_norm) →
  (2 ≤ length drug_conc_Hill)%nat →
  (length peaks_norm + length param_values
   ≠ length drug_conc_Hill + length param_names)%nat →
  param_evaluation param_values drug = Raise ValueError.
Proof.
  intros Horig Hset HN Hhill Hlen Hne.
  pose proof (set_column_restore _ _ _ _ _ Horig Hset) as Hback.
  assert (∃ lowest, index drug_conc_Hill 1 = Ok lowest) as [lowest Hlow].
  { destruct drug_conc_Hill as [|a [|b l]]; simpl in Hlen; try lia.
    exists b. by apply (index_nat _ 1%nat). }
  assert (∃ highest, Py.max drug_conc_Hill = Ok highest) as [highest Hhigh].
  { destruct drug_conc_Hill; simpl in Hlen; [lia|]. eauto. }
  unfold param_evaluation.
  rewrite Horig, bind_Ok. cbv beta. rewrite Hset, bind_Ok. cbv beta.
  rewrite HN, bind_Ok. cbv beta zeta. rewrite Hhill, bind_Ok. cbv beta iota.
  rewrite Hlow, bind_Ok. cbv beta. rewrite Hhigh, bind_Ok. cbv beta zeta.
  rewrite bind_Ok. cbv beta iota. rewrite Hback, bind_Ok. cbv beta.
  unfold DataFrame.
  match goal with
  | |- (if (?a =? ?b)%nat then _ else _) = _ => destruct (a =? b)%nat eqn:E; [|done]
  end.
  apply Nat.eqb_eq in E. revert E. unfold labelled.
  repeat rewrite ?length_app, ?length_map, ?length_fmap, ?length_conc_labels,
    ?repeat_length, ?length_linspace.
  cbn [length]. lia.
Qed.

End Table.

Lemma param_evaluation_fitted_witness :
  ∃ table,
    @param_evaluation fitting_controller dofetilide_row "dofetilide" = Ok table
    ∧ block table "drug" = [Text "dofetilide"]
    ∧ block table "drug_conc_Hill" = map Number [0; 1; 10]%float
    ∧ block table "peak_current" = map Number [1; 0.5; 0]%float
    ∧ block table "Hill_curve" = map Number [1; 10]%float
    ∧ block table "param_values" = map Number dofetilide_row.*2
    ∧ block table "drug_conc_AP" = map Number (linspace 1 10 APD_points)
    ∧ block table "APD_trapping" = map Number (repeat 300%float APD_points)
    ∧ block table "APD_conductance" = map Number (repeat 280%float APD_points)
    ∧ block table "RMSE" = [Number 20%float]
    ∧ block table "ME" = [Number 20%float].
Proof.
  apply (@param_evaluation_fitted fitting_controller dofetilide_row "dofetilide"
           5.483e8%float
           [("Vhalf", -1.147); ("Kmax", 1e8); ("Ku", 1.79e-5); ("N", 0.9999);
            ("EC50", 1)]%float
           0.9999%float [1; 10]%float [0; 1; 10]%float [1; 0.5; 0]%float
           1%float 10%float); vm_compute; reflexivity.
Defined.

Lemma param_evaluation_failed_layout_witness :
  ∃ table,
    @param_evaluation failing_controller dofetilide_row "dofetilide" = Ok table
    ∧ block table "drug" = [Text "dofetilide"]
    ∧ block table "drug_conc_Hill" = map Number [0; 1; 10]%float
    ∧ block table "peak_current" = map Number [1; 1; 1]%float
    ∧ block table "param_values" = map Number dofetilide_row.*2
    ∧ block table "drug_conc_AP"
      = map Number (map (@pow10 failing_controller)
                      (linspace (@log10 failing_controller 1)
                         (@log10 failing_controller 10) APD_points))
    ∧ length (block table "drug_conc_AP") = APD_points.
Proof.
  apply (@param_evaluation_failed_layout failing_controller dofetilide_row "dofetilide"
           5.483e8%float
           [("Vhalf", -1.147); ("Kmax", 1e8); ("Ku", 1.79e-5); ("N", 0.9999);
            ("EC50", 1)]%float
           0.9999%float "Hill curve did not form." [0; 1; 10]%float [1; 1; 1]%float);
    vm_compute; reflexivity.
Defined.

Lemma param_evaluation_short_sweep_witness :
  @param_evaluation single_point_controller dofetilide_row "dofetilide"
  = Raise IndexError.
Proof.
  apply (@param_evaluation_short_sweep single_point_controller dofetilide_row
           "dofetilide" 5.483e8%float
           [("Vhalf", -1.147); ("Kmax", 1e8); ("Ku", 1.79e-5); ("N", 0.9999);
            ("EC50", 1)]%float
           0.9999%float (Failed "Hill curve did not form.") [0%float] [1%float]);
    try reflexivity.
  simpl. lia.
Defined.

Lemma param_evaluation_misaligned_witness :
  @param_evaluation misaligned_controller dofetilide_row "dofetilide"
  = Raise ValueError.
Proof.
  apply (@param_evaluation_misaligned misaligned_controller dofetilide_row
           "dofetilide" 5.483e8%float
           [("Vhalf", -1.147); ("Kmax", 1e8); ("Ku", 1.79e-5); ("N", 0.9999);
            ("EC50", 1)]%float
           0.9999%float "Hill curve did not form." [0; 1; 10]%float [1; 1]%float);
    try reflexivity; simpl; lia.
Defined.

End ComparisonTable.

(** ** The simulation driver: what a call configures and what it leaves *)

Module DriverRuns.
Import Py PyFacts Myokit Driver MultiIon DriverSpec MultiIonSpec DriverFacts.

Section Runs.
Context `{Service}.

(** Unfolds a successful run of a method into its successful steps. *)
Ltac run_steps Hrun :=
  repeat first
    [ match type of Hrun with
      | bind _ _ = Ok _ => apply bind_inv in Hrun as (? & ? & Hrun)
      | (let (_, _) := ?x in _) = _ => destruct x
      end
    | progress cbv beta zeta in Hrun ];
  repeat match goal with
  | Hs : set_head_constant _ _ _ _ = Ok _ |- _ =>
      apply set_head_constant_Ok in Hs; cbn [current_head model] in Hs
  end.

Lemma lookup_key_Ok {V} (table : gmap string V) key v :
  Library.lookup_key table key = Ok v → table !! key = Some v.
Proof. unfold Library.lookup_key. destruct (table !! key); [|done]. by intros [= <-]. Qed.

(** X8.  [drug_simulation] stores [drug_conc] in the model's state [ikr.D]
    and changes nothing else of the instance but the simulation it builds. *)
Theorem drug_simulation_stores_concentration self drug drug_conc repeats o set_state
    protocol_period self' set_state' log :
  drug_simulation self drug drug_conc repeats o set_state protocol_period
    = Ok (self', set_state', log) →
  D ∈ (states (model self)).*1
  ∧ states (model self')
    = map (λ s, if bool_decide (s.1 = D) then (D, drug_conc) else s)
        (states (model self))
  ∧ constants (model self') = constants (model self)
  ∧ protocol self' = protocol self
  ∧ initial_state self' = initial_state self
  ∧ current_head self' = current_head self
  ∧ original_constants self' = original_constants self.
Proof.
  intros Hrun. unfold drug_simulation in Hrun. run_steps Hrun.
  injection Hrun as <- <- <-.
  match goal with E : var _ "ikr" "D" = Ok _ |- _ => apply var_Ok in E as -> end.
  match goal with
  | E : set_state_value _ _ _ = Ok _ |- _ =>
      pose proof E as Hin; apply set_state_value_Ok in E as (? & ? & ?)
  end.
  cbn [model protocol initial_state current_head original_constants].
  repeat split; auto.
  unfold set_state_value in Hin. case_bool_decide; [done|discriminate].
Qed.

(** X9.  The simulation [drug_simulation] runs is configured with the
    model's constants, the drug's five binding parameters of the library, the
    trafficking rate [3.5e-5] and the conductance saved at construction, with
    the tolerances given, on the instance's protocol; the pacing period is
    [protocol_period] when given, else the protocol's characteristic time. *)
Theorem drug_simulation_configuration self drug drug_conc repeats o set_state
    protocol_period self' set_state' log :
  drug_simulation self drug drug_conc repeats o set_state protocol_period
    = Ok (self', set_state', log) →
  ∃ p gKr t_max,
    Library.binding_parameters !! drug = Some p
    ∧ original_constants self !! "gKr" = Some gKr
    ∧ sim_constants (sim self')
      = <[(current_head self, "gKr") := gKr]>
          (<[(current_head self, "Kt") := 3.5e-5%float]>
             (<[(current_head self, "halfmax") := Library.bp_EC50 p]>
                (<[(current_head self, "n") := Library.bp_N p]>
                   (<[(current_head self, "Ku") := Library.bp_Ku p]>
                      (<[(current_head self, "Kmax") := Library.bp_Kmax p]>
                         (<[(current_head self, "Vhalf") := Library.bp_Vhalf p]>
                            (constants (model self))))))))
    ∧ sim_abs_tol (sim self') = abs_tol o
    ∧ sim_rel_tol (sim self') = rel_tol o
    ∧ sim_protocol (sim self') = protocol self
    ∧ match protocol_period with
      | Some period => t_max = period
      | None => protocol_time self = Ok t_max
      end
    ∧ pace_and_record (sim self') t_max repeats o = Ok log.
Proof.
  intros Hrun. unfold drug_simulation in Hrun. run_steps Hrun.
  injection Hrun as <- <- <-. cbn [sim].
  match goal with E : var _ "ikr" "D" = Ok _ |- _ => apply var_Ok in E as -> end.
  match goal with
  | E : set_state_value _ _ _ = Ok _ |- _ => apply set_state_value_Ok in E as (Hc & _ & _)
  end.
  repeat match goal with
  | E : Library.lookup_key _ _ = Ok _ |- _ => apply lookup_key_Ok in E
  end.
  cbn [original_constants] in *.
  match goal with
  | E : match truthy set_state with _ => _ end = Ok (?s, _) |- _ =>
      assert (Hstart : sim_constants s = constants (model self)
                       ∧ sim_abs_tol s = abs_tol o ∧ sim_rel_tol s = rel_tol o
                       ∧ sim_protocol s = protocol self)
  end.
  { destruct (truthy set_state).
    - match goal with E : bind _ _ = Ok _ |- _ => apply bind_inv in E as (? & _ & [= <- _]) end.
      by rewrite <- Hc.
    - match goal with E : Ok _ = Ok _ |- _ => injection E as <- _ end.
      by rewrite <- Hc. }
  destruct Hstart as (Hs0 & Ha0 & Hr0 & Hp0).
  match goal with
  | Hp : Library.binding_parameters !! drug = Some ?p,
    Hg : original_constants self !! "gKr" = Some ?g,
    Hlog : pace_and_record _ ?t _ _ = Ok _ |- _ => exists p, g, t
  end.
  split; [done|]. split; [done|].
  repeat match goal with
  | Hs : configured _ _ _ _ |- _ => destruct Hs as (Hs & _ & _ & ? & ? & ?)
  end.
  split.
  { repeat match goal with
    | Hs : sim_constants _ = <[_ := _]> _ |- _ => rewrite Hs; clear Hs
    end.
    by rewrite Hs0. }
  split; [congruence|]. split; [congruence|]. split; [congruence|].
  split; [|done].
  destruct protocol_period; [congruence | done].
Qed.

(** X10.  When [drug_simulation] is given a state (a mapping that is not
    empty), it overwrites the last entry of the caller's ['ikr.D'] series
    with [drug_conc] and starts the simulation from that state; otherwise it
    leaves [set_state] alone and starts from the model's state. *)
Theorem drug_simulation_start self drug drug_conc repeats o set_state
    protocol_period self' set_state' log :
  drug_simulation self drug drug_conc repeats o set_state protocol_period
    = Ok (self', set_state', log) →
  match truthy set_state with
  | Some st =>
      ∃ series,
        st !! "ikr.D" = Some series ∧ series ≠ []
        ∧ set_state' = Some (<["ikr.D" := <[Nat.pred (length series) := drug_conc]> series]> st)
        ∧ last (<[Nat.pred (length series) := drug_conc]> series) = Some drug_conc
        ∧ sim_state (sim self')
          = Supplied (<["ikr.D" := <[Nat.pred (length series) := drug_conc]> series]> st)
  | None =>
      set_state' = set_state
      ∧ sim_state (sim self') = ModelState (states (model self'))
  end.
Proof.
  intros Hrun. unfold drug_simulation in Hrun. run_steps Hrun.
  injection Hrun as <- <- <-. cbn [sim model].
  match goal with
  | E : match truthy set_state with _ => _ end = Ok _ |- _ => rename E into Hstart
  end.
  repeat match goal with
  | Hs : configured _ _ _ _ |- _ => destruct Hs as (_ & _ & Hs & _)
  end.
  destruct (truthy set_state) as [st|].
  - unfold store_concentration in Hstart.
    apply bind_inv in Hstart as (st1 & Hst & [= <- <-]).
    apply bind_inv in Hst as (series & Hseries%lookup_key_Ok & Hst).
    apply bind_inv in Hst as (lst & Hlst & [= <-]).
    exists series. split; [done|].
    assert (Hne : series ≠ []) by (intros ->; discriminate).
    split; [done|]. split; [done|]. split; [|cbn [sim_state Myokit.set_state] in *; congruence].
    rewrite last_lookup, length_insert. apply list_lookup_insert_eq.
    destruct series; [done|]. cbn. lia.
  - injection Hstart as <- <-. split; [done|].
    cbn [sim_state set_tolerance reset new_simulation sim_default_state] in *. congruence.
Qed.

(** X11.  A drug with no entry in the library's binding parameters makes
    [drug_simulation] and [drug_multiion_simulation] raise [KeyError],
    whatever the instance and the other arguments. *)
Theorem unknown_drug_raises self drug drug_conc ion_scale repeats o set_state
    protocol_period :
  Library.binding_parameters !! drug = None →
  drug_simulation self drug drug_conc repeats o set_state protocol_period
    = Raise KeyError
  ∧ drug_multiion_simulation self drug drug_conc ion_scale repeats o set_state
    = Raise KeyError.
Proof.
  intros Hdrug. unfold drug_simulation, drug_multiion_simulation, Library.lookup_key.
  by rewrite Hdrug.
Qed.

(** X12.  [custom_simulation] on a table whose first row holds a drug's
    binding parameters does what [drug_simulation] does for that drug: the
    same instance is left and the same log returned, or the same exception
    raised. *)
Theorem custom_simulation_of_drug self drug p param_values drug_conc repeats o :
  Library.binding_parameters !! drug = Some p →
  first_value param_values "Vhalf" = Ok (Library.bp_Vhalf p) →
  first_value param_values "Kmax" = Ok (Library.bp_Kmax p) →
  first_value param_values "Ku" = Ok (Library.bp_Ku p) →
  first_value param_values "N" = Ok (Library.bp_N p) →
  first_value param_values "EC50" = Ok (Library.bp_EC50 p) →
  custom_simulation self param_values drug_conc repeats o
  = (let* r := drug_simulation self drug drug_conc repeats o None None in
     Ok (r.1.1, r.2)).
Proof.
  intros Hp HVhalf HKmax HKu HN HEC50.
  assert (Hlk : Library.lookup_key Library.binding_parameters drug = Ok p)
    by (unfold Library.lookup_key; by rewrite Hp).
  unfold custom_simulation, drug_simulation.
  rewrite Hlk, bind_Ok. cbv beta zeta. cbn [truthy].
  destruct (protocol_time self) as [t_max|]; [|done]. rewrite !bind_Ok. cbv beta.
  destruct (var (model self) "ikr" "D") as [c|]; [|done]. rewrite !bind_Ok. cbv beta.
  destruct (set_state_value (model self) c drug_conc) as [m'|]; [|done].
  rewrite !bind_Ok. cbv beta iota.
  rewrite HVhalf, bind_Ok. cbv beta.
  destruct (set_head_constant _ _ "Vhalf" _) as [s1|]; [|done]. rewrite !bind_Ok. cbv beta.
  rewrite HKmax, bind_Ok. cbv beta.
  destruct (set_head_constant _ _ "Kmax" _) as [s2|]; [|done]. rewrite !bind_Ok. cbv beta.
  rewrite HKu, bind_Ok. cbv beta.
  destruct (set_head_constant _ _ "Ku" _) as [s3|]; [|done]. rewrite !bind_Ok. cbv beta.
  rewrite HN, bind_Ok. cbv beta.
  destruct (set_head_constant _ _ "n" _) as [s4|]; [|done]. rewrite !bind_Ok. cbv beta.
  rewrite HEC50, bind_Ok. cbv beta.
  destruct (set_head_constant _ _ "halfmax" _) as [s5|]; [|done]. rewrite !bind_Ok. cbv beta.
  destruct (set_head_constant _ _ "Kt" _) as [s6|]; [|done]. rewrite !bind_Ok. cbv beta.
  destruct (Library.lookup_key _ "gKr") as [g|]; [|done]. rewrite !bind_Ok. cbv beta.
  destruct (set_head_constant _ _ "gKr" _) as [s7|]; [|done]. rewrite !bind_Ok. cbv beta.
  destruct (pace_and_record s7 t_max repeats o) as [d2|]; [|done]. reflexivity.
Qed.

(** *** The multi-channel methods *)

Lemma scale_conductance_Ok self (s s' : Simulation Protocol) ion_scale component name key :
  scale_conductance self s ion_scale component name key = Ok s' →
  ∃ base scale,
    constants (model self) !! (component, name) = Some base
    ∧ ion_scale !! key = Some scale
    ∧ configured s s' (component, name) (base * scale)%float.
Proof.
  unfold scale_conductance. intros Hs.
  apply bind_inv in Hs as (base & Hbase%head_constant_Ok & Hs).
  apply bind_inv in Hs as (v & ->%var_Ok & Hs).
  apply bind_inv in Hs as (scale & Hscale%lookup_key_Ok & Hs).
  exists base, scale. split; [done|]. split; [done|]. by apply set_constant_Ok.
Qed.

(** Unfolds a successful run of a multi-channel method. *)
Ltac multiion_steps Hrun :=
  unfold scale_other_channels in Hrun; run_steps Hrun;
  repeat match goal with
  | Hs : bind (scale_conductance _ _ _ _ _ _) _ = Ok _ |- _ =>
      apply bind_inv in Hs as (? & ? & Hs)
  end;
  repeat match goal with
  | Hs : scale_conductance _ _ _ _ _ _ = Ok _ |- _ =>
      apply scale_conductance_Ok in Hs as (? & ? & ? & ? & Hs); cbn [model] in *
  | E : Library.lookup_key _ _ = Ok _ |- _ => apply lookup_key_Ok in E
  | E : var _ _ _ = Ok _ |- _ => apply var_Ok in E as ->
  end;
  cbn [original_constants] in *.

(** Reads a constant off a simulation configured by a chain of
    [set_constant] calls. *)
Ltac read_constant :=
  repeat match goal with
  | Hs : configured _ _ _ _ |- _ => destruct Hs as (Hs & _)
  end;
  repeat match goal with
  | Hs : sim_constants _ = <[_ := _]> _ |- _ => rewrite Hs; clear Hs
  end;
  repeat (rewrite lookup_insert_ne by congruence);
  try apply lookup_insert_eq.

(** X13.  In the simulation [drug_multiion_simulation] runs, each of the six
    other conductances is the value the model holds for it times its entry
    of [ion_scale], the binding parameters are the drug's, the trafficking
    rate is [3.5e-5] and the hERG conductance is the one saved at
    construction. *)
Theorem drug_multiion_simulation_constants self drug drug_conc ion_scale repeats o
    set_state self' set_state' log :
  drug_multiion_simulation self drug drug_conc ion_scale repeats o set_state
    = Ok (self', set_state', log) →
  ∃ p gKr t_max,
    Library.binding_parameters !! drug = Some p
    ∧ original_constants self !! "gKr" = Some gKr
    ∧ Forall (scaled (model self) ion_scale (sim_constants (sim self'))) scaled_channels
    ∧ Forall (λ nv, sim_constants (sim self') !! (current_head self, nv.1) = Some nv.2)
        [("Vhalf", Library.bp_Vhalf p); ("Kmax", Library.bp_Kmax p);
         ("Ku", Library.bp_Ku p); ("n", Library.bp_N p);
         ("halfmax", Library.bp_EC50 p); ("Kt", 3.5e-5%float); ("gKr", gKr)]
    ∧ protocol_time self = Ok t_max
    ∧ pace_and_record (sim self') t_max repeats o = Ok log.
Proof.
  intros Hrun. unfold drug_multiion_simulation in Hrun. multiion_steps Hrun.
  injection Hrun as <- <- <-. cbn [sim].
  match goal with
  | E : set_state_value _ _ _ = Ok _ |- _ => apply set_state_value_Ok in E as (Hc & _ & _)
  end.
  rewrite Hc in *.
  match goal with
  | Hp : Library.binding_parameters !! drug = Some ?p,
    Hg : original_constants self !! "gKr" = Some ?g,
    Hlog : pace_and_record _ ?t _ _ = Ok _ |- _ => exists p, g, t
  end.
  split; [done|]. split; [done|]. split; [|split; [|by split]].
  - unfold scaled_channels, scaled.
    repeat (constructor; [cbn [fst snd]; do 2 eexists;
      split; [eassumption|]; split; [eassumption|]; read_constant|]).
    constructor.
  - repeat (constructor; [cbn [fst snd]; read_constant|]). constructor.
Qed.

Lemma drug_multiion_simulation_setup self drug drug_conc ion_scale repeats o set_state
    self' set_state' log :
  drug_multiion_simulation self drug drug_conc ion_scale repeats o set_state
    = Ok (self', set_state', log) →
  same_setup self self'.
Proof.
  intros Hrun. unfold drug_multiion_simulation in Hrun. multiion_steps Hrun.
  injection Hrun as <- <- <-.
  match goal with
  | E : set_state_value _ _ _ = Ok _ |- _ => apply set_state_value_Ok in E as (? & ? & _)
  end.
  by repeat split.
Qed.

Lemma drug_multiion_simulation_same a b drug drug_conc ion_scale repeats o set_state :
  same_setup a b →
  drug_multiion_simulation a drug drug_conc ion_scale repeats o set_state
  = drug_multiion_simulation b drug drug_conc ion_scale repeats o set_state.
Proof.
  destruct a as [m1 p1 s1 i1 h1 o1], b as [m2 p2 s2 i2 h2 o2].
  intros (Hc & Hw & Hp & Hi & Hh & Ho). cbn in Hc, Hw, Hp, Hi, Hh, Ho. subst.
  unfold drug_multiion_simulation, protocol_time, set_head_constant,
    scale_other_channels, scale_conductance.
  cbn [model protocol sim initial_state current_head original_constants].
  destruct (Library.lookup_key Library.binding_parameters drug) as [bp|]; [|done].
  rewrite !bind_Ok. cbv beta.
  destruct (match p2 with Some _ => _ | None => _ end) as [t_max|]; [|done].
  rewrite !bind_Ok. cbv beta.
  by apply store_same.
Qed.

(** X14.  The scaling of [drug_multiion_simulation] does not accumulate:
    called again with the same arguments on the instance it left, it
    returns the same log and leaves the same instance. *)
Theorem drug_multiion_simulation_twice self drug drug_conc ion_scale repeats o
    set_state self' set_state' log :
  drug_multiion_simulation self drug drug_conc ion_scale repeats o set_state
    = Ok (self', set_state', log) →
  drug_multiion_simulation self' drug drug_conc ion_scale repeats o set_state
    = Ok (self', set_state', log).
Proof.
  intros Hrun.
  pose proof (drug_multiion_simulation_setup _ _ _ _ _ _ _ _ _ _ Hrun) as Hs.
  rewrite <- (drug_multiion_simulation_same self self') by done.
  exact Hrun.
Qed.

(** X15.  [drug_multiion_CS_sim] leaves the model as it is and runs a
    simulation, started from the model's stored state, whose constants are
    the model's own except for the hERG conductance [ikr.gKr], set to the
    conductance saved at construction times [ion_scale['IKr']], and the six
    scaled conductances. *)
Theorem drug_multiion_CS_sim_constants self ion_scale repeats o self' log :
  drug_multiion_CS_sim self ion_scale repeats o = Ok (self', log) →
  ∃ gKr scale t_max,
    original_constants self !! "gKr" = Some gKr
    ∧ ion_scale !! "IKr" = Some scale
    ∧ sim_constants (sim self') !! ("ikr", "gKr") = Some (gKr * scale)%float
    ∧ Forall (scaled (model self) ion_scale (sim_constants (sim self'))) scaled_channels
    ∧ (∀ q, q ∉ ("ikr", "gKr") :: scaled_channels.*1 →
            sim_constants (sim self') !! q = constants (model self) !! q)
    ∧ sim_state (sim self') = ModelState (states (model self))
    ∧ model self' = model self
    ∧ protocol_time self = Ok t_max
    ∧ pace_and_record (sim self') t_max repeats o = Ok log.
Proof.
  intros Hrun. unfold drug_multiion_CS_sim in Hrun. multiion_steps Hrun.
  injection Hrun as <- <-. cbn [sim model].
  match goal with
  | Hs : set_constant _ _ _ = Ok _ |- _ => apply set_constant_Ok in Hs
  end.
  match goal with
  | Hg : original_constants self !! "gKr" = Some ?g,
    Hk : ion_scale !! "IKr" = Some ?k,
    Hlog : pace_and_record _ ?t _ _ = Ok _ |- _ => exists g, k, t
  end.
  split; [done|]. split; [done|].
  split; [read_constant|].
  split.
  { unfold scaled_channels, scaled.
    repeat (constructor; [cbn [fst snd]; do 2 eexists;
      split; [eassumption|]; split; [eassumption|]; read_constant|]).
    constructor. }
  split.
  { intros q Hq. unfold scaled_channels in Hq. rewrite !fmap_cons in Hq.
    cbn [fst] in Hq. rewrite !not_elem_of_cons in Hq.
    destruct Hq as (? & ? & ? & ? & ? & ? & ? & _).
    repeat match goal with
    | Hs : configured _ _ _ _ |- _ => destruct Hs as (Hs & _)
    end.
    repeat match goal with
    | Hs : sim_constants _ = <[_ := _]> _ |- _ => rewrite Hs; clear Hs
    end.
    rewrite !lookup_insert_ne by done. reflexivity. }
  split.
  { repeat match goal with
    | Hs : configured _ _ _ _ |- _ => destruct Hs as (_ & _ & Hs & _)
    end.
    cbn [sim_state set_tolerance reset new_simulation sim_default_state] in *.
    congruence. }
  by repeat split.
Qed.

Lemma drug_multiion_CS_sim_setup self ion_scale repeats o self' log :
  drug_multiion_CS_sim self ion_scale repeats o = Ok (self', log) →
  same_setup self self'.
Proof.
  intros Hrun. unfold drug_multiion_CS_sim in Hrun. multiion_steps Hrun.
  injection Hrun as <- <-. by repeat split.
Qed.

(** X16.  Whatever simulation methods have been called on an instance since
    [__init__] built it, the model's constants and its states other than
    [ikr.D], the protocol, the current head and the saved constants are
    those of construction, and each saved constant is the value the model
    holds for it. *)
Theorem simulations_keep_setup m p h self0 self :
  init m p h = Ok self0 →
  reached_any self0 self →
  constants (model self) = constants m
  ∧ without_concentration (model self) = without_concentration m
  ∧ protocol self = p
  ∧ current_head self = current_head self0
  ∧ original_constants self = original_constants self0
  ∧ Forall (λ nk, original_constants self !! nk.2
                  = constants (model self) !! (current_head self, nk.1)
                  ∧ is_Some (original_constants self !! nk.2))
      [("Vhalf", "Vhalf"); ("Kmax", "Kmax"); ("Ku", "Ku"); ("n", "n");
       ("halfmax", "EC50"); ("Kt", "Kt"); ("gKr", "gKr")].
Proof.
  intros Hinit Hreach.
  assert (Hsetup : same_setup self0 self).
  { induction Hreach as [|? ? _ IH Hstep|? ? ? ? ? ? ? ? ? ? _ IH Hrun
                         |? ? ? ? ? ? _ IH Hrun].
    - apply same_setup_refl.
    - eapply same_setup_trans; [exact IH|]. by apply reached_same_setup.
    - eapply same_setup_trans; [exact IH|].
      eapply drug_multiion_simulation_setup; eauto.
    - eapply same_setup_trans; [exact IH|].
      eapply drug_multiion_CS_sim_setup; eauto. }
  destruct Hsetup as (Hc & Hw & Hp & _ & Hh & Ho).
  apply init_Ok in Hinit as (Hm & Hp0 & Hsaved).
  rewrite Hm in Hc, Hw. rewrite <- Hc, <- Hw, <- Hp, <- Hh, <- Ho.
  repeat split; auto.
Qed.

(** X23.  What [__init__] builds: a simulation of the model on the
    protocol, the model's states as the initial state, as current head the
    component named or else the component of the model's first state, and
    saved constants under exactly the seven keys, each of which the model
    holds as a literal constant under that head. *)
Theorem init_returns m p h self :
  init m p h = Ok self →
  model self = m ∧ protocol self = p
  ∧ sim self = new_simulation m p
  ∧ initial_state self = states m
  ∧ match h with
    | Some name => current_head self = name
    | None => ∃ v x rest, states m = ((current_head self, v), x) :: rest
    end
  ∧ (∀ key, is_Some (original_constants self !! key)
            ↔ key ∈ ["Vhalf"; "Kmax"; "Ku"; "n"; "EC50"; "Kt"; "gKr"])
  ∧ Forall (λ name, is_Some (constants m !! (current_head self, name)))
      ["Vhalf"; "Kmax"; "Ku"; "n"; "halfmax"; "Kt"; "gKr"].
Proof.
  unfold init. intros Hi. run_steps Hi.
  repeat match goal with
  | Hc : head_constant _ _ _ = Ok _ |- _ => apply head_constant_Ok in Hc
  end.
  injection Hi as <-.
  cbn [model protocol sim initial_state current_head original_constants].
  split; [done|]. split; [done|]. split; [done|]. split; [done|].
  split; [|split].
  - destruct h as [name|].
    + match goal with
      | Hh : component _ _ = Ok _ |- _ => unfold component in Hh; destruct (_ || _) in Hh
      end; congruence.
    + match goal with
      | Hh : first_state_parent _ = Ok _ |- _ => unfold first_state_parent in Hh
      end.
      destruct (states m) as [|[[c v] y] rest]; [done|].
      match goal with Hh : Ok _ = Ok _ |- _ => injection Hh as <- end. eauto.
  - intros key. rewrite !lookup_insert_is_Some', lookup_empty, !elem_of_cons, elem_of_nil.
    split.
    + intros [<-|[<-|[<-|[<-|[<-|[<-|[<-|[? [=]]]]]]]]]; auto 10.
    + intros [->|[->|[->|[->|[->|[->|[->|[]]]]]]]]; auto 10.
  - repeat (constructor; [eauto|]). constructor.
Qed.

End Runs.

(** *** On the concrete service and models *)

Lemma drug_simulation_stores_concentration_witness :
  D ∈ (states (model channel_driver)).*1
  ∧ states (model after_verapamil.1.1)
    = map (λ s, if bool_decide (s.1 = D) then (D, 30%float) else s)
        (states (model channel_driver))
  ∧ constants (model after_verapamil.1.1) = constants (model channel_driver)
  ∧ protocol after_verapamil.1.1 = protocol channel_driver
  ∧ initial_state after_verapamil.1.1 = initial_state channel_driver
  ∧ current_head after_verapamil.1.1 = current_head channel_driver
  ∧ original_constants after_verapamil.1.1 = original_constants channel_driver.
Proof.
  apply (@drug_simulation_stores_concentration probe channel_driver "verapamil"
           30%float 1000 default_options None None
           after_verapamil.1.1 after_verapamil.1.2 after_verapamil.2).
  vm_compute. reflexivity.
Defined.

Lemma drug_simulation_configuration_witness :
  ∃ p gKr t_max,
    Library.binding_parameters !! "verapamil" = Some p
    ∧ original_constants channel_driver !! "gKr" = Some gKr
    ∧ sim_constants (sim after_verapamil.1.1)
      = <[(current_head channel_driver, "gKr") := gKr]>
          (<[(current_head channel_driver, "Kt") := 3.5e-5%float]>
             (<[(current_head channel_driver, "halfmax") := Library.bp_EC50 p]>
                (<[(current_head channel_driver, "n") := Library.bp_N p]>
                   (<[(current_head channel_driver, "Ku") := Library.bp_Ku p]>
                      (<[(current_head channel_driver, "Kmax") := Library.bp_Kmax p]>
                         (<[(current_head channel_driver, "Vhalf") := Library.bp_Vhalf p]>
                            (constants (model channel_driver))))))))
    ∧ sim_abs_tol (sim after_verapamil.1.1) = abs_tol default_options
    ∧ sim_rel_tol (sim after_verapamil.1.1) = rel_tol default_options
    ∧ sim_protocol (sim after_verapamil.1.1) = protocol channel_driver
    ∧ protocol_time channel_driver = Ok t_max
    ∧ pace_and_record (sim after_verapamil.1.1) t_max 1000 default_options
      = Ok after_verapamil.2.
Proof.
  apply (@drug_simulation_configuration probe channel_driver "verapamil"
           30%float 1000 default_options None None
           after_verapamil.1.1 after_verapamil.1.2 after_verapamil.2).
  vm_compute. reflexivity.
Defined.

Lemma drug_simulation_start_witness :
  ∃ series,
    two_sample_state !! "ikr.D" = Some series ∧ series ≠ []
    ∧ after_supplied.1.2
      = Some (<["ikr.D" := <[Nat.pred (length series) := 30%float]> series]>
                two_sample_state)
    ∧ last (<[Nat.pred (length series) := 30%float]> series) = Some 30%float
    ∧ sim_state (sim after_supplied.1.1)
      = Supplied (<["ikr.D" := <[Nat.pred (length series) := 30%float]> series]>
                    two_sample_state).
Proof.
  apply (@drug_simulation_start probe channel_driver "verapamil"
           30%float 1000 default_options (Some two_sample_state) None
           after_supplied.1.1 after_supplied.1.2 after_supplied.2).
  vm_compute. reflexivity.
Defined.

Lemma unknown_drug_raises_witness :
  @drug_simulation probe cell_driver "aspirin" 30 1000 default_options None None
    = Raise KeyError
  ∧ @drug_multiion_simulation probe cell_driver "aspirin" 30 half_late_sodium 1000
      default_options None
    = Raise KeyError.
Proof. apply (@unknown_drug_raises probe). reflexivity. Defined.

Lemma custom_simulation_of_drug_witness :
  @custom_simulation probe channel_driver
    (one_row (-100) 4.646e4 7.927e-4 1.043 9.184e6) 30 1000 default_options
  = (let* r := @drug_simulation probe channel_driver "verapamil" 30 1000
                 default_options None None in
     Ok (r.1.1, r.2)).
Proof.
  apply (@custom_simulation_of_drug probe channel_driver "verapamil"
           (Library.mk_binding 4.646e4 7.927e-4 9.184e6 1.043 (-100) 81));
    vm_compute; reflexivity.
Defined.

Lemma drug_multiion_simulation_constants_witness :
  ∃ p gKr t_max,
    Library.binding_parameters !! "verapamil" = Some p
    ∧ original_constants cell_driver !! "gKr" = Some gKr
    ∧ Forall (scaled (model cell_driver) half_late_sodium
                (sim_constants (sim after_multiion.1.1))) scaled_channels
    ∧ Forall (λ nv, sim_constants (sim after_multiion.1.1)
                      !! (current_head cell_driver, nv.1) = Some nv.2)
        [("Vhalf", Library.bp_Vhalf p); ("Kmax", Library.bp_Kmax p);
         ("Ku", Library.bp_Ku p); ("n", Library.bp_N p);
         ("halfmax", Library.bp_EC50 p); ("Kt", 3.5e-5%float); ("gKr", gKr)]
    ∧ protocol_time cell_driver = Ok t_max
    ∧ pace_and_record (sim after_multiion.1.1) t_max 1000 default_options
      = Ok after_multiion.2.
Proof.
  apply (@drug_multiion_simulation_constants probe cell_driver "verapamil"
           30%float half_late_sodium 1000 default_options None
           after_multiion.1.1 after_multiion.1.2 after_multiion.2).
  vm_compute. reflexivity.
Defined.

Lemma drug_multiion_simulation_twice_witness :
  @drug_multiion_simulation probe after_multiion.1.1 "verapamil" 30 half_late_sodium
    1000 default_options None
  = Ok (after_multiion.1.1, after_multiion.1.2, after_multiion.2).
Proof.
  apply (@drug_multiion_simulation_twice probe cell_driver).
  vm_compute. reflexivity.
Defined.

Lemma drug_multiion_CS_sim_constants_witness :
  ∃ gKr scale t_max,
    original_constants after_multiion.1.1 !! "gKr" = Some gKr
    ∧ half_late_sodium !! "IKr" = Some scale
    ∧ sim_constants (sim after_multiion_CS.1) !! ("ikr", "gKr") = Some (gKr * scale)%float
    ∧ Forall (scaled (model after_multiion.1.1) half_late_sodium
                (sim_constants (sim after_multiion_CS.1))) scaled_channels
    ∧ (∀ q, q ∉ ("ikr", "gKr") :: scaled_channels.*1 →
            sim_constants (sim after_multiion_CS.1) !! q
            = constants (model after_multiion.1.1) !! q)
    ∧ sim_state (sim after_multiion_CS.1) = ModelState (states (model after_multiion.1.1))
    ∧ model after_multiion_CS.1 = model after_multiion.1.1
    ∧ protocol_time after_multiion.1.1 = Ok t_max
    ∧ pace_and_record (sim after_multiion_CS.1) t_max 1000 default_options
      = Ok after_multiion_CS.2.
Proof.
  apply (@drug_multiion_CS_sim_constants probe after_multiion.1.1 half_late_sodium
           1000 default_options after_multiion_CS.1 after_multiion_CS.2).
  vm_compute. reflexivity.
Defined.

Lemma simulations_keep_setup_witness :
  constants (model after_multiion_CS.1) = constants cell_model
  ∧ without_concentration (model after_multiion_CS.1) = without_concentration cell_model
  ∧ protocol after_multiion_CS.1 = Some 1000%float
  ∧ current_head after_multiion_CS.1 = current_head cell_driver
  ∧ original_constants after_multiion_CS.1 = original_constants cell_driver
  ∧ Forall (λ nk, original_constants after_multiion_CS.1 !! nk.2
                  = constants (model after_multiion_CS.1)
                      !! (current_head after_multiion_CS.1, nk.1)
                  ∧ is_Some (original_constants after_multiion_CS.1 !! nk.2))
      [("Vhalf", "Vhalf"); ("Kmax", "Kmax"); ("Ku", "Ku"); ("n", "n");
       ("halfmax", "EC50"); ("Kt", "Kt"); ("gKr", "gKr")].
Proof.
  apply (@simulations_keep_setup probe cell_model (Some 1000%float) (Some "ikr")
           cell_driver).
  - vm_compute. reflexivity.
  - apply (any_multiion_CS cell_driver after_multiion.1.1 half_late_sodium 1000
             default_options after_multiion_CS.1 after_multiion_CS.2).
    + apply (any_multiion cell_driver cell_driver "verapamil" 30%float
               half_late_sodium 1000 default_options None
               after_multiion.1.1 after_multiion.1.2 after_multiion.2).
      * apply any_start.
      * vm_compute. reflexivity.
    + vm_compute. reflexivity.
Defined.

Lemma init_returns_witness :
  model channel_driver = channel_model ∧ protocol channel_driver = Some 25e3%float
  ∧ sim channel_driver = @new_simulation probe channel_model (Some 25e3%float)
  ∧ initial_state channel_driver = states channel_model
  ∧ (∃ v x rest, states channel_model = ((current_head channel_driver, v), x) :: rest)
  ∧ (∀ key, is_Some (original_constants channel_driver !! key)
            ↔ key ∈ ["Vhalf"; "Kmax"; "Ku"; "n"; "EC50"; "Kt"; "gKr"])
  ∧ Forall (λ name, is_Some (constants channel_model !! (current_head channel_driver, name)))
      ["Vhalf"; "Kmax"; "Ku"; "n"; "halfmax"; "Kt"; "gKr"].
Proof.
  apply (@init_returns probe channel_model (Some 25e3%float) None channel_driver).
  vm_compute. reflexivity.
Defined.

End DriverRuns.

(** ** The peak sweep *)

Module PeakSweepFacts.
Import Py PyFacts Myokit Driver PeakSweep DriverSpec PeakSweepSpec DriverFacts.

Lemma index_nat_inv {A} (l : list A) i x :
  index l (Z.of_nat i) = Ok x → l !! i = Some x.
Proof.
  unfold index, norm_index.
  destruct (Z.of_nat i <? 0) eqn:E; [apply Z.ltb_lt in E; lia|].
  destruct (_ || _); [done|]. rewrite Nat2Z.id.
  destruct (l !! i); [|done]. by intros [= <-].
Qed.

Lemma index_last_inv {A} (l : list A) x : index l (-1) = Ok x → last l = Some x.
Proof.
  unfold index, norm_index. cbn [Z.ltb Z.compare].
  destruct (_ || _) eqn:E; [done|].
  apply orb_false_iff in E as [E1%Z.ltb_ge E2%Z.leb_gt].
  replace (Z.to_nat (-1 + Z.of_nat (length l))) with (Nat.pred (length l)) by lia.
  rewrite last_lookup. destruct (l !! _); [|done]. by intros [= <-].
Qed.

Section Facts.
Context `{Service}.
Variable save_csv : DataLog.t → string → res ().
Variable str : float → string.
Variable data_dir : string.

Lemma sweep_loop self drug drug_conc repeats : ∀ n k current_model peaks self' out,
  same_setup self current_model →
  for_each (sweep_step save_csv str data_dir drug drug_conc repeats)
    (seq k n) (current_model, peaks) = Ok (self', out) →
  same_setup self self'
  ∧ ∃ new, out = peaks ++ new
           ∧ Forall2 (peak_at self drug repeats) (take n (drop k drug_conc)) new.
Proof.
  induction n as [|n IH]; intros k current_model peaks self' out Hsetup;
    cbn [seq for_each].
  - intros [= <- <-]. split; [done|]. exists []. rewrite app_nil_r, take_0.
    by repeat constructor.
  - intros Hloop. apply bind_inv in Hloop as ([next peaks'] & Hstep & Hloop).
    unfold sweep_step in Hstep.
    apply bind_inv in Hstep as (conc & Hconc%index_nat_inv & Hstep).
    apply bind_inv in Hstep as ([[next' st'] log] & Hrun & Hstep).
    apply bind_inv in Hstep as ([pk reduction] & Hpeak & Hstep).
    apply bind_inv in Hstep as (last_peak & Hlast%index_last_inv & Hstep).
    cbv zeta in Hstep.
    apply bind_inv in Hstep as (conc' & _ & Hstep).
    apply bind_inv in Hstep as (? & _ & [= <- <-]).
    assert (Hnext : same_setup self next').
    { eapply same_setup_trans; [exact Hsetup|]. eapply drug_simulation_setup; eauto. }
    destruct (IH _ _ _ _ _ Hnext Hloop) as (Hfinal & new & -> & Hnew).
    split; [done|]. exists (last_peak :: new).
    rewrite <- app_assoc. split; [done|].
    rewrite (drop_S _ _ _ Hconc). cbn [take]. constructor; [|done].
    exists next', st', log, pk, reduction.
    rewrite (drug_simulation_same self current_model) by done. done.
Qed.

(** X21.  The peaks of a sweep do not depend on the order of the
    concentrations: the sweep returns one peak per concentration, each the
    peak that a single [drug_simulation] at that concentration on the
    instance the sweep started from gives, and leaves the setup of the
    instance as it was. *)
Theorem peak_sweep_pointwise self drug drug_conc repeats self' peaks :
  peak_sweep save_csv str data_dir self drug drug_conc repeats = Ok (self', peaks) →
  same_setup self self'
  ∧ Forall2 (peak_at self drug repeats) drug_conc peaks.
Proof.
  unfold peak_sweep, range. rewrite Nat2Z.id. intros Hloop.
  apply (sweep_loop self) in Hloop as (Hsetup & new & Hnew & Hall);
    [|apply same_setup_refl].
  cbn [app] in Hnew. subst new.
  by rewrite drop_0, firstn_all in Hall.
Qed.

End Facts.

Lemma peak_sweep_pointwise_witness :
  same_setup current_driver verapamil_sweep.1
  ∧ Forall2 (peak_at current_driver "verapamil" 1000) [0; 1; 30]%float verapamil_sweep.2.
Proof.
  apply (@peak_sweep_pointwise current_probe (λ _ _, Ok ()) (λ _, "") ""
           current_driver "verapamil" [0; 1; 30]%float 1000).
  vm_compute. reflexivity.
Defined.

Example verapamil_sweep_peaks : verapamil_sweep.2 = [0; 1; 30]%float.
Proof. vm_compute. reflexivity. Qed.

(** X22.  Peaks that are all the same finite value normalise to NaN, every
    one of them: the span [max(peaks) - min(peaks)] is zero and so is each
    shifted peak. *)
Theorem normalise_flat c n :
  is_finite c = true →
  normalise (repeat c (S n)) = Ok (repeat nan (S n)).
Proof.
  intros Hc. pose proof (FloatArith.is_finite_not_nan c Hc) as Hn.
  unfold normalise.
  rewrite (SignalEdges.py_max_repeat c n Hn), (SignalEdges.py_min_repeat c n Hn), !bind_Ok.
  cbv zeta. rewrite !map_repeat, (SignalEdges.sub_self c Hc). reflexivity.
Qed.

Lemma normalise_flat_witness :
  normalise (repeat 0.25%float 3) = Ok (repeat nan 3).
Proof. apply (normalise_flat 0.25 2). reflexivity. Defined.

End PeakSweepFacts.
